(** * Quality-scored multi-expert orchestration: a shallow embedding

    This development embeds the routing, scoring and synthesis logic of the
    digital-twin agent system (src/agents) and proves the properties that its
    specification states about it.  It also embeds the response store
    (src/utils/file_streamer.py) and the start-up, background-task and
    responses handlers of the ingress layer (src/api/routes.py), and proves
    further properties that the code itself shows.

    Conventions of the embedding.
    - Python [float] values are embedded as exact rationals [Q]; every
      comparison and every constant is the one written in the source, and
      rounding is not modelled.
    - Python [str] values are embedded as [string], and the embedding covers
      ASCII text: [str.lower], [str.strip] and [len] are modelled on it, and
      a statement that depends on one of them on free text says so with the
      hypothesis [ascii_text].
    - A Python [dict] is an insertion-ordered association list.
    - Code that can raise returns in the [res] monad; the methods of an agent
      object that update counters thread the agent state explicitly.
    - Clock readings, [str] of a dict and float formatting are inputs of the
      embedding.  Logging, and the prompt text that the expert stubs build
      and never use, do not affect any result and are left out.
    - The JSON serializer and the outcome of constructing the AutoGen
      assistants and the expert classes are inputs as well; the response
      file is its text, and reading and writing it are taken to succeed. *)

From Stdlib Require Import List String Ascii Bool Arith ZArith QArith Lia Lqa.
From Stdlib Require Import DecimalString.
Import ListNotations.
Open Scope list_scope.
Open Scope string_scope.

Set Implicit Arguments.
Set Warnings "-register-all".

(** ** Exceptions and the result monad *)

Inductive exn : Type :=
| ValueError (msg : string)
| RuntimeError (msg : string)
| AttributeError (msg : string)
| TypeError (msg : string)
| KeyError (msg : string).

(** [str(e)] for an exception object. *)
Definition str_exn (e : exn) : string :=
  match e with
  | ValueError m | RuntimeError m | AttributeError m | TypeError m => m
  | KeyError m => "'" ++ m ++ "'"
  end.

Inductive res (A : Type) : Type :=
| Ok (a : A)
| Raise (e : exn).
Arguments Ok {A} a.
Arguments Raise {A} e.

Definition bind {A B : Type} (c : res A) (k : A -> res B) : res B :=
  match c with
  | Ok a => k a
  | Raise e => Raise e
  end.

Notation "x <- c ;; k" := (bind c (fun x => k))
  (at level 61, c at next level, right associativity).

(** ** Strings

    The embedding covers ASCII text, one character per element of a
    [string].  On such text [lower], [strip] and the length of a string are
    Python's.  On text with a character outside ASCII they are not
    ([str.lower] and [str.strip] follow the Unicode tables, and [len]
    counts characters), so a statement whose outcome depends on such an
    operation on free text assumes [ascii_text] of that text. *)

Definition ascii_char (c : ascii) : bool := (nat_of_ascii c <? 128)%nat.

Fixpoint ascii_text (s : string) : bool :=
  match s with
  | EmptyString => true
  | String c s' => ascii_char c && ascii_text s'
  end.

Definition lower_ascii (c : ascii) : ascii :=
  let n := nat_of_ascii c in
  if (65 <=? n)%nat && (n <=? 90)%nat then ascii_of_nat (n + 32) else c.

(** [s.lower()], for ASCII text. *)
Fixpoint lower (s : string) : string :=
  match s with
  | EmptyString => EmptyString
  | String c s' => String (lower_ascii c) (lower s')
  end.

(** [s.replace(" ", "_")], the only use of [str.replace] in the source. *)
Fixpoint replace_space_underscore (s : string) : string :=
  match s with
  | EmptyString => EmptyString
  | String c s' =>
      String (if Ascii.eqb c " "%char then "_"%char else c)
             (replace_space_underscore s')
  end.

(** [needle in hay] for two strings: substring test. *)
Fixpoint str_in (needle hay : string) : bool :=
  if prefix needle hay then true
  else match hay with
       | EmptyString => false
       | String _ hay' => str_in needle hay'
       end.

(** [any(keyword in text for keyword in keywords)] *)
Definition any_in (keywords : list string) (text : string) : bool :=
  existsb (fun keyword => str_in keyword text) keywords.

(** [sum(1 for keyword in keywords if keyword in text)] *)
Definition count_in (keywords : list string) (text : string) : nat :=
  List.length (filter (fun keyword => str_in keyword text) keywords).

(** [sep.join(parts)] *)
Fixpoint join (sep : string) (parts : list string) : string :=
  match parts with
  | [] => ""
  | [p] => p
  | p :: rest => p ++ sep ++ join sep rest
  end.

(** [str(n)] for a non-negative integer. *)
Definition str_nat (n : nat) : string :=
  NilEmpty.string_of_uint (Nat.to_uint n).

(** ** The quality metric model (quality_check_interface.py) *)

Inductive QualityScore : Type :=
| EXCELLENT | GOOD | SATISFACTORY | NEEDS_IMPROVEMENT | POOR.

Inductive QualityDimension : Type :=
| ACCURACY | COMPLETENESS | RELEVANCE | TIMELINESS
| CONSISTENCY | CLARITY | ACTIONABILITY.

Definition QualityDimension_eqb (a b : QualityDimension) : bool :=
  match a, b with
  | ACCURACY, ACCURACY | COMPLETENESS, COMPLETENESS | RELEVANCE, RELEVANCE
  | TIMELINESS, TIMELINESS | CONSISTENCY, CONSISTENCY | CLARITY, CLARITY
  | ACTIONABILITY, ACTIONABILITY => true
  | _, _ => false
  end.

(** The [value] attribute of a [QualityScore] member. *)
Definition QualityScore_value (s : QualityScore) : string :=
  match s with
  | EXCELLENT => "excellent"
  | GOOD => "good"
  | SATISFACTORY => "satisfactory"
  | NEEDS_IMPROVEMENT => "needs_improvement"
  | POOR => "poor"
  end.

Definition QualityDimension_value (d : QualityDimension) : string :=
  match d with
  | ACCURACY => "accuracy"
  | COMPLETENESS => "completeness"
  | RELEVANCE => "relevance"
  | TIMELINESS => "timeliness"
  | CONSISTENCY => "consistency"
  | CLARITY => "clarity"
  | ACTIONABILITY => "actionability"
  end.

Record QualityMetric : Type := mkQualityMetric {
  dimension : QualityDimension;
  score : Q;
  weight : Q;
  description : string;
  issues : list string;
  recommendations : list string
}.

(** Python's [sum] over floats: a left fold from [0]. *)
Definition sumQ (xs : list Q) : Q := fold_left Qplus xs 0.

Definition total_weight (metrics : list QualityMetric) : Q :=
  sumQ (map weight metrics).

Definition weighted_sum (metrics : list QualityMetric) : Q :=
  sumQ (map (fun metric => score metric * weight metric) metrics).

(** [BaseAgent._calculate_overall_score] *)
Definition _calculate_overall_score (metrics : list QualityMetric) : Q :=
  match metrics with
  | [] => 0
  | _ =>
      if Qeq_bool (total_weight metrics) 0 then 0
      else weighted_sum metrics / total_weight metrics
  end.


(** ** Python values

    The dynamically typed payloads that flow between the agents: analysis
    dicts, synthesis dicts and the final envelope. *)

Inductive value : Type :=
| VNone
| VBool (b : bool)
| VInt (n : Z)
| VFloat (q : Q)
| VStr (s : string)
| VList (l : list value)
| VDict (d : list (string * value))
| VDimension (d : QualityDimension)
| VQualityScore (s : QualityScore)
| VDatetime (t : Q).

Definition dict : Type := list (string * value).

(** [max(0.0, x)] *)
Definition max0 (x : Q) : Q := if Qle_bool x 0 then 0 else x.

(** [x < y] and [x > y] on floats *)
Definition Qlt_bool (x y : Q) : bool :=
  (Qnum x * QDen y <? Qnum y * QDen x)%Z.
Definition Qgt_bool (x y : Q) : bool := Qlt_bool y x.

Definition type_name (v : value) : string :=
  match v with
  | VNone => "NoneType"
  | VBool _ => "bool"
  | VInt _ => "int"
  | VFloat _ => "float"
  | VStr _ => "str"
  | VList _ => "list"
  | VDict _ => "dict"
  | VDimension _ => "QualityDimension"
  | VQualityScore _ => "QualityScore"
  | VDatetime _ => "datetime.datetime"
  end.

(** Dictionaries are insertion-ordered; the same operations serve the
    payload dicts and the registry of expert objects. *)
Section Dict.
Variable V : Type.

(** [d.get(k)] as an option: [None] when the key is absent. *)
Fixpoint dict_get (d : list (string * V)) (k : string) : option V :=
  match d with
  | [] => None
  | (k', v) :: d' => if String.eqb k' k then Some v else dict_get d' k
  end.

(** [k in d] *)
Definition dict_has (d : list (string * V)) (k : string) : bool :=
  match dict_get d k with
  | Some _ => true
  | None => false
  end.

(** [d.get(k, default)] *)
Definition get_default (d : list (string * V)) (k : string) (default : V) : V :=
  match dict_get d k with
  | Some v => v
  | None => default
  end.

(** [d[k] = v]: an existing key keeps its position, a new key goes last. *)
Fixpoint dict_set (d : list (string * V)) (k : string) (v : V)
  : list (string * V) :=
  match d with
  | [] => [(k, v)]
  | (k', v') :: d' =>
      if String.eqb k' k then (k', v) :: d' else (k', v') :: dict_set d' k v
  end.

(** [list(d.keys())] and [list(d.values())] *)
Definition keys (d : list (string * V)) : list string := map fst d.
Definition values (d : list (string * V)) : list V := map snd d.
End Dict.

(** Truthiness, [bool(v)]. *)
Definition py_bool (v : value) : bool :=
  match v with
  | VNone => false
  | VBool b => b
  | VInt n => negb (n =? 0)%Z
  | VFloat q => negb (Qeq_bool q 0)
  | VStr s => negb (String.eqb s "")
  | VList l => match l with [] => false | _ => true end
  | VDict d => match d with [] => false | _ => true end
  | VDimension _ | VQualityScore _ | VDatetime _ => true
  end.

(** [len(v)]; for a string, the number of characters of ASCII text. *)
Definition py_len (v : value) : res nat :=
  match v with
  | VStr s => Ok (String.length s)
  | VList l => Ok (List.length l)
  | VDict d => Ok (List.length d)
  | _ => Raise (TypeError ("object of type '" ++ type_name v ++ "' has no len()"))
  end.

Fixpoint chars (s : string) : list value :=
  match s with
  | EmptyString => []
  | String c s' => VStr (String c EmptyString) :: chars s'
  end.

(** The elements produced by iterating over [v]. *)
Definition py_iter (v : value) : res (list value) :=
  match v with
  | VStr s => Ok (chars s)
  | VList l => Ok l
  | VDict d => Ok (map (fun kv => VStr (fst kv)) d)
  | _ => Raise (TypeError ("'" ++ type_name v ++ "' object is not iterable"))
  end.

(** [v.lower()] *)
Definition py_lower (v : value) : res string :=
  match v with
  | VStr s => Ok (lower s)
  | _ => Raise (AttributeError
                  ("'" ++ type_name v ++ "' object has no attribute 'lower'"))
  end.

Definition is_VStr (needle : string) (v : value) : bool :=
  match v with
  | VStr s => String.eqb needle s
  | _ => false
  end.

(** [needle in v] for a string [needle]. *)
Definition py_in (needle : string) (v : value) : res bool :=
  match v with
  | VStr s => Ok (str_in needle s)
  | VList l => Ok (existsb (is_VStr needle) l)
  | VDict d => Ok (dict_has d needle)
  | _ => Raise (TypeError
                  ("argument of type '" ++ type_name v ++ "' is not iterable"))
  end.

(** [v[key]] for a string [key]. *)
Definition py_getitem (v : value) (key : string) : res value :=
  match v with
  | VDict d => match dict_get d key with
               | Some x => Ok x
               | None => Raise (KeyError key)
               end
  | VStr _ => Raise (TypeError "string indices must be integers, not 'str'")
  | VList _ =>
      Raise (TypeError "list indices must be integers or slices, not str")
  | _ => Raise (TypeError
                  ("'" ++ type_name v ++ "' object is not subscriptable"))
  end.

(** [v.get(key, default)] *)
Definition py_get (v : value) (key : string) (default : value) : res value :=
  match v with
  | VDict d => Ok (get_default d key default)
  | _ => Raise (AttributeError
                  ("'" ++ type_name v ++ "' object has no attribute 'get'"))
  end.

(** [v.values()] *)
Definition py_values (v : value) : res (list value) :=
  match v with
  | VDict d => Ok (values d)
  | _ => Raise (AttributeError
                  ("'" ++ type_name v ++ "' object has no attribute 'values'"))
  end.

(** The number a value stands for in an ordering comparison with a float. *)
Definition py_number (op : string) (v : value) : res Q :=
  match v with
  | VBool b => Ok (if b then 1 else 0)
  | VInt n => Ok (inject_Z n)
  | VFloat q => Ok q
  | _ => Raise (TypeError
                  ("'" ++ op ++ "' not supported between instances of '"
                       ++ type_name v ++ "' and 'float'"))
  end.

(** ** Requests

    The request dict, with the field types of the ingress model
    (api/models.py); [None] stands for an absent key. *)

Record Request : Type := mkRequest {
  request_id : option string;
  user_id : option string;
  request_type : option string;
  request_description : option string;
  priority : option string;
  metadata : option dict
}.

(** [request.get(field, default)] for a string field. *)
Definition get_str (field : option string) (default : string) : string :=
  match field with
  | Some s => s
  | None => default
  end.

Record QualityReport : Type := mkQualityReport {
  agent_name : string;
  report_request_id : string;
  overall_score : Q;
  quality_level : value;
  metrics : list QualityMetric;
  summary : string;
  timestamp : Q;
  passed_threshold : bool;
  approved_for_publication : bool;
  total_issues : nat;
  total_recommendations : nat
}.


(** ** Built-ins left abstract

    [py_str] is [str(d)] for a dict (the Python [repr] of its contents) and
    [format_2f] is the format specification [:.2f] applied to a float.  Both
    only feed keyword counts and message texts. *)

Record Builtins : Type := mkBuiltins {
  py_str : dict -> string;
  format_2f : Q -> string
}.

Definition upper_ascii (c : ascii) : ascii :=
  let n := nat_of_ascii c in
  if (97 <=? n)%nat && (n <=? 122)%nat then ascii_of_nat (n - 32) else c.

(** [s.upper()] *)
Fixpoint upper (s : string) : string :=
  match s with
  | EmptyString => EmptyString
  | String c s' => String (upper_ascii c) (upper s')
  end.

(** The newline character of the summary text. *)
Definition nl : string := String (ascii_of_nat 10) EmptyString.

(** ** Agents as objects

    An agent object seen through the methods that [evaluate_quality]
    dispatches on: each subclass supplies its own table. *)

Record AgentClass : Type := mkAgentClass {
  v_name : string;
  v_get_quality_threshold : Q;
  v_get_quality_metrics : list QualityMetric;
  v_assess_accuracy : dict -> Request -> res QualityMetric;
  v_assess_completeness : dict -> Request -> res QualityMetric;
  v_assess_relevance : dict -> Request -> res QualityMetric;
  v_assess_timeliness : dict -> Request -> res QualityMetric;
  v_assess_consistency : dict -> Request -> res QualityMetric;
  v_assess_clarity : dict -> Request -> res QualityMetric;
  v_assess_actionability : dict -> Request -> res QualityMetric;
  v_determine_quality_level : Q -> value;
  v_generate_summary : list QualityMetric -> Q -> res string
}.

(** [sum(len(metric.issues) for metric in metrics)] *)
Definition count_issues (metrics : list QualityMetric) : nat :=
  fold_left Nat.add (map (fun metric => List.length (issues metric)) metrics) 0%nat.

Definition count_recommendations (metrics : list QualityMetric) : nat :=
  fold_left Nat.add
    (map (fun metric => List.length (recommendations metric)) metrics) 0%nat.

(** *** class QualityCheckInterface: the default rules *)

Module QualityCheckInterface.

Definition assess_accuracy (agent_result : dict) (original_request : Request)
  : res QualityMetric :=
  Ok (mkQualityMetric ACCURACY 0.5 0.3
        "Accuracy assessment not implemented for this agent"
        ["Accuracy assessment not customized"]
        ["Implement custom accuracy assessment"]).

Definition assess_completeness (agent_result : dict) (original_request : Request)
  : res QualityMetric :=
  Ok (mkQualityMetric COMPLETENESS 0.5 0.2
        "Completeness assessment not implemented for this agent"
        ["Completeness assessment not customized"]
        ["Implement custom completeness assessment"]).

Definition assess_relevance (agent_result : dict) (original_request : Request)
  : res QualityMetric :=
  Ok (mkQualityMetric RELEVANCE 0.5 0.2
        "Relevance assessment not implemented for this agent"
        ["Relevance assessment not customized"]
        ["Implement custom relevance assessment"]).

Definition assess_timeliness (py : Builtins)
           (agent_result : dict) (original_request : Request)
  : res QualityMetric :=
  let processing_time := get_default agent_result "processing_time" (VInt 0) in
  let excellent_threshold := 5.0 in
  let good_threshold := 15.0 in
  let satisfactory_threshold := 30.0 in
  let needs_improvement_threshold := 60.0 in
  t <- py_number "<=" processing_time ;;
  let '(score, description) :=
    if Qle_bool t excellent_threshold then
      (1.0, "Excellent response time: " ++ format_2f py t ++ "s")
    else if Qle_bool t good_threshold then
      (0.8, "Good response time: " ++ format_2f py t ++ "s")
    else if Qle_bool t satisfactory_threshold then
      (0.6, "Satisfactory response time: " ++ format_2f py t ++ "s")
    else if Qle_bool t needs_improvement_threshold then
      (0.4, "Response time needs improvement: " ++ format_2f py t ++ "s")
    else
      (0.2, "Poor response time: " ++ format_2f py t ++ "s") in
  let '(issues, recommendations) :=
    if Qgt_bool t good_threshold then
      (["Response time (" ++ format_2f py t ++ "s) exceeds optimal threshold"],
       ["Consider optimizing agent processing logic"])
    else ([], []) in
  Ok (mkQualityMetric TIMELINESS score 0.1 description issues recommendations).

Definition assess_consistency (agent_result : dict) (original_request : Request)
  : res QualityMetric :=
  Ok (mkQualityMetric CONSISTENCY 0.5 0.1
        "Consistency assessment not implemented for this agent"
        ["Consistency assessment not customized"]
        ["Implement custom consistency assessment"]).

Definition assess_clarity (agent_result : dict) (original_request : Request)
  : res QualityMetric :=
  Ok (mkQualityMetric CLARITY 0.5 0.05
        "Clarity assessment not implemented for this agent"
        ["Clarity assessment not customized"]
        ["Implement custom clarity assessment"]).

Definition assess_actionability (agent_result : dict) (original_request : Request)
  : res QualityMetric :=
  Ok (mkQualityMetric ACTIONABILITY 0.5 0.05
        "Actionability assessment not implemented for this agent"
        ["Actionability assessment not customized"]
        ["Implement custom actionability assessment"]).

Definition determine_quality_level (score : Q) : value :=
  if Qle_bool 0.9 score then VQualityScore EXCELLENT
  else if Qle_bool 0.8 score then VQualityScore GOOD
  else if Qle_bool 0.7 score then VQualityScore SATISFACTORY
  else if Qle_bool 0.6 score then VQualityScore NEEDS_IMPROVEMENT
  else VQualityScore POOR.

(** [quality_level.value.upper()]: only an enum member has [.value]. *)
Definition level_value_upper (quality_level : value) : res string :=
  match quality_level with
  | VQualityScore s => Ok (upper (QualityScore_value s))
  | _ => Raise (AttributeError
                  ("'" ++ type_name quality_level
                       ++ "' object has no attribute 'value'"))
  end.

(** [self_determine_quality_level] is the caller's own
    [determine_quality_level], reached through [self]. *)
Definition generate_summary (py : Builtins)
           (self_determine_quality_level : Q -> value)
           (metrics : list QualityMetric) (overall_score : Q) : res string :=
  let quality_level := self_determine_quality_level overall_score in
  let total_issues := count_issues metrics in
  let total_recommendations := count_recommendations metrics in
  level <- level_value_upper quality_level ;;
  let summary :=
    "Quality Assessment: " ++ level ++ " (Score: "
      ++ format_2f py overall_score ++ ")" ++ nl in
  let summary :=
    summary ++ "Total Issues Found: " ++ str_nat total_issues ++ nl in
  let summary :=
    summary ++ "Total Recommendations: "
      ++ str_nat total_recommendations ++ nl in
  if (total_issues =? 0)%nat then
    Ok (summary
          ++ "No quality issues detected. Results are ready for publication.")
  else
    Ok (summary
          ++ "Quality issues detected. Review recommended before publication.").

End QualityCheckInterface.

(** *** class BaseAgent *)

Module BaseAgent.

(** The [if]/[elif] chain of the evaluation loop. *)
Definition assess (self : AgentClass) (metric : QualityMetric)
           (agent_result : dict) (original_request : Request)
  : res QualityMetric :=
  match dimension metric with
  | ACCURACY => v_assess_accuracy self agent_result original_request
  | COMPLETENESS => v_assess_completeness self agent_result original_request
  | RELEVANCE => v_assess_relevance self agent_result original_request
  | TIMELINESS => v_assess_timeliness self agent_result original_request
  | CONSISTENCY => v_assess_consistency self agent_result original_request
  | CLARITY => v_assess_clarity self agent_result original_request
  | ACTIONABILITY => v_assess_actionability self agent_result original_request
  end.

(** The loop [for metric in metrics: assessed_metrics.append(...)]. *)
Fixpoint assess_each (self : AgentClass) (metrics : list QualityMetric)
         (agent_result : dict) (original_request : Request)
  : res (list QualityMetric) :=
  match metrics with
  | [] => Ok []
  | metric :: rest =>
      assessed <- assess self metric agent_result original_request ;;
      others <- assess_each self rest agent_result original_request ;;
      Ok (assessed :: others)
  end.

(** [utcnow] is the reading of [datetime.utcnow()]. *)
Definition evaluate_quality (self : AgentClass) (utcnow : Q)
           (agent_result : dict) (original_request : Request)
  : res QualityReport :=
  let metrics := v_get_quality_metrics self in
  assessed_metrics <- assess_each self metrics agent_result original_request ;;
  let overall_score := _calculate_overall_score assessed_metrics in
  let threshold := v_get_quality_threshold self in
  let passed_threshold := Qle_bool threshold overall_score in
  let approved_for_publication :=
    passed_threshold && Qle_bool 0.7 overall_score in
  summary <- v_generate_summary self assessed_metrics overall_score ;;
  let total_issues := count_issues assessed_metrics in
  let total_recommendations := count_recommendations assessed_metrics in
  Ok (mkQualityReport
        (v_name self)
        (get_str (request_id original_request) "unknown")
        overall_score
        (v_determine_quality_level self overall_score)
        assessed_metrics
        summary
        utcnow
        passed_threshold
        approved_for_publication
        total_issues
        total_recommendations).

Definition get_quality_threshold : Q := 0.6.

Definition get_quality_metrics : list QualityMetric :=
  [ mkQualityMetric ACCURACY 0.0 0.3 "Accuracy assessment" [] [];
    mkQualityMetric COMPLETENESS 0.0 0.2 "Completeness assessment" [] [];
    mkQualityMetric RELEVANCE 0.0 0.2 "Relevance assessment" [] [];
    mkQualityMetric TIMELINESS 0.0 0.1 "Timeliness assessment" [] [];
    mkQualityMetric CONSISTENCY 0.0 0.1 "Consistency assessment" [] [];
    mkQualityMetric CLARITY 0.0 0.05 "Clarity assessment" [] [];
    mkQualityMetric ACTIONABILITY 0.0 0.05 "Actionability assessment" [] [] ].

Definition metric_to_dict (m : QualityMetric) : value :=
  VDict [ ("dimension", VDimension (dimension m));
          ("score", VFloat (score m));
          ("weight", VFloat (weight m));
          ("description", VStr (description m));
          ("issues", VList (map VStr (issues m)));
          ("recommendations", VList (map VStr (recommendations m))) ].

(** [asdict(quality_report)] *)
Definition serialize_quality_report (quality_report : QualityReport) : dict :=
  [ ("agent_name", VStr (agent_name quality_report));
    ("request_id", VStr (report_request_id quality_report));
    ("overall_score", VFloat (overall_score quality_report));
    ("quality_level", quality_level quality_report);
    ("metrics", VList (map metric_to_dict (metrics quality_report)));
    ("summary", VStr (summary quality_report));
    ("timestamp", VDatetime (timestamp quality_report));
    ("passed_threshold", VBool (passed_threshold quality_report));
    ("approved_for_publication",
      VBool (approved_for_publication quality_report));
    ("total_issues", VInt (Z.of_nat (total_issues quality_report)));
    ("total_recommendations",
      VInt (Z.of_nat (total_recommendations quality_report))) ].

(** A plain [BaseAgent]: every rule is the interface default. *)
Definition class (py : Builtins) (name : string) : AgentClass :=
  mkAgentClass name
    get_quality_threshold
    get_quality_metrics
    QualityCheckInterface.assess_accuracy
    QualityCheckInterface.assess_completeness
    QualityCheckInterface.assess_relevance
    (QualityCheckInterface.assess_timeliness py)
    QualityCheckInterface.assess_consistency
    QualityCheckInterface.assess_clarity
    QualityCheckInterface.assess_actionability
    QualityCheckInterface.determine_quality_level
    (QualityCheckInterface.generate_summary py
       QualityCheckInterface.determine_quality_level).

End BaseAgent.

(** [analysis[key].append(item)] on a dict whose [key] holds a list, as in
    the analysis literals of the generators. *)
Fixpoint append_to (analysis : dict) (key : string) (item : string) : dict :=
  match analysis with
  | [] => []
  | (k, v) :: rest =>
      if String.eqb k key then
        (k, match v with
            | VList l => VList (l ++ [VStr item])%list
            | _ => v
            end) :: rest
      else (k, v) :: append_to rest key item
  end.

(** A run of [analysis[key].append(item)] statements. *)
Definition append_all (analysis : dict) (items : list (string * string)) : dict :=
  fold_left (fun a ki => append_to a (fst ki) (snd ki)) items analysis.

(** [any("reduction" in outcome.lower() or "%" in outcome
         for outcome in outcomes)], stopping at the first hit. *)
Fixpoint savings_mentioned (outcomes : list value) : res bool :=
  match outcomes with
  | [] => Ok false
  | outcome :: rest =>
      low <- py_lower outcome ;;
      hit <- (if str_in "reduction" low then Ok true else py_in "%" outcome) ;;
      if hit then Ok true else savings_mentioned rest
  end.

(** The sections of [required_sections] that fail
    [section in agent_result and agent_result[section]]. *)
Definition missing_sections_of (agent_result : dict)
           (required_sections : list string) : list string :=
  filter (fun section =>
            negb (dict_has agent_result section
                  && py_bool (get_default agent_result section VNone)))
         required_sections.

(** *** class FinancialHealthExpert *)

Module FinancialHealthExpert.

Definition name : string := "FinancialHealthExpert".
Definition expertise : string := "financial_health".

Definition _generate_financial_analysis (description : string)
           (metadata : option dict) : dict :=
  let description_lower := lower description in
  let analysis : dict :=
    [ ("analysis_type", VStr "financial_health");
      ("financial_health_score", VStr "good");
      ("key_issues", VList []);
      ("budget_optimization", VList []);
      ("investment_recommendations", VList []);
      ("debt_management", VList []);
      ("risk_assessment", VList []);
      ("implementation_timeline", VStr "3-12 months");
      ("expected_outcomes", VList []);
      ("priority_actions", VList []);
      ("estimated_savings", VStr "10-25%");
      ("risk_level", VStr "moderate") ] in
  let analysis :=
    if any_in ["budget"; "spending"; "expenses"; "cost"] description_lower then
      append_all analysis
        [ ("key_issues", "Budget optimization needed");
          ("budget_optimization", "Implement 50/30/20 budgeting rule");
          ("budget_optimization", "Track all expenses for 30 days");
          ("budget_optimization", "Identify and reduce discretionary spending");
          ("expected_outcomes", "15-25% reduction in unnecessary expenses");
          ("priority_actions", "Set up expense tracking system") ]
    else analysis in
  let analysis :=
    if any_in ["investment"; "portfolio"; "savings"; "retirement"]
              description_lower then
      append_all analysis
        [ ("key_issues", "Investment strategy optimization needed");
          ("investment_recommendations", "Diversify investment portfolio");
          ("investment_recommendations", "Increase retirement contributions");
          ("investment_recommendations", "Consider index fund investments");
          ("expected_outcomes", "8-12% annual investment returns");
          ("priority_actions", "Review and rebalance investment portfolio") ]
    else analysis in
  let analysis :=
    if any_in ["debt"; "credit"; "loan"; "payment"] description_lower then
      append_all analysis
        [ ("key_issues", "Debt management strategy needed");
          ("debt_management", "Prioritize high-interest debt repayment");
          ("debt_management", "Consider debt consolidation options");
          ("debt_management", "Negotiate lower interest rates");
          ("expected_outcomes", "20-40% reduction in debt payments");
          ("priority_actions", "Create debt repayment plan") ]
    else analysis in
  let analysis :=
    if str_in "financial" description_lower
       || str_in "money" description_lower
       || str_in "finance" description_lower then
      append_all analysis
        [ ("key_issues", "Comprehensive financial health improvement needed");
          ("budget_optimization", "Implement comprehensive financial planning");
          ("investment_recommendations",
            "Develop long-term investment strategy");
          ("debt_management", "Create debt reduction timeline");
          ("expected_outcomes", "25-35% overall financial improvement");
          ("priority_actions", "Conduct comprehensive financial audit") ]
    else analysis in
  let analysis :=
    if negb (py_bool (get_default analysis "key_issues" VNone)) then
      append_all analysis
        [ ("key_issues", "General financial health assessment needed");
          ("budget_optimization", "Implement basic budgeting system");
          ("investment_recommendations", "Start emergency fund savings");
          ("debt_management", "Review all outstanding debts");
          ("expected_outcomes", "10-20% overall financial improvement");
          ("priority_actions", "Schedule financial health assessment") ]
    else analysis in
  analysis.

Definition _expert_process (request_data : Request) : dict :=
  let description := get_str (request_description request_data) "" in
  _generate_financial_analysis description (metadata request_data).

Definition assess_accuracy (py : Builtins)
           (agent_result : dict) (original_request : Request)
  : res QualityMetric :=
  let analysis := get_default agent_result "analysis_type" (VStr "") in
  if negb (is_VStr "financial_health" analysis) then
    Ok (mkQualityMetric ACCURACY 0.3 0.3
          "Analysis type mismatch - not financial health focused"
          ["Analysis type does not match financial health expertise"]
          ["Ensure analysis focuses on financial health aspects"])
  else
    let financial_keywords :=
      ["budget"; "investment"; "debt"; "savings"; "financial"; "money";
       "expense"; "income"] in
    let response_text := lower (py_str py agent_result) in
    let keyword_matches := count_in financial_keywords response_text in
    if (4 <=? keyword_matches)%nat then
      Ok (mkQualityMetric ACCURACY 0.9 0.3
            ("High accuracy: " ++ str_nat keyword_matches
               ++ " financial concepts identified")
            [] [])
    else if (2 <=? keyword_matches)%nat then
      Ok (mkQualityMetric ACCURACY 0.7 0.3
            ("Moderate accuracy: " ++ str_nat keyword_matches
               ++ " financial concepts identified")
            ["Limited financial-specific analysis"]
            ["Include more financial-specific recommendations"])
    else
      Ok (mkQualityMetric ACCURACY 0.4 0.3
            "Low accuracy: No financial-specific analysis detected"
            ["No financial-specific analysis provided"]
            ["Focus analysis on financial health aspects"]).

Definition assess_completeness (agent_result : dict) (original_request : Request)
  : res QualityMetric :=
  let required_sections :=
    ["key_issues"; "budget_optimization"; "investment_recommendations";
     "debt_management"; "expected_outcomes"; "priority_actions"] in
  let missing_sections := missing_sections_of agent_result required_sections in
  let n := List.length missing_sections in
  if (n =? 0)%nat then
    Ok (mkQualityMetric COMPLETENESS 1.0 0.2
          "Complete analysis: All required sections present" [] [])
  else if (n <=? 2)%nat then
    Ok (mkQualityMetric COMPLETENESS 0.8 0.2
          ("Mostly complete: Missing " ++ str_nat n ++ " sections")
          ["Missing sections: " ++ join ", " missing_sections]
          ["Add missing sections: " ++ join ", " missing_sections])
  else
    Ok (mkQualityMetric COMPLETENESS 0.5 0.2
          ("Incomplete analysis: Missing " ++ str_nat n ++ " sections")
          ["Multiple missing sections: " ++ join ", " missing_sections]
          ["Complete all required analysis sections"]).

Definition assess_relevance (agent_result : dict) (original_request : Request)
  : res QualityMetric :=
  let description := lower (get_str (request_description original_request) "") in
  let request_keywords :=
    ["financial"; "money"; "budget"; "investment"; "debt"; "savings";
     "expense"; "income"] in
  let request_relevance := count_in request_keywords description in
  if (2 <=? request_relevance)%nat then
    Ok (mkQualityMetric RELEVANCE 0.9 0.2
          "Highly relevant: Request clearly financial-focused" [] [])
  else if (1 <=? request_relevance)%nat then
    Ok (mkQualityMetric RELEVANCE 0.7 0.2
          "Moderately relevant: Some financial aspects in request"
          ["Request could be more financial-specific"]
          ["Clarify financial-specific requirements"])
  else
    Ok (mkQualityMetric RELEVANCE 0.4 0.2
          "Low relevance: Request not clearly financial-focused"
          ["Request lacks financial-specific context"]
          ["Provide more financial-specific context in request"]).

Definition assess_consistency (agent_result : dict) (original_request : Request)
  : res QualityMetric :=
  let estimated_savings := get_default agent_result "estimated_savings" (VStr "") in
  let expected_outcomes := get_default agent_result "expected_outcomes" (VList []) in
  outcomes <- py_iter expected_outcomes ;;
  mentioned <- savings_mentioned outcomes ;;
  if py_bool estimated_savings && mentioned then
    Ok (mkQualityMetric CONSISTENCY 0.9 0.1
          "Consistent savings estimates across analysis" [] [])
  else if py_bool estimated_savings || mentioned then
    Ok (mkQualityMetric CONSISTENCY 0.7 0.1
          "Partial savings consistency"
          ["Savings estimates not consistently mentioned"]
          ["Ensure savings estimates are consistent throughout"])
  else
    Ok (mkQualityMetric CONSISTENCY 0.5 0.1
          "No consistent savings estimates found"
          ["No savings estimates provided"]
          ["Include consistent savings estimates"]).

Definition assess_clarity (agent_result : dict) (original_request : Request)
  : res QualityMetric :=
  let priority_actions := get_default agent_result "priority_actions" (VList []) in
  let implementation_timeline :=
    get_default agent_result "implementation_timeline" (VStr "") in
  n <- py_len priority_actions ;;
  if (2 <=? n)%nat && py_bool implementation_timeline then
    Ok (mkQualityMetric CLARITY 0.9 0.05
          "Clear priority actions and timeline provided" [] [])
  else if (1 <=? n)%nat then
    Ok (mkQualityMetric CLARITY 0.7 0.05
          "Some priority actions provided"
          ["Limited implementation guidance"]
          ["Provide more detailed priority actions and timeline"])
  else
    Ok (mkQualityMetric CLARITY 0.4 0.05
          "No clear priority actions"
          ["No implementation guidance provided"]
          ["Include clear priority actions and timeline"]).

Definition assess_actionability (agent_result : dict) (original_request : Request)
  : res QualityMetric :=
  let budget_optimization :=
    get_default agent_result "budget_optimization" (VList []) in
  let investment_recommendations :=
    get_default agent_result "investment_recommendations" (VList []) in
  let debt_management := get_default agent_result "debt_management" (VList []) in
  n1 <- py_len budget_optimization ;;
  n2 <- py_len investment_recommendations ;;
  n3 <- py_len debt_management ;;
  let total_recommendations := (n1 + n2 + n3)%nat in
  if (4 <=? total_recommendations)%nat then
    Ok (mkQualityMetric ACTIONABILITY 0.9 0.05
          ("Highly actionable: " ++ str_nat total_recommendations
             ++ " specific recommendations")
          [] [])
  else if (2 <=? total_recommendations)%nat then
    Ok (mkQualityMetric ACTIONABILITY 0.7 0.05
          ("Somewhat actionable: " ++ str_nat total_recommendations
             ++ " recommendations")
          ["Limited actionable recommendations"]
          ["Provide more specific actionable recommendations"])
  else
    Ok (mkQualityMetric ACTIONABILITY 0.4 0.05
          "Not actionable: No specific recommendations"
          ["No actionable recommendations provided"]
          ["Include specific actionable recommendations"]).

Definition get_quality_threshold : Q := 0.75.

Definition class (py : Builtins) : AgentClass :=
  mkAgentClass name
    get_quality_threshold
    BaseAgent.get_quality_metrics
    (assess_accuracy py)
    assess_completeness
    assess_relevance
    (QualityCheckInterface.assess_timeliness py)
    assess_consistency
    assess_clarity
    assess_actionability
    QualityCheckInterface.determine_quality_level
    (QualityCheckInterface.generate_summary py
       QualityCheckInterface.determine_quality_level).

End FinancialHealthExpert.

(** *** class UtilityManagementExpert *)

Module UtilityManagementExpert.

Definition name : string := "UtilityManagementExpert".
Definition expertise : string := "utility_management".

Definition _generate_utility_analysis (description : string)
           (metadata : option dict) : dict :=
  let description_lower := lower description in
  let analysis : dict :=
    [ ("analysis_type", VStr "utility_management");
      ("key_issues", VList []);
      ("optimization_opportunities", VList []);
      ("cost_savings_recommendations", VList []);
      ("implementation_steps", VList []);
      ("expected_benefits", VList []);
      ("risk_considerations", VList []);
      ("technology_recommendations", VList []);
      ("priority_level", VStr "medium");
      ("estimated_savings", VStr "5-15%");
      ("implementation_timeline", VStr "3-6 months") ] in
  let analysis :=
    if any_in ["energy"; "electricity"; "power"; "consumption"]
              description_lower then
      append_all analysis
        [ ("key_issues", "High energy consumption patterns detected");
          ("optimization_opportunities",
            "Implement smart energy monitoring systems");
          ("cost_savings_recommendations",
            "Switch to energy-efficient appliances");
          ("implementation_steps",
            "Conduct energy audit and identify high-consumption areas");
          ("expected_benefits", "15-25% reduction in energy costs");
          ("technology_recommendations",
            "Smart meters and energy monitoring devices") ]
    else analysis in
  let analysis :=
    if any_in ["water"; "usage"; "bills"; "leak"] description_lower then
      append_all analysis
        [ ("key_issues", "Water usage optimization needed");
          ("optimization_opportunities", "Install water-efficient fixtures");
          ("cost_savings_recommendations", "Implement leak detection systems");
          ("implementation_steps",
            "Audit water usage patterns and identify leaks");
          ("expected_benefits", "10-20% reduction in water costs");
          ("technology_recommendations",
            "Smart water meters and leak detectors") ]
    else analysis in
  let analysis :=
    if str_in "optimization" description_lower
       || str_in "efficiency" description_lower then
      append_all analysis
        [ ("key_issues", "Overall utility efficiency improvement needed");
          ("optimization_opportunities",
            "Implement comprehensive utility monitoring");
          ("cost_savings_recommendations",
            "Bundle utility services for better rates");
          ("implementation_steps",
            "Develop utility management strategy and timeline");
          ("expected_benefits", "20-30% overall utility cost reduction");
          ("technology_recommendations",
            "Integrated utility management platform") ]
    else analysis in
  let analysis :=
    if negb (py_bool (get_default analysis "key_issues" VNone)) then
      append_all analysis
        [ ("key_issues", "General utility management improvement opportunity");
          ("optimization_opportunities",
            "Implement comprehensive utility monitoring and optimization");
          ("cost_savings_recommendations",
            "Audit all utility services for optimization opportunities");
          ("implementation_steps",
            "Conduct comprehensive utility audit and develop optimization plan");
          ("expected_benefits", "10-25% overall utility cost reduction");
          ("technology_recommendations",
            "Smart utility monitoring and management systems") ]
    else analysis in
  analysis.

Definition _expert_process (request_data : Request) : dict :=
  let description := get_str (request_description request_data) "" in
  _generate_utility_analysis description (metadata request_data).

Definition assess_accuracy (py : Builtins)
           (agent_result : dict) (original_request : Request)
  : res QualityMetric :=
  let analysis := get_default agent_result "analysis_type" (VStr "") in
  if negb (is_VStr "utility_management" analysis) then
    Ok (mkQualityMetric ACCURACY 0.3 0.3
          "Analysis type mismatch - not utility management focused"
          ["Analysis type does not match utility management expertise"]
          ["Ensure analysis focuses on utility management aspects"])
  else
    let utility_keywords :=
      ["energy"; "water"; "electricity"; "gas"; "utility"; "consumption";
       "efficiency"] in
    let response_text := lower (py_str py agent_result) in
    let keyword_matches := count_in utility_keywords response_text in
    if (3 <=? keyword_matches)%nat then
      Ok (mkQualityMetric ACCURACY 0.9 0.3
            ("High accuracy: " ++ str_nat keyword_matches
               ++ " utility-related concepts identified")
            [] [])
    else if (1 <=? keyword_matches)%nat then
      Ok (mkQualityMetric ACCURACY 0.7 0.3
            ("Moderate accuracy: " ++ str_nat keyword_matches
               ++ " utility-related concepts identified")
            ["Limited utility-specific analysis"]
            ["Include more utility-specific recommendations"])
    else
      Ok (mkQualityMetric ACCURACY 0.4 0.3
            "Low accuracy: No utility-specific analysis detected"
            ["No utility-specific analysis provided"]
            ["Focus analysis on utility management aspects"]).

Definition assess_completeness (agent_result : dict) (original_request : Request)
  : res QualityMetric :=
  let required_sections :=
    ["key_issues"; "optimization_opportunities";
     "cost_savings_recommendations"; "implementation_steps";
     "expected_benefits"] in
  let missing_sections := missing_sections_of agent_result required_sections in
  let n := List.length missing_sections in
  if (n =? 0)%nat then
    Ok (mkQualityMetric COMPLETENESS 1.0 0.2
          "Complete analysis: All required sections present" [] [])
  else if (n <=? 2)%nat then
    Ok (mkQualityMetric COMPLETENESS 0.8 0.2
          ("Mostly complete: Missing " ++ str_nat n ++ " sections")
          ["Missing sections: " ++ join ", " missing_sections]
          ["Add missing sections: " ++ join ", " missing_sections])
  else
    Ok (mkQualityMetric COMPLETENESS 0.5 0.2
          ("Incomplete analysis: Missing " ++ str_nat n ++ " sections")
          ["Multiple missing sections: " ++ join ", " missing_sections]
          ["Complete all required analysis sections"]).

Definition assess_relevance (agent_result : dict) (original_request : Request)
  : res QualityMetric :=
  let description := lower (get_str (request_description original_request) "") in
  let request_keywords :=
    ["utility"; "energy"; "water"; "electricity"; "gas"; "bills";
     "consumption"] in
  let request_relevance := count_in request_keywords description in
  if (2 <=? request_relevance)%nat then
    Ok (mkQualityMetric RELEVANCE 0.9 0.2
          "Highly relevant: Request clearly utility-focused" [] [])
  else if (1 <=? request_relevance)%nat then
    Ok (mkQualityMetric RELEVANCE 0.7 0.2
          "Moderately relevant: Some utility aspects in request"
          ["Request could be more utility-specific"]
          ["Clarify utility-specific requirements"])
  else
    Ok (mkQualityMetric RELEVANCE 0.4 0.2
          "Low relevance: Request not clearly utility-focused"
          ["Request lacks utility-specific context"]
          ["Provide more utility-specific context in request"]).

Definition assess_consistency (agent_result : dict) (original_request : Request)
  : res QualityMetric :=
  let estimated_savings := get_default agent_result "estimated_savings" (VStr "") in
  let expected_benefits := get_default agent_result "expected_benefits" (VList []) in
  benefits <- py_iter expected_benefits ;;
  mentioned <- savings_mentioned benefits ;;
  if py_bool estimated_savings && mentioned then
    Ok (mkQualityMetric CONSISTENCY 0.9 0.1
          "Consistent savings estimates across analysis" [] [])
  else if py_bool estimated_savings || mentioned then
    Ok (mkQualityMetric CONSISTENCY 0.7 0.1
          "Partial savings consistency"
          ["Savings estimates not consistently mentioned"]
          ["Ensure savings estimates are consistent throughout"])
  else
    Ok (mkQualityMetric CONSISTENCY 0.5 0.1
          "No consistent savings estimates found"
          ["No savings estimates provided"]
          ["Include consistent savings estimates"]).

Definition assess_clarity (agent_result : dict) (original_request : Request)
  : res QualityMetric :=
  let implementation_steps :=
    get_default agent_result "implementation_steps" (VList []) in
  n <- py_len implementation_steps ;;
  if (3 <=? n)%nat then
    Ok (mkQualityMetric CLARITY 0.9 0.05
          "Clear implementation steps provided" [] [])
  else if (1 <=? n)%nat then
    Ok (mkQualityMetric CLARITY 0.7 0.05
          "Some implementation steps provided"
          ["Limited implementation guidance"]
          ["Provide more detailed implementation steps"])
  else
    Ok (mkQualityMetric CLARITY 0.4 0.05
          "No clear implementation steps"
          ["No implementation guidance provided"]
          ["Include clear implementation steps"]).

Definition assess_actionability (agent_result : dict) (original_request : Request)
  : res QualityMetric :=
  let cost_savings_recommendations :=
    get_default agent_result "cost_savings_recommendations" (VList []) in
  let technology_recommendations :=
    get_default agent_result "technology_recommendations" (VList []) in
  n1 <- py_len cost_savings_recommendations ;;
  n2 <- py_len technology_recommendations ;;
  let total_recommendations := (n1 + n2)%nat in
  if (3 <=? total_recommendations)%nat then
    Ok (mkQualityMetric ACTIONABILITY 0.9 0.05
          ("Highly actionable: " ++ str_nat total_recommendations
             ++ " specific recommendations")
          [] [])
  else if (1 <=? total_recommendations)%nat then
    Ok (mkQualityMetric ACTIONABILITY 0.7 0.05
          ("Somewhat actionable: " ++ str_nat total_recommendations
             ++ " recommendations")
          ["Limited actionable recommendations"]
          ["Provide more specific actionable recommendations"])
  else
    Ok (mkQualityMetric ACTIONABILITY 0.4 0.05
          "Not actionable: No specific recommendations"
          ["No actionable recommendations provided"]
          ["Include specific actionable recommendations"]).

Definition get_quality_threshold : Q := 0.7.

Definition class (py : Builtins) : AgentClass :=
  mkAgentClass name
    get_quality_threshold
    BaseAgent.get_quality_metrics
    (assess_accuracy py)
    assess_completeness
    assess_relevance
    (QualityCheckInterface.assess_timeliness py)
    assess_consistency
    assess_clarity
    assess_actionability
    QualityCheckInterface.determine_quality_level
    (QualityCheckInterface.generate_summary py
       QualityCheckInterface.determine_quality_level).

End UtilityManagementExpert.

(** *** class VehicleManagementExpert *)

Module VehicleManagementExpert.

Definition name : string := "VehicleManagementExpert".
Definition expertise : string := "vehicle_management".

Definition _generate_vehicle_analysis (description : string)
           (metadata : option dict) : dict :=
  let description_lower := lower description in
  let analysis : dict :=
    [ ("analysis_type", VStr "vehicle_management");
      ("vehicle_health_score", VStr "good");
      ("key_issues", VList []);
      ("maintenance_recommendations", VList []);
      ("cost_optimization", VList []);
      ("safety_improvements", VList []);
      ("efficiency_enhancements", VList []);
      ("implementation_timeline", VStr "1-6 months");
      ("expected_benefits", VList []);
      ("priority_actions", VList []);
      ("estimated_savings", VStr "15-30%");
      ("risk_level", VStr "low") ] in
  let analysis :=
    if any_in ["maintenance"; "service"; "repair"; "oil"; "tire"]
              description_lower then
      append_all analysis
        [ ("key_issues", "Vehicle maintenance optimization needed");
          ("maintenance_recommendations",
            "Implement preventive maintenance schedule");
          ("maintenance_recommendations",
            "Regular oil changes and filter replacements");
          ("maintenance_recommendations",
            "Tire rotation and alignment checks");
          ("expected_benefits",
            "Extended vehicle lifespan and reduced repair costs");
          ("priority_actions", "Schedule comprehensive vehicle inspection") ]
    else analysis in
  let analysis :=
    if any_in ["fuel"; "gas"; "mileage"; "efficiency"; "consumption"]
              description_lower then
      append_all analysis
        [ ("key_issues", "Fuel efficiency optimization needed");
          ("efficiency_enhancements", "Optimize driving behavior and routes");
          ("efficiency_enhancements", "Maintain proper tire pressure");
          ("efficiency_enhancements",
            "Reduce vehicle weight and aerodynamic drag");
          ("expected_benefits", "20-30% improvement in fuel efficiency");
          ("priority_actions",
            "Implement fuel tracking and monitoring system") ]
    else analysis in
  let analysis :=
    if any_in ["cost"; "budget"; "expense"; "insurance"; "registration"]
              description_lower then
      append_all analysis
        [ ("key_issues", "Vehicle cost optimization needed");
          ("cost_optimization", "Shop around for better insurance rates");
          ("cost_optimization",
            "Compare fuel prices and use rewards programs");
          ("cost_optimization",
            "Consider carpooling or ride-sharing options");
          ("expected_benefits",
            "15-25% reduction in vehicle operating costs");
          ("priority_actions", "Conduct comprehensive cost analysis") ]
    else analysis in
  let analysis :=
    if any_in ["safety"; "brake"; "light"; "seat"; "airbag"]
              description_lower then
      append_all analysis
        [ ("key_issues", "Vehicle safety improvements needed");
          ("safety_improvements", "Regular brake system inspections");
          ("safety_improvements",
            "Ensure all lights and signals work properly");
          ("safety_improvements", "Check seat belts and airbag systems");
          ("expected_benefits", "Enhanced vehicle and passenger safety");
          ("priority_actions", "Schedule safety inspection and repairs") ]
    else analysis in
  let analysis :=
    if str_in "vehicle" description_lower
       || str_in "car" description_lower
       || str_in "auto" description_lower then
      append_all analysis
        [ ("key_issues",
            "Comprehensive vehicle management optimization needed");
          ("maintenance_recommendations",
            "Implement comprehensive maintenance program");
          ("cost_optimization", "Develop vehicle cost management strategy");
          ("safety_improvements",
            "Establish regular safety check protocols");
          ("expected_benefits",
            "25-35% overall vehicle cost and efficiency improvement");
          ("priority_actions",
            "Create comprehensive vehicle management plan") ]
    else analysis in
  let analysis :=
    if negb (py_bool (get_default analysis "key_issues" VNone)) then
      append_all analysis
        [ ("key_issues", "General vehicle management assessment needed");
          ("maintenance_recommendations",
            "Establish regular maintenance schedule");
          ("cost_optimization", "Track all vehicle-related expenses");
          ("safety_improvements", "Schedule regular safety inspections");
          ("expected_benefits", "10-20% overall vehicle improvement");
          ("priority_actions", "Schedule comprehensive vehicle assessment") ]
    else analysis in
  analysis.

Definition _expert_process (request_data : Request) : dict :=
  let description := get_str (request_description request_data) "" in
  _generate_vehicle_analysis description (metadata request_data).

Definition assess_accuracy (py : Builtins)
           (agent_result : dict) (original_request : Request)
  : res QualityMetric :=
  let analysis := get_default agent_result "analysis_type" (VStr "") in
  if negb (is_VStr "vehicle_management" analysis) then
    Ok (mkQualityMetric ACCURACY 0.3 0.3
          "Analysis type mismatch - not vehicle management focused"
          ["Analysis type does not match vehicle management expertise"]
          ["Ensure analysis focuses on vehicle management aspects"])
  else
    let vehicle_keywords :=
      ["maintenance"; "fuel"; "safety"; "cost"; "vehicle"; "car"; "tire";
       "oil"; "brake"] in
    let response_text := lower (py_str py agent_result) in
    let keyword_matches := count_in vehicle_keywords response_text in
    if (4 <=? keyword_matches)%nat then
      Ok (mkQualityMetric ACCURACY 0.9 0.3
            ("High accuracy: " ++ str_nat keyword_matches
               ++ " vehicle-related concepts identified")
            [] [])
    else if (2 <=? keyword_matches)%nat then
      Ok (mkQualityMetric ACCURACY 0.7 0.3
            ("Moderate accuracy: " ++ str_nat keyword_matches
               ++ " vehicle-related concepts identified")
            ["Limited vehicle-specific analysis"]
            ["Include more vehicle-specific recommendations"])
    else
      Ok (mkQualityMetric ACCURACY 0.4 0.3
            "Low accuracy: No vehicle-specific analysis detected"
            ["No vehicle-specific analysis provided"]
            ["Focus analysis on vehicle management aspects"]).

Definition assess_completeness (agent_result : dict) (original_request : Request)
  : res QualityMetric :=
  let required_sections :=
    ["key_issues"; "maintenance_recommendations"; "cost_optimization";
     "safety_improvements"; "expected_benefits"; "priority_actions"] in
  let missing_sections := missing_sections_of agent_result required_sections in
  let n := List.length missing_sections in
  if (n =? 0)%nat then
    Ok (mkQualityMetric COMPLETENESS 1.0 0.2
          "Complete analysis: All required sections present" [] [])
  else if (n <=? 2)%nat then
    Ok (mkQualityMetric COMPLETENESS 0.8 0.2
          ("Mostly complete: Missing " ++ str_nat n ++ " sections")
          ["Missing sections: " ++ join ", " missing_sections]
          ["Add missing sections: " ++ join ", " missing_sections])
  else
    Ok (mkQualityMetric COMPLETENESS 0.5 0.2
          ("Incomplete analysis: Missing " ++ str_nat n ++ " sections")
          ["Multiple missing sections: " ++ join ", " missing_sections]
          ["Complete all required analysis sections"]).

Definition assess_relevance (agent_result : dict) (original_request : Request)
  : res QualityMetric :=
  let description := lower (get_str (request_description original_request) "") in
  let request_keywords :=
    ["vehicle"; "car"; "auto"; "maintenance"; "fuel"; "safety"; "cost";
     "tire"; "oil"] in
  let request_relevance := count_in request_keywords description in
  if (2 <=? request_relevance)%nat then
    Ok (mkQualityMetric RELEVANCE 0.9 0.2
          "Highly relevant: Request clearly vehicle-focused" [] [])
  else if (1 <=? request_relevance)%nat then
    Ok (mkQualityMetric RELEVANCE 0.7 0.2
          "Moderately relevant: Some vehicle aspects in request"
          ["Request could be more vehicle-specific"]
          ["Clarify vehicle-specific requirements"])
  else
    Ok (mkQualityMetric RELEVANCE 0.4 0.2
          "Low relevance: Request not clearly vehicle-focused"
          ["Request lacks vehicle-specific context"]
          ["Provide more vehicle-specific context in request"]).

Definition assess_consistency (agent_result : dict) (original_request : Request)
  : res QualityMetric :=
  let estimated_savings := get_default agent_result "estimated_savings" (VStr "") in
  let expected_benefits := get_default agent_result "expected_benefits" (VList []) in
  benefits <- py_iter expected_benefits ;;
  mentioned <- savings_mentioned benefits ;;
  if py_bool estimated_savings && mentioned then
    Ok (mkQualityMetric CONSISTENCY 0.9 0.1
          "Consistent savings estimates across analysis" [] [])
  else if py_bool estimated_savings || mentioned then
    Ok (mkQualityMetric CONSISTENCY 0.7 0.1
          "Partial savings consistency"
          ["Savings estimates not consistently mentioned"]
          ["Ensure savings estimates are consistent throughout"])
  else
    Ok (mkQualityMetric CONSISTENCY 0.5 0.1
          "No consistent savings estimates found"
          ["No savings estimates provided"]
          ["Include consistent savings estimates"]).

Definition assess_clarity (agent_result : dict) (original_request : Request)
  : res QualityMetric :=
  let priority_actions := get_default agent_result "priority_actions" (VList []) in
  let implementation_timeline :=
    get_default agent_result "implementation_timeline" (VStr "") in
  n <- py_len priority_actions ;;
  if (2 <=? n)%nat && py_bool implementation_timeline then
    Ok (mkQualityMetric CLARITY 0.9 0.05
          "Clear priority actions and timeline provided" [] [])
  else if (1 <=? n)%nat then
    Ok (mkQualityMetric CLARITY 0.7 0.05
          "Some priority actions provided"
          ["Limited implementation guidance"]
          ["Provide more detailed priority actions and timeline"])
  else
    Ok (mkQualityMetric CLARITY 0.4 0.05
          "No clear priority actions"
          ["No implementation guidance provided"]
          ["Include clear priority actions and timeline"]).

Definition assess_actionability (agent_result : dict) (original_request : Request)
  : res QualityMetric :=
  let maintenance_recommendations :=
    get_default agent_result "maintenance_recommendations" (VList []) in
  let cost_optimization :=
    get_default agent_result "cost_optimization" (VList []) in
  let safety_improvements :=
    get_default agent_result "safety_improvements" (VList []) in
  n1 <- py_len maintenance_recommendations ;;
  n2 <- py_len cost_optimization ;;
  n3 <- py_len safety_improvements ;;
  let total_recommendations := (n1 + n2 + n3)%nat in
  if (4 <=? total_recommendations)%nat then
    Ok (mkQualityMetric ACTIONABILITY 0.9 0.05
          ("Highly actionable: " ++ str_nat total_recommendations
             ++ " specific recommendations")
          [] [])
  else if (2 <=? total_recommendations)%nat then
    Ok (mkQualityMetric ACTIONABILITY 0.7 0.05
          ("Somewhat actionable: " ++ str_nat total_recommendations
             ++ " recommendations")
          ["Limited actionable recommendations"]
          ["Provide more specific actionable recommendations"])
  else
    Ok (mkQualityMetric ACTIONABILITY 0.4 0.05
          "Not actionable: No specific recommendations"
          ["No actionable recommendations provided"]
          ["Include specific actionable recommendations"]).

Definition get_quality_threshold : Q := 0.65.

Definition class (py : Builtins) : AgentClass :=
  mkAgentClass name
    get_quality_threshold
    BaseAgent.get_quality_metrics
    (assess_accuracy py)
    assess_completeness
    assess_relevance
    (QualityCheckInterface.assess_timeliness py)
    assess_consistency
    assess_clarity
    assess_actionability
    QualityCheckInterface.determine_quality_level
    (QualityCheckInterface.generate_summary py
       QualityCheckInterface.determine_quality_level).

End VehicleManagementExpert.

(** *** class BaseExpertAgent *)

Record ProcessingStats : Type := mkProcessingStats {
  total_requests : nat;
  successful_requests : nat;
  failed_requests : nat;
  average_processing_time : Q;
  quality_scores : list Q
}.

(** The three concrete expert classes. *)
Inductive ExpertKind : Type :=
| Financial | Utility | Vehicle.

(** An expert object: its class and its mutable statistics. *)
Record ExpertAgent : Type := mkExpertAgent {
  expert_kind : ExpertKind;
  processing_stats : ProcessingStats
}.

Module BaseExpertAgent.

Definition name (self : ExpertAgent) : string :=
  match expert_kind self with
  | Financial => FinancialHealthExpert.name
  | Utility => UtilityManagementExpert.name
  | Vehicle => VehicleManagementExpert.name
  end.

Definition expertise (self : ExpertAgent) : string :=
  match expert_kind self with
  | Financial => FinancialHealthExpert.expertise
  | Utility => UtilityManagementExpert.expertise
  | Vehicle => VehicleManagementExpert.expertise
  end.

Definition class (py : Builtins) (self : ExpertAgent) : AgentClass :=
  match expert_kind self with
  | Financial => FinancialHealthExpert.class py
  | Utility => UtilityManagementExpert.class py
  | Vehicle => VehicleManagementExpert.class py
  end.

Definition _expert_process (self : ExpertAgent) (request_data : Request) : dict :=
  match expert_kind self with
  | Financial => FinancialHealthExpert._expert_process request_data
  | Utility => UtilityManagementExpert._expert_process request_data
  | Vehicle => VehicleManagementExpert._expert_process request_data
  end.

(** The state of a freshly constructed expert. *)
Definition new (k : ExpertKind) : ExpertAgent :=
  mkExpertAgent k (mkProcessingStats 0 0 0 0.0 []).

Definition _can_handle_request (self : ExpertAgent) (request_data : Request)
  : bool :=
  let request_type := lower (get_str (request_type request_data) "") in
  let multi_domain_keywords :=
    ["comprehensive_analysis"; "multi_domain"; "all"; "general"; "overview"] in
  if any_in multi_domain_keywords request_type then true
  else str_in (replace_space_underscore (lower (expertise self))) request_type.

(** [str(request_data.get('request_type'))] inside the error message. *)
Definition shown_request_type (request_data : Request) : string :=
  get_str (request_type request_data) "None".

Definition count_failure (self : ExpertAgent) (stats : ProcessingStats)
  : ExpertAgent :=
  mkExpertAgent (expert_kind self)
    (mkProcessingStats (total_requests stats) (successful_requests stats)
       (S (failed_requests stats)) (average_processing_time stats)
       (quality_scores stats)).

(** [processing_time] is the measured [time.time() - start_time] and
    [utcnow] the clock reading taken by the evaluation. *)
Definition process (py : Builtins) (self : ExpertAgent)
           (processing_time utcnow : Q) (request_data : Request)
  : ExpertAgent * res dict :=
  let stats := processing_stats self in
  let stats :=
    mkProcessingStats (S (total_requests stats)) (successful_requests stats)
      (failed_requests stats) (average_processing_time stats)
      (quality_scores stats) in
  if negb (_can_handle_request self request_data) then
    (count_failure self stats,
     Raise (ValueError ("Request type " ++ shown_request_type request_data
                          ++ " not suitable for " ++ expertise self
                          ++ " expert")))
  else
    let result := _expert_process self request_data in
    let successful := S (successful_requests stats) in
    let stats :=
      mkProcessingStats (total_requests stats) successful
        (failed_requests stats)
        ((average_processing_time stats
            * inject_Z (Z.of_nat successful - 1) + processing_time)
           / inject_Z (Z.of_nat successful))
        (quality_scores stats) in
    let result := dict_set result "processing_time" (VFloat processing_time) in
    let result := dict_set result "expert_agent" (VStr (name self)) in
    let result := dict_set result "expertise" (VStr (expertise self)) in
    match BaseAgent.evaluate_quality (class py self) utcnow result request_data with
    | Raise e => (count_failure self stats, Raise e)
    | Ok quality_report =>
        let result :=
          dict_set result "quality_report"
            (VDict (BaseAgent.serialize_quality_report quality_report)) in
        let stats :=
          mkProcessingStats (total_requests stats) (successful_requests stats)
            (failed_requests stats) (average_processing_time stats)
            (quality_scores stats ++ [overall_score quality_report])%list in
        (mkExpertAgent (expert_kind self) stats, Ok result)
    end.

(** The "average_quality_score" entry of [get_status]. *)
Definition average_quality_score (self : ExpertAgent) : Q :=
  match quality_scores (processing_stats self) with
  | [] => 0.0
  | _ =>
      sumQ (quality_scores (processing_stats self))
      / inject_Z (Z.of_nat (List.length (quality_scores (processing_stats self))))
  end.

End BaseExpertAgent.

(** *** The result sink

    The object held in [self.file_streamer], seen through the one attribute
    that publication uses.  [None] stands for an object without that
    attribute. *)

Record Sink : Type := mkSink {
  stream_data : option (dict -> res unit)
}.

(** [utils.file_streamer.FileStreamer] defines [write_response],
    [write_response_sync] and [get_responses], and no [stream_data]. *)
Definition FileStreamer : Sink := mkSink None.

(** *** class FileStreamer (utils/file_streamer.py)

    The response store: one file holding a JSON document.  Reading and
    writing the file itself are taken to succeed; what the serializer does
    is left to the two calls the class makes. *)

Record Json : Type := mkJson {
  (** [json.loads(content)] *)
  loads : string -> res value;
  (** [json.dumps(data, indent=2, default=str)] *)
  dumps : value -> res string
}.

(** The file at [self.file_path]: [None] when it does not exist. *)
Definition File : Type := option string.

(** [c.isspace()] for an ASCII character. *)
Definition py_isspace (c : ascii) : bool :=
  let n := nat_of_ascii c in
  ((9 <=? n) && (n <=? 13) || (28 <=? n) && (n <=? 32))%nat.

Fixpoint lstrip (s : string) : string :=
  match s with
  | EmptyString => EmptyString
  | String c s' => if py_isspace c then lstrip s' else s
  end.

Fixpoint rstrip (s : string) : string :=
  match s with
  | EmptyString => EmptyString
  | String c s' =>
      match rstrip s' with
      | EmptyString => if py_isspace c then EmptyString else String c EmptyString
      | t => String c t
      end
  end.

(** [s.strip()], for ASCII text. *)
Definition strip (s : string) : string := rstrip (lstrip s).

(** Where [xs[i:]] starts in a sequence of [len] items. *)
Definition slice_start (len : nat) (i : Z) : nat :=
  if (i <? 0)%Z then Z.to_nat (Z.max (Z.of_nat len + i) 0)
  else Nat.min (Z.to_nat i) len.

Fixpoint skip_chars (n : nat) (s : string) : string :=
  match n, s with
  | O, _ => s
  | S _, EmptyString => EmptyString
  | S n', String _ s' => skip_chars n' s'
  end.

(** [v[i:]]; the exception raised on a dict depends on the interpreter
    version and is never inspected. *)
Definition py_slice_from (v : value) (i : Z) : res value :=
  match v with
  | VList xs => Ok (VList (skipn (slice_start (List.length xs) i) xs))
  | VStr s => Ok (VStr (skip_chars (slice_start (String.length s) i) s))
  | VDict _ => Raise (TypeError "unhashable type: 'slice'")
  | _ => Raise (TypeError ("'" ++ type_name v
                             ++ "' object is not subscriptable"))
  end.

(** [v.append(x)] *)
Definition py_append (v x : value) : res value :=
  match v with
  | VList xs => Ok (VList (xs ++ [x])%list)
  | _ => Raise (AttributeError ("'" ++ type_name v
                                  ++ "' object has no attribute 'append'"))
  end.

Module FileStreamerClass.

(** The existing data [write_response] reads before appending. *)
Definition read_existing (json : Json) (file : File) : res value :=
  match file with
  | None => Ok (VList [])
  | Some content =>
      if negb (String.eqb (strip content) "") then loads json content
      else Ok (VList [])
  end.

(** [now] is [datetime.now(UTC).isoformat()].  The caller's dict is
    updated in place, so it is returned with the new file and the
    verdict.  Opening the file for writing empties it before the document
    is serialized. *)
Definition write_response (json : Json) (now : string) (file : File)
           (response_data : dict) : File * dict * bool :=
  let response_data := dict_set response_data "timestamp" (VStr now) in
  match
    (existing_data <- read_existing json file ;;
     py_append existing_data (VDict response_data))
  with
  | Raise _ => (file, response_data, false)
  | Ok existing_data =>
      match dumps json existing_data with
      | Raise _ => (Some EmptyString, response_data, false)
      | Ok text => (Some text, response_data, true)
      end
  end.

Definition get_responses (json : Json) (file : File) (limit : Z) : value :=
  match
    (match file with
     | None => Ok (VList [])
     | Some content =>
         if negb (negb (String.eqb (strip content) "")) then Ok (VList [])
         else
           responses <- loads json content ;;
           py_slice_from responses (- limit)
     end)
  with
  | Ok responses => responses
  | Raise _ => VList []
  end.

End FileStreamerClass.

(** Clock readings taken while one request is processed. *)
Record Clock : Type := mkClock {
  expert_processing_time : string -> Q;
  expert_utcnow : string -> Q;
  principal_processing_time : Q;
  principal_utcnow : Q;
  response_timestamp : Q;
  workflow_timestamp : Q
}.

(** *** class PrincipalAgent *)

Record PrincipalAgent : Type := mkPrincipalAgent {
  is_initialized : bool;
  expert_agents : list (string * ExpertAgent);
  workflow_history : list dict;
  file_streamer : Sink;
  publication_queue : list dict
}.

(** [[r for r in rs if ("error" in r) == wanted]] *)
Fixpoint select_by_error (wanted : bool) (rs : list value) : res (list value) :=
  match rs with
  | [] => Ok []
  | r :: rest =>
      has_error <- py_in "error" r ;;
      others <- select_by_error wanted rest ;;
      Ok (if Bool.eqb has_error wanted then r :: others else others)
  end.

Definition py_hashable (v : value) : res unit :=
  match v with
  | VList _ | VDict _ =>
      Raise (TypeError ("unhashable type: '" ++ type_name v ++ "'"))
  | _ => Ok tt
  end.

Definition as_number (v : value) : option Q :=
  match v with
  | VBool b => Some (if b then 1 else 0)
  | VInt n => Some (inject_Z n)
  | VFloat q => Some q
  | _ => None
  end.

(** [x == y] on hashable values. *)
Definition hash_eqb (x y : value) : bool :=
  match as_number x, as_number y with
  | Some a, Some b => Qeq_bool a b
  | Some _, None | None, Some _ => false
  | None, None =>
      match x, y with
      | VNone, VNone => true
      | VStr a, VStr b => String.eqb a b
      | VDimension a, VDimension b => QualityDimension_eqb a b
      | VQualityScore a, VQualityScore b =>
          String.eqb (QualityScore_value a) (QualityScore_value b)
      | VDatetime a, VDatetime b => Qeq_bool a b
      | _, _ => false
      end
  end.

(** The members of [set(xs)], added one at a time. *)
Fixpoint py_set (xs : list value) (members : list value) : res (list value) :=
  match xs with
  | [] => Ok members
  | x :: rest =>
      _ <- py_hashable x ;;
      py_set rest
        (if existsb (hash_eqb x) members then members
         else (members ++ [x])%list)
  end.

(** What construction does at start-up: the outcome of building the
    orchestrator's AutoGen assistant, and whether each expert class can be
    imported and constructed. *)
Record Startup : Type := mkStartup {
  assistant_agent : res unit;
  expert_constructed : ExpertKind -> bool
}.

Module PrincipalAgent.

Definition name : string := "PrincipalAgent".

Definition _determine_required_experts (self : PrincipalAgent)
           (request_data : Request) : list (string * ExpertAgent) :=
  let request_type := lower (get_str (request_type request_data) "") in
  let required_experts : list (string * ExpertAgent) := [] in
  match expert_agents self with
  | [] => required_experts
  | _ =>
      let required_experts :=
        if any_in ["financial"; "budget"; "cost"; "expense"; "revenue";
                   "profit"] request_type then
          match dict_get (expert_agents self) "financial" with
          | Some agent => dict_set required_experts "financial" agent
          | None => required_experts
          end
        else required_experts in
      let required_experts :=
        if any_in ["utility"; "energy"; "water"; "electricity";
                   "consumption"; "efficiency"; "sustainability"]
                  request_type then
          match dict_get (expert_agents self) "utility" with
          | Some agent => dict_set required_experts "utility" agent
          | None => required_experts
          end
        else required_experts in
      let required_experts :=
        if any_in ["vehicle"; "fleet"; "maintenance"; "transport";
                   "logistics"; "fuel"] request_type then
          match dict_get (expert_agents self) "vehicle" with
          | Some agent => dict_set required_experts "vehicle" agent
          | None => required_experts
          end
        else required_experts in
      match required_experts with
      | [] => expert_agents self
      | _ => required_experts
      end
  end.

(** The per-expert entry recorded when an expert raises. *)
Definition failed_entry (expert_name : string) (e : exn) : value :=
  VDict [ ("error", VStr (str_exn e));
          ("expert_agent", VStr expert_name);
          ("status", VStr "failed") ].

(** Step 2 of [process]: the delegation loop.  The expert objects are
    shared with the registry, so each call leaves its updated object
    there. *)
Fixpoint delegate (py : Builtins) (clock : Clock)
         (required_experts : list (string * ExpertAgent))
         (request_data : Request)
         (agents : list (string * ExpertAgent)) (expert_results : dict)
  : list (string * ExpertAgent) * dict :=
  match required_experts with
  | [] => (agents, expert_results)
  | (expert_name, expert_agent) :: rest =>
      let '(expert_agent', outcome) :=
        BaseExpertAgent.process py expert_agent
          (expert_processing_time clock expert_name)
          (expert_utcnow clock expert_name) request_data in
      let expert_results :=
        match outcome with
        | Ok expert_result =>
            dict_set expert_results expert_name (VDict expert_result)
        | Raise e =>
            dict_set expert_results expert_name (failed_entry expert_name e)
        end in
      delegate py clock rest request_data
        (dict_set agents expert_name expert_agent') expert_results
  end.

(** The merging loop of [_synthesize_results]. *)
Fixpoint merge_results (items : list (string * value))
         (insights : dict) (recommendations : list value) (metrics : dict)
  : res (dict * list value * dict) :=
  match items with
  | [] => Ok (insights, recommendations, metrics)
  | (expert_name, result) :: rest =>
      has_error <- py_in "error" result ;;
      if has_error then merge_results rest insights recommendations metrics
      else
        has_insights <- py_in "insights" result ;;
        insights <-
          (if has_insights then
             x <- py_getitem result "insights" ;;
             Ok (dict_set insights expert_name x)
           else Ok insights) ;;
        has_recommendations <- py_in "recommendations" result ;;
        recommendations <-
          (if has_recommendations then
             x <- py_getitem result "recommendations" ;;
             xs <- py_iter x ;;
             Ok (recommendations ++ xs)%list
           else Ok recommendations) ;;
        has_metrics <- py_in "metrics" result ;;
        metrics <-
          (if has_metrics then
             x <- py_getitem result "metrics" ;;
             Ok (dict_set metrics expert_name x)
           else Ok metrics) ;;
        merge_results rest insights recommendations metrics
  end.

(** The body of the [try] block of [_synthesize_results]. *)
Definition synthesis_of (expert_results : dict) : res dict :=
  merged <- merge_results expert_results [] [] [] ;;
  let '(insights, recommendations, metrics) := merged in
  successful <- select_by_error false (values expert_results) ;;
  failed <- select_by_error true (values expert_results) ;;
  Ok [ ("summary",
         VStr ("Analysis completed by "
                 ++ str_nat (List.length expert_results) ++ " expert agents"));
       ("insights", VDict insights);
       ("recommendations", VList recommendations);
       ("metrics", VDict metrics);
       ("expert_count", VInt (Z.of_nat (List.length expert_results)));
       ("successful_experts", VInt (Z.of_nat (List.length successful)));
       ("failed_experts", VInt (Z.of_nat (List.length failed))) ].

Definition _synthesize_results (request_data : Request) (expert_results : dict)
  : dict :=
  match synthesis_of expert_results with
  | Ok synthesis => synthesis
  | Raise e =>
      [ ("error", VStr ("Failed to synthesize results: " ++ str_exn e));
        ("summary", VStr "Synthesis failed") ]
  end.

Definition get_quality_threshold : Q := 0.7.

Definition get_quality_metrics : list QualityMetric :=
  [ mkQualityMetric ACCURACY 0.0 0.25 "Synthesis accuracy" [] [];
    mkQualityMetric COMPLETENESS 0.0 0.25 "Synthesis completeness" [] [];
    mkQualityMetric RELEVANCE 0.0 0.2 "Synthesis relevance" [] [];
    mkQualityMetric CONSISTENCY 0.0 0.15 "Cross-expert consistency" [] [];
    mkQualityMetric CLARITY 0.0 0.1 "Synthesis clarity" [] [];
    mkQualityMetric ACTIONABILITY 0.0 0.05 "Actionability of synthesis" [] [] ].

(** The rules below build local [issues] and [recommendations] lists that
    the returned metric does not carry: the constructor call passes the
    first four fields only. *)

Definition assess_accuracy (agent_result : dict) (original_request : Request)
  : res QualityMetric :=
  let score := 0.8 in
  let expert_results := get_default agent_result "expert_results" (VDict []) in
  let score := if negb (py_bool expert_results) then score - 0.3 else score in
  results <- py_values expert_results ;;
  failed_experts <- select_by_error true results ;;
  let score :=
    match failed_experts with
    | [] => score
    | _ => score - 0.2 * inject_Z (Z.of_nat (List.length failed_experts))
    end in
  let synthesis := get_default agent_result "synthesis" (VDict []) in
  synthesis_failed <- py_in "error" synthesis ;;
  let score := if synthesis_failed then score - 0.4 else score in
  Ok (mkQualityMetric ACCURACY (max0 score) 0.25
        "Synthesis accuracy assessment" [] []).

(** One round of the loop over [required_fields]. *)
Definition field_missing (synthesis : value) (field : string) : res bool :=
  present <- py_in field synthesis ;;
  if negb present then Ok true
  else
    x <- py_getitem synthesis field ;;
    Ok (negb (py_bool x)).

Fixpoint deduct_missing (synthesis : value) (required_fields : list string)
         (score : Q) : res Q :=
  match required_fields with
  | [] => Ok score
  | field :: rest =>
      missing <- field_missing synthesis field ;;
      deduct_missing synthesis rest (if missing then score - 0.2 else score)
  end.

Definition assess_completeness (agent_result : dict) (original_request : Request)
  : res QualityMetric :=
  let score := 0.9 in
  let synthesis := get_default agent_result "synthesis" (VDict []) in
  let required_fields := ["summary"; "insights"; "recommendations"] in
  score <- deduct_missing synthesis required_fields score ;;
  Ok (mkQualityMetric COMPLETENESS (max0 score) 0.25
        "Synthesis completeness assessment" [] []).

Definition assess_relevance (agent_result : dict) (original_request : Request)
  : res QualityMetric :=
  let score := 0.85 in
  let request_type := lower (get_str (request_type original_request) "") in
  let synthesis := get_default agent_result "synthesis" (VDict []) in
  score <-
    (if String.eqb request_type "" then Ok score
     else
       summary <- py_get synthesis "summary" VNone ;;
       if py_bool summary then
         summary <- py_getitem synthesis "summary" ;;
         summary_lower <- py_lower summary ;;
         Ok (if negb (str_in request_type summary_lower)
             then score - 0.2 else score)
       else Ok score) ;;
  Ok (mkQualityMetric RELEVANCE (max0 score) 0.2
        "Synthesis relevance assessment" [] []).

(** The loop collecting [all_recommendations]. *)
Fixpoint collect_recommendations (successful_experts : list value)
         (all_recommendations : list value) : res (list value) :=
  match successful_experts with
  | [] => Ok all_recommendations
  | result :: rest =>
      present <- py_in "recommendations" result ;;
      if present then
        x <- py_getitem result "recommendations" ;;
        xs <- py_iter x ;;
        collect_recommendations rest (all_recommendations ++ xs)%list
      else collect_recommendations rest all_recommendations
  end.

Definition assess_consistency (agent_result : dict) (original_request : Request)
  : res QualityMetric :=
  let score := 0.8 in
  let expert_results := get_default agent_result "expert_results" (VDict []) in
  results <- py_values expert_results ;;
  successful_experts <- select_by_error false results ;;
  score <-
    (if (1 <? List.length successful_experts)%nat then
       all_recommendations <- collect_recommendations successful_experts [] ;;
       members <- py_set all_recommendations [] ;;
       Ok (if (List.length members <? List.length all_recommendations)%nat
           then score - 0.1 else score)
     else Ok score) ;;
  Ok (mkQualityMetric CONSISTENCY (max0 score) 0.15
        "Cross-expert consistency assessment" [] []).

Definition assess_clarity (agent_result : dict) (original_request : Request)
  : res QualityMetric :=
  let score := 0.85 in
  let synthesis := get_default agent_result "synthesis" (VDict []) in
  summary <- py_get synthesis "summary" (VStr "") ;;
  n <- py_len summary ;;
  let score := if (n <? 50)%nat then score - 0.2 else score in
  Ok (mkQualityMetric CLARITY (max0 score) 0.1
        "Synthesis clarity assessment" [] []).

Definition assess_actionability (agent_result : dict) (original_request : Request)
  : res QualityMetric :=
  let score := 0.8 in
  let synthesis := get_default agent_result "synthesis" (VDict []) in
  recommendations_list <- py_get synthesis "recommendations" (VList []) ;;
  let score :=
    if negb (py_bool recommendations_list) then score - 0.3 else score in
  Ok (mkQualityMetric ACTIONABILITY (max0 score) 0.05
        "Synthesis actionability assessment" [] []).

Definition determine_quality_level (overall_score : Q) : value :=
  if Qle_bool 0.9 overall_score then VStr "EXCELLENT"
  else if Qle_bool 0.8 overall_score then VStr "VERY_GOOD"
  else if Qle_bool 0.7 overall_score then VStr "GOOD"
  else if Qle_bool 0.6 overall_score then VStr "ACCEPTABLE"
  else VStr "POOR".

Definition generate_summary (metrics : list QualityMetric) (overall_score : Q)
  : res string :=
  if Qle_bool 0.8 overall_score then
    Ok "High-quality synthesis with comprehensive expert analysis"
  else if Qle_bool 0.7 overall_score then
    Ok "Good quality synthesis meeting publication standards"
  else if Qle_bool 0.6 overall_score then
    Ok "Acceptable synthesis with some quality concerns"
  else
    Ok "Poor quality synthesis requiring review before publication".

Definition class (py : Builtins) : AgentClass :=
  mkAgentClass name
    get_quality_threshold
    get_quality_metrics
    assess_accuracy
    assess_completeness
    assess_relevance
    (QualityCheckInterface.assess_timeliness py)
    assess_consistency
    assess_clarity
    assess_actionability
    determine_quality_level
    generate_summary.

Definition _publish_results (self : PrincipalAgent) (final_result : dict)
  : res unit :=
  match stream_data (file_streamer self) with
  | None =>
      Raise (AttributeError
               "'FileStreamer' object has no attribute 'stream_data'")
  | Some stream => stream final_result
  end.

(** Steps 5 and 6 of [process] and the publication that follows them,
    given the report of step 4.  An exception of the publication step
    leaves [process] through its [except ... raise]. *)
Definition conclude (clock : Clock) (self : PrincipalAgent)
           (request_data : Request)
           (required_experts : list (string * ExpertAgent))
           (expert_results synthesis_result : dict)
           (quality_report : QualityReport) : PrincipalAgent * res dict :=
  let processing_time := principal_processing_time clock in
  let final_response : dict :=
    [ ("request_id", VStr (get_str (request_id request_data) "unknown"));
      ("request_type",
        VStr (get_str (request_type request_data) "unknown"));
      ("status", VStr "completed");
      ("processing_time", VFloat processing_time);
      ("principal_agent", VStr name);
      ("expert_results", VDict expert_results);
      ("synthesis", VDict synthesis_result);
      ("quality_report",
        VDict (BaseAgent.serialize_quality_report quality_report));
      ("approved_for_publication",
        VBool (approved_for_publication quality_report));
      ("timestamp", VFloat (response_timestamp clock)) ] in
  let entry : dict :=
    [ ("request_id", VStr (get_str (request_id request_data) "unknown"));
      ("timestamp", VFloat (workflow_timestamp clock));
      ("experts_used", VList (map VStr (keys required_experts)));
      ("quality_score", VFloat (overall_score quality_report));
      ("approved", VBool (approved_for_publication quality_report)) ] in
  let self :=
    mkPrincipalAgent (is_initialized self) (expert_agents self)
      (workflow_history self ++ [entry])%list
      (file_streamer self) (publication_queue self) in
  if approved_for_publication quality_report then
    let self :=
      mkPrincipalAgent (is_initialized self) (expert_agents self)
        (workflow_history self) (file_streamer self)
        (publication_queue self ++ [final_response])%list in
    match _publish_results self final_response with
    | Raise e => (self, Raise e)
    | Ok _ => (self, Ok final_response)
    end
  else (self, Ok final_response).

Definition process (py : Builtins) (clock : Clock) (self : PrincipalAgent)
           (request_data : Request) : PrincipalAgent * res dict :=
  if negb (is_initialized self) then
    (self, Raise (RuntimeError "Principal agent is not initialized"))
  else
    let required_experts := _determine_required_experts self request_data in
    let '(agents, expert_results) :=
      delegate py clock required_experts request_data (expert_agents self) [] in
    let self :=
      mkPrincipalAgent (is_initialized self) agents (workflow_history self)
        (file_streamer self) (publication_queue self) in
    let synthesis_result := _synthesize_results request_data expert_results in
    match BaseAgent.evaluate_quality (class py) (principal_utcnow clock)
            synthesis_result request_data with
    | Raise e => (self, Raise e)
    | Ok quality_report =>
        conclude clock self request_data required_experts expert_results
          synthesis_result quality_report
    end.

(** [process_request]: the wrapper the ingress layer calls. *)
Definition process_request (py : Builtins) (clock : Clock)
           (self : PrincipalAgent) (request_data : Request)
  : PrincipalAgent * res dict :=
  process py clock self request_data.

(** [__init__] *)
Definition new : PrincipalAgent := mkPrincipalAgent false [] [] FileStreamer [].

(** [initialize].  A failure of [super().initialize()] is re-raised
    before the registry is touched; a failing expert constructor leaves its
    slot at [None], which the comprehension then drops; a failure of an
    expert's own [initialize] is logged and ignored. *)
Definition initialize (env : Startup) (self : PrincipalAgent)
  : PrincipalAgent * res unit :=
  match assistant_agent env with
  | Raise e => (self, Raise e)
  | Ok _ =>
      let construct (k : ExpertKind) : option ExpertAgent :=
        if expert_constructed env k then Some (BaseExpertAgent.new k)
        else None in
      let expert_agents :=
        [ ("financial", construct Financial);
          ("utility", construct Utility);
          ("vehicle", construct Vehicle) ] in
      let expert_agents :=
        flat_map (fun kv : string * option ExpertAgent =>
                    match snd kv with
                    | Some v => [(fst kv, v)]
                    | None => []
                    end) expert_agents in
      (mkPrincipalAgent true expert_agents (workflow_history self)
         (file_streamer self) (publication_queue self), Ok tt)
  end.

(** [cleanup]: the experts and the orchestrator drop their assistants and
    their initialized flags; the registry itself stays. *)
Definition cleanup (self : PrincipalAgent) : PrincipalAgent :=
  mkPrincipalAgent false (expert_agents self) (workflow_history self)
    (file_streamer self) (publication_queue self).

(** Three entries of [get_status]. *)
Definition workflow_history_count (self : PrincipalAgent) : nat :=
  List.length (workflow_history self).

Definition recent_workflows (self : PrincipalAgent) : list dict :=
  match workflow_history self with
  | [] => []
  | _ =>
      skipn (slice_start (List.length (workflow_history self)) (-5))
        (workflow_history self)
  end.

Definition publication_queue_size (self : PrincipalAgent) : nat :=
  List.length (publication_queue self).

End PrincipalAgent.

(** *** api/routes.py *)

Module Routes.

(** The module-level objects: [principal_agent], and the file behind
    [file_streamer]. *)
Record Service : Type := mkService {
  principal_agent : PrincipalAgent;
  responses_file : File
}.

(** The readings of [datetime.utcnow().isoformat()] in the two branches of
    the background task, and the store's own [datetime.now(UTC)]. *)
Record Timestamps : Type := mkTimestamps {
  completed_at : string;
  failed_at : string;
  written_at : string
}.

Definition startup_event (env : Startup) (service : Service)
  : Service * res unit :=
  let '(principal, outcome) :=
    PrincipalAgent.initialize env (principal_agent service) in
  let service := mkService principal (responses_file service) in
  match outcome with
  | Raise e => (service, Raise e)
  | Ok _ =>
      if negb (is_initialized principal) then
        (service, Raise (RuntimeError "Principal agent initialization failed"))
      else
        match expert_agents principal with
        | [] =>
            (service,
             Raise (RuntimeError
                      "No expert agents available after initialization"))
        | _ => (service, Ok tt)
        end
  end.

(** [request_data[key]] for a string field. *)
Definition required_field (key : string) (field : option string) : res string :=
  match field with
  | Some s => Ok s
  | None => Raise (KeyError key)
  end.

(** The [try] block of [process_request_async], up to the response record
    it hands to the store.  The request type arrives here as its string
    value. *)
Definition attempt (py : Builtins) (clock : Clock) (env : Startup)
           (times : Timestamps) (principal : PrincipalAgent)
           (request_data : Request) (processing_id : string)
  : PrincipalAgent * res dict :=
  match required_field "request_id" (request_id request_data) with
  | Raise e => (principal, Raise e)
  | Ok _ =>
      let '(principal, ready) :=
        if negb (is_initialized principal) then
          PrincipalAgent.initialize env principal
        else (principal, Ok tt) in
      match ready with
      | Raise e => (principal, Raise e)
      | Ok _ =>
          let '(principal, outcome) :=
            PrincipalAgent.process_request py clock principal request_data in
          (principal,
           result <- outcome ;;
           rid <- required_field "request_id" (request_id request_data) ;;
           uid <- required_field "user_id" (user_id request_data) ;;
           rtype <- required_field "request_type" (request_type request_data) ;;
           Ok [ ("processing_id", VStr processing_id);
                ("request_id", VStr rid);
                ("user_id", VStr uid);
                ("request_type", VStr rtype);
                ("status", VStr "completed");
                ("result", VDict result);
                ("processing_time",
                  get_default result "processing_time" (VInt 0));
                ("timestamp", VStr (completed_at times)) ])
      end
  end.

(** [process_request_async]: an exception raised while the error record is
    being built leaves the task. *)
Definition process_request_async (py : Builtins) (clock : Clock)
           (env : Startup) (json : Json) (times : Timestamps)
           (service : Service) (request_data : Request) (processing_id : string)
  : Service * res unit :=
  let '(principal, outcome) :=
    attempt py clock env times (principal_agent service) request_data
      processing_id in
  match outcome with
  | Ok response_data =>
      let '(file, _, _) :=
        FileStreamerClass.write_response json (written_at times)
          (responses_file service) response_data in
      (mkService principal file, Ok tt)
  | Raise e =>
      match
        (_ <- required_field "request_id" (request_id request_data) ;;
         rid <- required_field "request_id" (request_id request_data) ;;
         uid <- required_field "user_id" (user_id request_data) ;;
         rtype <- required_field "request_type" (request_type request_data) ;;
         Ok [ ("processing_id", VStr processing_id);
              ("request_id", VStr rid);
              ("user_id", VStr uid);
              ("request_type", VStr rtype);
              ("status", VStr "error");
              ("error", VStr (str_exn e));
              ("timestamp", VStr (failed_at times)) ])
      with
      | Raise e' => (mkService principal (responses_file service), Raise e')
      | Ok error_response =>
          let '(file, _, _) :=
            FileStreamerClass.write_response json (written_at times)
              (responses_file service) error_response in
          (mkService principal file, Ok tt)
      end
  end.

(** [GET /api/responses]: the payload on success. *)
Definition get_responses (json : Json) (service : Service) (limit : Z)
  : res dict :=
  let responses :=
    FileStreamerClass.get_responses json (responses_file service) limit in
  count <- py_len responses ;;
  Ok [("responses", responses); ("count", VInt (Z.of_nat count))].

End Routes.

(** *** api/models.py *)

(** The request types the ingress model admits. *)
Inductive RequestType : Type :=
| UTILITY_MANAGEMENT | FINANCIAL_HEALTH | VEHICLE_MANAGEMENT | GENERAL.

Definition RequestType_value (t : RequestType) : string :=
  match t with
  | UTILITY_MANAGEMENT => "utility_management"
  | FINANCIAL_HEALTH => "financial_health"
  | VEHICLE_MANAGEMENT => "vehicle_management"
  | GENERAL => "general"
  end.

(** The fields [PrincipalAgentResponseModel] declares, the response model
    of the [/process] route; none has a default. *)
Definition PrincipalAgentResponseModel_fields : list string :=
  ["request_id"; "processing_time"; "principal_agent"; "expert_results";
   "quality_assessments"; "synthesis"; "final_quality_report";
   "approved_for_publication"; "publication_status"].

(** * Properties *)

(** ** The result monad *)

Lemma bind_Ok_inv {A B : Type} (c : res A) (k : A -> res B) (b : B) :
  bind c k = Ok b -> exists a, c = Ok a /\ k a = Ok b.
Proof.
  destruct c as [a|e]; simpl; intros H.
  - exists a. split; [reflexivity | exact H].
  - discriminate H.
Qed.

(** ** Weighted aggregation *)

Definition metric_in_range (m : QualityMetric) : Prop :=
  (0 <= score m /\ score m <= 1) /\ (0 <= weight m /\ weight m <= 1).

Lemma fold_left_Qplus_shift (xs : list Q) (a : Q) :
  fold_left Qplus xs a == a + fold_right Qplus 0 xs.
Proof.
  revert a. induction xs as [|x xs IH]; intros a; simpl.
  - ring.
  - rewrite IH. ring.
Qed.

Lemma sumQ_fold_right (xs : list Q) : sumQ xs == fold_right Qplus 0 xs.
Proof. unfold sumQ. rewrite fold_left_Qplus_shift. ring. Qed.

Lemma sumQ_cons (x : Q) (xs : list Q) : sumQ (x :: xs) == x + sumQ xs.
Proof. rewrite !sumQ_fold_right. simpl. reflexivity. Qed.

Lemma total_weight_cons (m : QualityMetric) (ms : list QualityMetric) :
  total_weight (m :: ms) == weight m + total_weight ms.
Proof. unfold total_weight. simpl map. apply sumQ_cons. Qed.

Lemma weighted_sum_cons (m : QualityMetric) (ms : list QualityMetric) :
  weighted_sum (m :: ms) == score m * weight m + weighted_sum ms.
Proof. unfold weighted_sum. simpl map. apply sumQ_cons. Qed.

Lemma weighted_sum_bounds (ms : list QualityMetric) :
  Forall metric_in_range ms ->
  0 <= weighted_sum ms /\ weighted_sum ms <= total_weight ms.
Proof.
  induction 1 as [|m ms [[Hs0 Hs1] [Hw0 Hw1]] _ [IH0 IH1]].
  - unfold weighted_sum, total_weight, sumQ. simpl. split; apply Qle_refl.
  - rewrite weighted_sum_cons, total_weight_cons.
    assert (0 <= score m * weight m) by (apply Qmult_le_0_compat; assumption).
    assert (score m * weight m <= weight m) by nra.
    split; lra.
Qed.

Lemma overall_score_nonzero (ms : list QualityMetric) :
  0 < total_weight ms ->
  _calculate_overall_score ms = weighted_sum ms / total_weight ms.
Proof.
  intros HW. unfold _calculate_overall_score.
  destruct ms as [|m ms].
  - exfalso. unfold total_weight, sumQ in HW. simpl in HW. lra.
  - destruct (Qeq_bool (total_weight (m :: ms)) 0) eqn:E; [|reflexivity].
    apply Qeq_bool_eq in E. lra.
Qed.



(** ** Dictionaries *)

Lemma dict_get_set {V : Type} (d : list (string * V)) (k k' : string) (v : V) :
  dict_get (dict_set d k v) k'
  = if String.eqb k k' then Some v else dict_get d k'.
Proof.
  induction d as [|[k0 v0] d IH]; simpl.
  - reflexivity.
  - destruct (String.eqb k0 k) eqn:E0; simpl.
    + apply String.eqb_eq in E0. subst k0.
      destruct (String.eqb k k'); reflexivity.
    + rewrite IH. destruct (String.eqb k0 k') eqn:E1; [|reflexivity].
      destruct (String.eqb k k') eqn:E2; [|reflexivity].
      apply String.eqb_eq in E1, E2. subst. rewrite String.eqb_refl in E0.
      discriminate E0.
Qed.

Lemma dict_has_set {V : Type} (d : list (string * V)) (k k' : string) (v : V) :
  dict_has (dict_set d k v) k' = String.eqb k k' || dict_has d k'.
Proof.
  unfold dict_has. rewrite dict_get_set.
  destruct (String.eqb k k'); reflexivity.
Qed.

Lemma dict_get_keys {V : Type} (d : list (string * V)) (k : string) :
  existsb (String.eqb k) (keys d) = false -> dict_get d k = None.
Proof.
  induction d as [|[k0 v0] d IH]; simpl; intros H; [reflexivity|].
  apply orb_false_iff in H. destruct H as [H0 H1].
  rewrite String.eqb_sym, H0. apply IH, H1.
Qed.

Lemma dict_has_keys {V : Type} (d : list (string * V)) (k : string) :
  existsb (String.eqb k) (keys d) = false -> dict_has d k = false.
Proof. intros H. unfold dict_has. rewrite (dict_get_keys d k H). reflexivity. Qed.

Lemma keys_append_to (d : dict) (key item : string) :
  keys (append_to d key item) = keys d.
Proof.
  unfold keys. induction d as [|[k v] d IH]; simpl; [reflexivity|].
  destruct (String.eqb k key); simpl; [reflexivity|].
  rewrite IH. reflexivity.
Qed.

Lemma keys_append_all (items : list (string * string)) (d : dict) :
  keys (append_all d items) = keys d.
Proof.
  unfold append_all. revert d.
  induction items as [|[k x] items IH]; intros d; simpl; [reflexivity|].
  rewrite IH. apply keys_append_to.
Qed.

(** A key that holds a list of strings. *)
Definition has_str_list (d : dict) (k : string) : Prop :=
  exists l : list string, dict_get d k = Some (VList (map VStr l)).

Lemma has_str_list_append_to (d : dict) (key item k : string) :
  has_str_list d k -> has_str_list (append_to d key item) k.
Proof.
  intros [l Hl]. unfold has_str_list.
  induction d as [|[k0 v0] d IH]; simpl in *; [discriminate Hl|].
  destruct (String.eqb k0 key) eqn:E0; simpl.
  - destruct (String.eqb k0 k) eqn:E1.
    + injection Hl as ->. exists (l ++ [item])%list.
      rewrite map_app. reflexivity.
    + exists l. exact Hl.
  - destruct (String.eqb k0 k) eqn:E1.
    + exists l. exact Hl.
    + apply IH, Hl.
Qed.

Lemma has_str_list_append_all (items : list (string * string)) (d : dict)
      (k : string) :
  has_str_list d k -> has_str_list (append_all d items) k.
Proof.
  unfold append_all. revert d.
  induction items as [|[key x] items IH]; intros d H; simpl; [exact H|].
  apply IH, has_str_list_append_to, H.
Qed.

Lemma has_str_list_if (b : bool) (items : list (string * string)) (d : dict)
      (k : string) :
  has_str_list d k ->
  has_str_list (if b then append_all d items else d) k.
Proof.
  intros H. destruct b; [apply has_str_list_append_all|]; exact H.
Qed.

Lemma has_str_list_set (d : dict) (k k' : string) (v : value) :
  String.eqb k k' = false -> has_str_list d k' ->
  has_str_list (dict_set d k v) k'.
Proof.
  intros E [l Hl]. exists l. rewrite dict_get_set, E. exact Hl.
Qed.

(** ** The rules never raise on a generated analysis *)

Lemma savings_mentioned_total (l : list string) :
  exists b, savings_mentioned (map VStr l) = Ok b.
Proof.
  induction l as [|s l [b IH]]; simpl.
  - exists false. reflexivity.
  - destruct (str_in "reduction" (lower s)); simpl.
    + exists true. reflexivity.
    + destruct (str_in "%" s); [exists true; reflexivity|].
      exists b. exact IH.
Qed.

Ltac rule_returns :=
  repeat match goal with
         | |- context [if ?c then _ else _] => destruct c
         end;
  eexists; reflexivity.

Lemma timeliness_total (py : Builtins) (d : dict) (rq : Request) (t : Q) :
  dict_get d "processing_time" = Some (VFloat t) ->
  exists m, QualityCheckInterface.assess_timeliness py d rq = Ok m.
Proof.
  intros H. unfold QualityCheckInterface.assess_timeliness, get_default.
  rewrite H. simpl. rule_returns.
Qed.

(** ** The evaluation loop *)

Lemma assess_each_returns (self : AgentClass) (d : dict) (rq : Request)
      (cfg : list QualityMetric) :
  (forall metric, In metric cfg ->
                  exists m, BaseAgent.assess self metric d rq = Ok m) ->
  exists ms, BaseAgent.assess_each self cfg d rq = Ok ms.
Proof.
  induction cfg as [|metric cfg IH]; intros H; simpl.
  - exists []. reflexivity.
  - destruct (H metric (or_introl eq_refl)) as [m Hm]. rewrite Hm. simpl.
    destruct IH as [ms Hms]; [intros x Hx; apply H; right; exact Hx|].
    rewrite Hms. simpl. exists (m :: ms). reflexivity.
Qed.

Lemma assess_each_dimensions (self : AgentClass) (d : dict) (rq : Request)
      (cfg ms : list QualityMetric) :
  (forall metric m, BaseAgent.assess self metric d rq = Ok m ->
                    dimension m = dimension metric) ->
  BaseAgent.assess_each self cfg d rq = Ok ms ->
  map dimension ms = map dimension cfg.
Proof.
  intros Hdim. revert ms.
  induction cfg as [|metric cfg IH]; intros ms H; simpl in H.
  - injection H as <-. reflexivity.
  - apply bind_Ok_inv in H. destruct H as (m & Hm & H).
    apply bind_Ok_inv in H. destruct H as (rest & Hrest & H).
    injection H as <-. simpl. rewrite (Hdim _ _ Hm), (IH _ Hrest). reflexivity.
Qed.

(** What a returned report is made of. *)
Lemma evaluate_quality_Ok_inv (self : AgentClass) (utcnow : Q) (d : dict)
      (rq : Request) (report : QualityReport) :
  BaseAgent.evaluate_quality self utcnow d rq = Ok report ->
  BaseAgent.assess_each self (v_get_quality_metrics self) d rq
    = Ok (metrics report)
  /\ overall_score report = _calculate_overall_score (metrics report)
  /\ passed_threshold report
     = Qle_bool (v_get_quality_threshold self) (overall_score report)
  /\ approved_for_publication report
     = passed_threshold report && Qle_bool 0.7 (overall_score report).
Proof.
  unfold BaseAgent.evaluate_quality. intros H.
  apply bind_Ok_inv in H. destruct H as (ms & Hms & H).
  apply bind_Ok_inv in H. destruct H as (text & Htext & H).
  injection H as <-. simpl. repeat split. exact Hms.
Qed.

Lemma evaluate_quality_returns (self : AgentClass) (utcnow : Q) (d : dict)
      (rq : Request) :
  (forall metric, In metric (v_get_quality_metrics self) ->
                  exists m, BaseAgent.assess self metric d rq = Ok m) ->
  (forall ms s, exists text, v_generate_summary self ms s = Ok text) ->
  exists report, BaseAgent.evaluate_quality self utcnow d rq = Ok report.
Proof.
  intros Hrules Hsum. unfold BaseAgent.evaluate_quality.
  destruct (assess_each_returns self d rq _ Hrules) as [ms Hms].
  rewrite Hms. simpl.
  destruct (Hsum ms (_calculate_overall_score ms)) as [text Htext].
  rewrite Htext. simpl. eexists. reflexivity.
Qed.

Lemma default_summary_returns (py : Builtins) (ms : list QualityMetric) (s : Q) :
  exists text,
    QualityCheckInterface.generate_summary py
      QualityCheckInterface.determine_quality_level ms s = Ok text.
Proof.
  unfold QualityCheckInterface.generate_summary,
    QualityCheckInterface.determine_quality_level.
  repeat match goal with
         | |- context [Qle_bool ?a ?b] => destruct (Qle_bool a b)
         end; simpl;
  destruct (count_issues ms =? 0)%nat; eexists; reflexivity.
Qed.

Ltac invert_rules :=
  repeat match goal with
         | H : Raise _ = Ok _ |- _ => discriminate H
         | H : Ok _ = Ok ?m |- _ => injection H as H; subst m
         | H : bind _ _ = Ok _ |- _ =>
             let a := fresh "a" in
             let Ha := fresh "Ha" in
             apply bind_Ok_inv in H; destruct H as (a & Ha & H);
             cbv beta in H
         | H : context [if ?c then _ else _] |- _ => destruct c
         | H : (match ?c with _ => _ end) = Ok _ |- _ => destruct c
         end.

Lemma timeliness_dimension (py : Builtins) (d : dict) (rq : Request)
      (m : QualityMetric) :
  QualityCheckInterface.assess_timeliness py d rq = Ok m ->
  dimension m = TIMELINESS.
Proof.
  unfold QualityCheckInterface.assess_timeliness. intros H.
  apply bind_Ok_inv in H. destruct H as (t & _ & H). cbv beta zeta in H.
  invert_rules; reflexivity.
Qed.

(** ** The expert classes *)

(** What the rules of an expert read from an analysis: a numeric
    [processing_time] and lists of strings under [list_keys]. *)
Definition ready (list_keys : list string) (d : dict) : Prop :=
  (exists t, dict_get d "processing_time" = Some (VFloat t))
  /\ Forall (has_str_list d) list_keys.

Ltac rule_dimension H :=
  first
    [ apply timeliness_dimension in H; exact H
    | cbv delta
        [FinancialHealthExpert.assess_accuracy
         FinancialHealthExpert.assess_completeness
         FinancialHealthExpert.assess_relevance
         FinancialHealthExpert.assess_consistency
         FinancialHealthExpert.assess_clarity
         FinancialHealthExpert.assess_actionability
         UtilityManagementExpert.assess_accuracy
         UtilityManagementExpert.assess_completeness
         UtilityManagementExpert.assess_relevance
         UtilityManagementExpert.assess_consistency
         UtilityManagementExpert.assess_clarity
         UtilityManagementExpert.assess_actionability
         VehicleManagementExpert.assess_accuracy
         VehicleManagementExpert.assess_completeness
         VehicleManagementExpert.assess_relevance
         VehicleManagementExpert.assess_consistency
         VehicleManagementExpert.assess_clarity
         VehicleManagementExpert.assess_actionability
         QualityCheckInterface.assess_accuracy
         QualityCheckInterface.assess_completeness
         QualityCheckInterface.assess_relevance
         QualityCheckInterface.assess_consistency
         QualityCheckInterface.assess_clarity
         QualityCheckInterface.assess_actionability] in H;
      cbv beta zeta in H; invert_rules; reflexivity ].

Lemma expert_assess_dimension (py : Builtins) (self : ExpertAgent)
      (metric : QualityMetric) (d : dict) (rq : Request) (m : QualityMetric) :
  BaseAgent.assess (BaseExpertAgent.class py self) metric d rq = Ok m ->
  dimension m = dimension metric.
Proof.
  unfold BaseAgent.assess, BaseExpertAgent.class.
  destruct (expert_kind self); destruct (dimension metric); simpl;
    intros H; rule_dimension H.
Qed.

Lemma base_assess_dimension (py : Builtins) (name : string)
      (metric : QualityMetric) (d : dict) (rq : Request) (m : QualityMetric) :
  BaseAgent.assess (BaseAgent.class py name) metric d rq = Ok m ->
  dimension m = dimension metric.
Proof.
  unfold BaseAgent.assess.
  destruct (dimension metric); simpl; intros H; rule_dimension H.
Qed.

Definition list_keys_of (k : ExpertKind) : list string :=
  match k with
  | Financial =>
      ["expected_outcomes"; "priority_actions"; "budget_optimization";
       "investment_recommendations"; "debt_management"]
  | Utility =>
      ["expected_benefits"; "implementation_steps";
       "cost_savings_recommendations"; "technology_recommendations"]
  | Vehicle =>
      ["expected_benefits"; "priority_actions"; "maintenance_recommendations";
       "cost_optimization"; "safety_improvements"]
  end.

Ltac read_list H :=
  let l := fresh "l" in
  let Hl := fresh "Hl" in
  destruct H as [l Hl]; rewrite Hl; cbn [py_len py_iter bind].

Ltac read_lists :=
  unfold get_default;
  repeat match goal with
         | H : has_str_list _ _ |- _ => read_list H
         end.

Ltac read_savings :=
  match goal with
  | |- context [savings_mentioned (map VStr ?l)] =>
      let b := fresh "b" in
      let Hb := fresh "Hb" in
      destruct (savings_mentioned_total l) as [b Hb]; rewrite Hb;
      cbn [bind]
  end.

Lemma expert_assess_returns (py : Builtins) (self : ExpertAgent)
      (metric : QualityMetric) (d : dict) (rq : Request) :
  ready (list_keys_of (expert_kind self)) d ->
  exists m, BaseAgent.assess (BaseExpertAgent.class py self) metric d rq = Ok m.
Proof.
  unfold BaseAgent.assess, BaseExpertAgent.class, ready.
  intros [[t Ht] Hlists].
  destruct (expert_kind self); simpl in Hlists;
    repeat match goal with
           | H : Forall _ (_ :: _) |- _ =>
               let H1 := fresh "H" in
               let H2 := fresh "H" in
               apply Forall_cons_iff in H; destruct H as [H1 H2]
           | H : Forall _ [] |- _ => clear H
           end;
    destruct (dimension metric); simpl;
    try (apply timeliness_total with (t := t); exact Ht).
  all: cbv delta
        [FinancialHealthExpert.assess_accuracy
         FinancialHealthExpert.assess_completeness
         FinancialHealthExpert.assess_relevance
         FinancialHealthExpert.assess_consistency
         FinancialHealthExpert.assess_clarity
         FinancialHealthExpert.assess_actionability
         UtilityManagementExpert.assess_accuracy
         UtilityManagementExpert.assess_completeness
         UtilityManagementExpert.assess_relevance
         UtilityManagementExpert.assess_consistency
         UtilityManagementExpert.assess_clarity
         UtilityManagementExpert.assess_actionability
         VehicleManagementExpert.assess_accuracy
         VehicleManagementExpert.assess_completeness
         VehicleManagementExpert.assess_relevance
         VehicleManagementExpert.assess_consistency
         VehicleManagementExpert.assess_clarity
         VehicleManagementExpert.assess_actionability];
    cbv beta zeta.
  all: try (rule_returns; fail).
  all: read_lists; try read_savings; rule_returns.
Qed.

(** The analysis as it stands when the expert evaluates it: the generated
    dict with the three fields [process] adds first. *)
Definition timed_result (self : ExpertAgent) (processing_time : Q)
           (request_data : Request) : dict :=
  dict_set
    (dict_set
       (dict_set (BaseExpertAgent._expert_process self request_data)
          "processing_time" (VFloat processing_time))
       "expert_agent" (VStr (BaseExpertAgent.name self)))
    "expertise" (VStr (BaseExpertAgent.expertise self)).

Ltac generated_list :=
  repeat (apply has_str_list_set; [reflexivity|]);
  cbv delta [BaseExpertAgent._expert_process
             FinancialHealthExpert._expert_process
             UtilityManagementExpert._expert_process
             VehicleManagementExpert._expert_process
             FinancialHealthExpert._generate_financial_analysis
             UtilityManagementExpert._generate_utility_analysis
             VehicleManagementExpert._generate_vehicle_analysis];
  cbv beta zeta;
  repeat apply has_str_list_if;
  exists []; reflexivity.

Lemma timed_result_ready (self : ExpertAgent) (pt : Q) (rq : Request) :
  ready (list_keys_of (expert_kind self)) (timed_result self pt rq).
Proof.
  unfold ready, timed_result. split.
  - exists pt. rewrite !dict_get_set. reflexivity.
  - unfold BaseExpertAgent._expert_process.
    destruct (expert_kind self); simpl list_keys_of;
      repeat (apply Forall_cons; [generated_list|]); apply Forall_nil.
Qed.

Lemma expert_evaluation_returns (py : Builtins) (self : ExpertAgent)
      (pt utcnow : Q) (rq : Request) :
  exists report,
    BaseAgent.evaluate_quality (BaseExpertAgent.class py self) utcnow
      (timed_result self pt rq) rq = Ok report.
Proof.
  apply evaluate_quality_returns.
  - intros metric _. apply expert_assess_returns, timed_result_ready.
  - intros ms s. unfold BaseExpertAgent.class.
    destruct (expert_kind self); apply default_summary_returns.
Qed.

(** The two outcomes of an expert's [process]. *)
Lemma expert_process_outcome (py : Builtins) (self : ExpertAgent)
      (pt utcnow : Q) (rq : Request) :
  (BaseExpertAgent._can_handle_request self rq = false
   /\ snd (BaseExpertAgent.process py self pt utcnow rq)
      = Raise (ValueError
                 ("Request type " ++ BaseExpertAgent.shown_request_type rq
                    ++ " not suitable for " ++ BaseExpertAgent.expertise self
                    ++ " expert")))
  \/ (BaseExpertAgent._can_handle_request self rq = true
      /\ exists report,
          BaseAgent.evaluate_quality (BaseExpertAgent.class py self) utcnow
            (timed_result self pt rq) rq = Ok report
          /\ snd (BaseExpertAgent.process py self pt utcnow rq)
             = Ok (dict_set (timed_result self pt rq) "quality_report"
                     (VDict (BaseAgent.serialize_quality_report report)))).
Proof.
  unfold BaseExpertAgent.process.
  destruct (BaseExpertAgent._can_handle_request self rq) eqn:E; simpl negb;
    cbv iota.
  - right. split; [reflexivity|].
    destruct (expert_evaluation_returns py self pt utcnow rq) as [report Hr].
    exists report. split; [exact Hr|].
    cbv zeta. fold (timed_result self pt rq). rewrite Hr. reflexivity.
  - left. split; reflexivity.
Qed.

(** ** The orchestrator's own evaluation *)

Lemma principal_assess_dimension (py : Builtins) (metric : QualityMetric)
      (d : dict) (rq : Request) (m : QualityMetric) :
  BaseAgent.assess (PrincipalAgent.class py) metric d rq = Ok m ->
  dimension m = dimension metric.
Proof.
  unfold BaseAgent.assess.
  destruct (dimension metric); simpl; intros H;
    first
      [ apply timeliness_dimension in H; exact H
      | cbv delta [PrincipalAgent.assess_accuracy
                   PrincipalAgent.assess_completeness
                   PrincipalAgent.assess_relevance
                   PrincipalAgent.assess_consistency
                   PrincipalAgent.assess_clarity
                   PrincipalAgent.assess_actionability] in H;
        cbv beta zeta in H; invert_rules; reflexivity ].
Qed.

(** The six metrics the orchestrator's rules give to a dict that has neither
    an ["expert_results"] nor a ["synthesis"] key. *)
Definition bare_metrics : list QualityMetric :=
  [ mkQualityMetric ACCURACY (max0 (0.8 - 0.3)) 0.25
      "Synthesis accuracy assessment" [] [];
    mkQualityMetric COMPLETENESS (max0 (0.9 - 0.2 - 0.2 - 0.2)) 0.25
      "Synthesis completeness assessment" [] [];
    mkQualityMetric RELEVANCE (max0 0.85) 0.2
      "Synthesis relevance assessment" [] [];
    mkQualityMetric CONSISTENCY (max0 0.8) 0.15
      "Cross-expert consistency assessment" [] [];
    mkQualityMetric CLARITY (max0 (0.85 - 0.2)) 0.1
      "Synthesis clarity assessment" [] [];
    mkQualityMetric ACTIONABILITY (max0 (0.8 - 0.3)) 0.05
      "Synthesis actionability assessment" [] [] ].

Lemma principal_assess_each_bare (py : Builtins) (d : dict) (rq : Request) :
  dict_get d "expert_results" = None ->
  dict_get d "synthesis" = None ->
  BaseAgent.assess_each (PrincipalAgent.class py)
    PrincipalAgent.get_quality_metrics d rq = Ok bare_metrics.
Proof.
  intros H1 H2.
  unfold PrincipalAgent.get_quality_metrics, BaseAgent.assess_each,
    BaseAgent.assess. simpl dimension. cbv iota.
  simpl v_assess_accuracy. simpl v_assess_completeness.
  simpl v_assess_relevance. simpl v_assess_consistency.
  simpl v_assess_clarity. simpl v_assess_actionability.
  unfold PrincipalAgent.assess_accuracy, PrincipalAgent.assess_completeness,
    PrincipalAgent.assess_relevance, PrincipalAgent.assess_consistency,
    PrincipalAgent.assess_clarity, PrincipalAgent.assess_actionability,
    get_default.
  rewrite H1, H2.
  destruct (String.eqb (lower (get_str (request_type rq) "")) ""); reflexivity.
Qed.

Lemma bare_overall_score : _calculate_overall_score bare_metrics == 0.58.
Proof. vm_compute. reflexivity. Qed.

Lemma principal_evaluation_bare (py : Builtins) (utcnow : Q) (d : dict)
      (rq : Request) :
  dict_get d "expert_results" = None ->
  dict_get d "synthesis" = None ->
  exists report,
    BaseAgent.evaluate_quality (PrincipalAgent.class py) utcnow d rq = Ok report
    /\ metrics report = bare_metrics
    /\ overall_score report == 0.58
    /\ passed_threshold report = false
    /\ approved_for_publication report = false.
Proof.
  intros H1 H2. unfold BaseAgent.evaluate_quality.
  change (v_get_quality_metrics (PrincipalAgent.class py))
    with PrincipalAgent.get_quality_metrics.
  rewrite (principal_assess_each_bare py d rq H1 H2). cbn [bind].
  change (v_generate_summary (PrincipalAgent.class py))
    with PrincipalAgent.generate_summary.
  unfold PrincipalAgent.generate_summary.
  replace (Qle_bool 0.8 (_calculate_overall_score bare_metrics)) with false
    by (vm_compute; reflexivity).
  replace (Qle_bool 0.7 (_calculate_overall_score bare_metrics)) with false
    by (vm_compute; reflexivity).
  replace (Qle_bool 0.6 (_calculate_overall_score bare_metrics)) with false
    by (vm_compute; reflexivity).
  cbn [bind]. eexists. split; [reflexivity|]. cbn.
  split; [reflexivity|]. split; [apply bare_overall_score|].
  split; vm_compute; reflexivity.
Qed.

(** Both shapes of a synthesis lack the two keys the rules look for. *)
Lemma synthesis_is_bare (rq : Request) (expert_results : dict) :
  dict_get (PrincipalAgent._synthesize_results rq expert_results)
    "expert_results" = None
  /\ dict_get (PrincipalAgent._synthesize_results rq expert_results)
       "synthesis" = None.
Proof.
  unfold PrincipalAgent._synthesize_results, PrincipalAgent.synthesis_of.
  destruct (PrincipalAgent.merge_results expert_results [] [] [])
    as [[[i r] m]|e]; cbn [bind]; [|split; reflexivity].
  destruct (select_by_error false (values expert_results)); cbn [bind];
    [|split; reflexivity].
  destruct (select_by_error true (values expert_results)); cbn [bind];
    split; reflexivity.
Qed.

(** ** Comparisons *)

Lemma Qle_bool_false (x y : Q) : Qle_bool x y = false -> y < x.
Proof.
  intros H. apply Qnot_le_lt. intros Hle.
  apply Qle_bool_iff in Hle. rewrite Hle in H. discriminate H.
Qed.

Lemma Qgt_bool_iff (x y : Q) : Qgt_bool x y = true <-> y < x.
Proof. unfold Qgt_bool, Qlt_bool, Qlt. apply Z.ltb_lt. Qed.

(** Abstract built-ins used to run the embedding on concrete inputs. *)
Definition py0 : Builtins := mkBuiltins (fun _ => "") (fun _ => "").

(** ** Verdicts *)

(** C1.  For every evaluation by any component, [passed_threshold] is true
    exactly when the overall score is at least the component's configured
    threshold, and [approved_for_publication] is true exactly when
    [passed_threshold] holds and the overall score is at least 0.70; hence
    approval implies both.  The configured thresholds are financial 0.75,
    utility 0.70, vehicle 0.65, default 0.60 and orchestrator 0.70. *)
Theorem evaluate_quality_verdicts (self : AgentClass) (utcnow : Q)
        (agent_result : dict) (original_request : Request)
        (report : QualityReport)
        (Hreport : BaseAgent.evaluate_quality self utcnow agent_result
                     original_request = Ok report) :
  (passed_threshold report = true
   <-> v_get_quality_threshold self <= overall_score report)
  /\ (approved_for_publication report = true
      <-> passed_threshold report = true /\ 0.7 <= overall_score report)
  /\ (approved_for_publication report = true -> passed_threshold report = true)
  /\ (approved_for_publication report = true -> 0.7 <= overall_score report)
  /\ (forall py,
         v_get_quality_threshold (FinancialHealthExpert.class py) = 0.75
         /\ v_get_quality_threshold (UtilityManagementExpert.class py) = 0.7
         /\ v_get_quality_threshold (VehicleManagementExpert.class py) = 0.65
         /\ (forall name,
                v_get_quality_threshold (BaseAgent.class py name) = 0.6)
         /\ v_get_quality_threshold (PrincipalAgent.class py) = 0.7).
Proof.
  destruct (evaluate_quality_Ok_inv _ _ _ _ Hreport) as (_ & _ & Hp & Ha).
  assert (Hpass : passed_threshold report = true
                  <-> v_get_quality_threshold self <= overall_score report).
  { rewrite Hp. apply Qle_bool_iff. }
  assert (Happ : approved_for_publication report = true
                 <-> passed_threshold report = true
                     /\ 0.7 <= overall_score report).
  { rewrite Ha, andb_true_iff, Qle_bool_iff. reflexivity. }
  split; [exact Hpass|]. split; [exact Happ|].
  split; [intros H; apply Happ in H; tauto|].
  split; [intros H; apply Happ in H; tauto|].
  intros py. repeat split.
Qed.

(** A request for a financial analysis and its evaluation by the financial
    expert. *)
Definition budget_request : Request :=
  mkRequest (Some "r-1") (Some "u-1") (Some "financial_health")
    (Some "Help me with my budget and my debt") (Some "medium") (Some []).

Lemma evaluate_quality_verdicts_witness :
  exists report,
    BaseAgent.evaluate_quality (FinancialHealthExpert.class py0) 0
      (timed_result (BaseExpertAgent.new Financial) 2 budget_request)
      budget_request = Ok report
    /\ (passed_threshold report = true
        <-> 0.75 <= overall_score report)
    /\ (approved_for_publication report = true
        <-> passed_threshold report = true /\ 0.7 <= overall_score report).
Proof.
  assert (H : exists report,
             BaseAgent.evaluate_quality (FinancialHealthExpert.class py0) 0
               (timed_result (BaseExpertAgent.new Financial) 2 budget_request)
               budget_request = Ok report)
    by (eexists; vm_compute; reflexivity).
  destruct H as [report Hreport].
  exists report. split; [exact Hreport|].
  destruct (evaluate_quality_verdicts _ _ _ _ Hreport) as (H1 & H2 & _).
  split; [exact H1 | exact H2].
Defined.

(** ** Dimensions of a report *)

Definition seven_dimensions : list QualityDimension :=
  [ACCURACY; COMPLETENESS; RELEVANCE; TIMELINESS; CONSISTENCY; CLARITY;
   ACTIONABILITY].

Definition six_dimensions : list QualityDimension :=
  [ACCURACY; COMPLETENESS; RELEVANCE; CONSISTENCY; CLARITY; ACTIONABILITY].

(** The number of metrics of a report that assess dimension [d]. *)
Definition metrics_for (d : QualityDimension) (report : QualityReport) : nat :=
  List.length
    (filter (fun m => QualityDimension_eqb (dimension m) d) (metrics report)).

(** "Exactly one metric for each of the seven dimensions." *)
Definition one_metric_per_dimension (report : QualityReport) : Prop :=
  forall d : QualityDimension, metrics_for d report = 1%nat.

Lemma metrics_for_map (d : QualityDimension) (report : QualityReport) :
  metrics_for d report
  = List.length (filter (fun x => QualityDimension_eqb x d)
                        (map dimension (metrics report))).
Proof.
  unfold metrics_for. induction (metrics report) as [|m ms IH]; simpl.
  - reflexivity.
  - destruct (QualityDimension_eqb (dimension m) d); simpl; rewrite IH;
      reflexivity.
Qed.

Lemma report_dimensions (self : AgentClass) (utcnow : Q) (d : dict)
      (rq : Request) (report : QualityReport) :
  (forall metric m, BaseAgent.assess self metric d rq = Ok m ->
                    dimension m = dimension metric) ->
  BaseAgent.evaluate_quality self utcnow d rq = Ok report ->
  map dimension (metrics report)
  = map dimension (v_get_quality_metrics self).
Proof.
  intros Hdim H. apply evaluate_quality_Ok_inv in H. destruct H as (H & _).
  exact (assess_each_dimensions self d rq _ Hdim H).
Qed.

(** The synthesis of an empty expert-result map, a request of type
    "general", and the orchestrator's evaluation of that synthesis. *)
Definition general_request : Request :=
  mkRequest (Some "r-2") (Some "u-1") (Some "general")
    (Some "Give me an overview") (Some "medium") (Some []).

(** C3, as stated, fails for the orchestrator: the report of its synthesis
    evaluation carries no timeliness metric, so it does not have one metric
    for each of the seven dimensions. *)
Lemma orchestrator_report_lacks_timeliness :
  exists report,
    BaseAgent.evaluate_quality (PrincipalAgent.class py0) 0
      (PrincipalAgent._synthesize_results general_request []) general_request
    = Ok report
    /\ metrics_for TIMELINESS report = 0%nat
    /\ ~ one_metric_per_dimension report.
Proof.
  eexists. split; [vm_compute; reflexivity|].
  split; [reflexivity|].
  intros H. specialize (H TIMELINESS). vm_compute in H. discriminate H.
Qed.

(** C3, amended.  Every report an expert's [evaluate_quality] produces has
    exactly one metric for each of the seven dimensions, in the order
    accuracy, completeness, relevance, timeliness, consistency, clarity,
    actionability, and an expert's evaluation of the analysis it generated
    does produce a report.  Every report of the orchestrator's evaluation has
    exactly one metric for each of the six dimensions other than timeliness
    and none for timeliness, and its evaluation of a synthesis does produce
    a report. *)
Theorem report_metrics_per_dimension (py : Builtins) (utcnow : Q) :
  (forall (self : ExpertAgent) (d : dict) (rq : Request) (report : QualityReport),
      BaseAgent.evaluate_quality (BaseExpertAgent.class py self) utcnow d rq
      = Ok report ->
      map dimension (metrics report) = seven_dimensions
      /\ one_metric_per_dimension report)
  /\ (forall (self : ExpertAgent) (pt : Q) (rq : Request),
         exists report,
           BaseAgent.evaluate_quality (BaseExpertAgent.class py self) utcnow
             (timed_result self pt rq) rq = Ok report)
  /\ (forall (d : dict) (rq : Request) (report : QualityReport),
         BaseAgent.evaluate_quality (PrincipalAgent.class py) utcnow d rq
         = Ok report ->
         map dimension (metrics report) = six_dimensions
         /\ metrics_for TIMELINESS report = 0%nat
         /\ (forall x, In x six_dimensions -> metrics_for x report = 1%nat))
  /\ (forall (rq : Request) (expert_results : dict),
         exists report,
           BaseAgent.evaluate_quality (PrincipalAgent.class py) utcnow
             (PrincipalAgent._synthesize_results rq expert_results) rq
           = Ok report).
Proof.
  split; [|split; [|split]].
  - intros self d rq report H.
    assert (Hmap : map dimension (metrics report) = seven_dimensions).
    { rewrite (report_dimensions _ _ _ _
                 (fun metric m => @expert_assess_dimension py self metric d rq m)
                 H).
      unfold BaseExpertAgent.class. destruct (expert_kind self); reflexivity. }
    split; [exact Hmap|].
    intros x. rewrite metrics_for_map, Hmap. destruct x; reflexivity.
  - intros self pt rq. apply expert_evaluation_returns.
  - intros d rq report H.
    assert (Hmap : map dimension (metrics report) = six_dimensions).
    { rewrite (report_dimensions _ _ _ _
                 (fun metric m => @principal_assess_dimension py metric d rq m) H).
      reflexivity. }
    split; [exact Hmap|]. split.
    + rewrite metrics_for_map, Hmap. reflexivity.
    + intros x Hx. rewrite metrics_for_map, Hmap.
      simpl in Hx.
      repeat (destruct Hx as [<-|Hx]; [reflexivity|]). destruct Hx.
  - intros rq expert_results.
    destruct (synthesis_is_bare rq expert_results) as [H1 H2].
    destruct (principal_evaluation_bare py utcnow _ rq H1 H2) as (report & H & _).
    exists report. exact H.
Qed.

(** ** Timeliness *)

(** C9.  For every agent result whose recorded processing duration is the
    number [t] (seconds; an absent field counts as 0), the shared timeliness
    rule returns a metric whose score is 1.0 when t <= 5, 0.8 when
    5 < t <= 15, 0.6 when 15 < t <= 30, 0.4 when 30 < t <= 60 and 0.2 when
    t > 60, and whose issue list is non-empty exactly when t > 15; a duration
    of 45 gives 0.4 together with the threshold-exceeded issue. *)
Theorem timeliness_rule (py : Builtins) (agent_result : dict)
        (original_request : Request) (t : Q)
        (Hduration : py_number "<="
                       (get_default agent_result "processing_time" (VInt 0))
                     = Ok t) :
  exists m,
    QualityCheckInterface.assess_timeliness py agent_result original_request
    = Ok m
    /\ dimension m = TIMELINESS
    /\ (t <= 5 -> score m = 1.0)
    /\ (5 < t /\ t <= 15 -> score m = 0.8)
    /\ (15 < t /\ t <= 30 -> score m = 0.6)
    /\ (30 < t /\ t <= 60 -> score m = 0.4)
    /\ (60 < t -> score m = 0.2)
    /\ (issues m <> [] <-> 15 < t)
    /\ (t == 45 ->
        score m = 0.4
        /\ issues m = ["Response time (" ++ format_2f py t
                         ++ "s) exceeds optimal threshold"]).
Proof.
  unfold QualityCheckInterface.assess_timeliness.
  rewrite Hduration. cbn [bind]. cbv zeta.
  destruct (Qgt_bool t 15.0) eqn:G;
    [apply Qgt_bool_iff in G
    | assert (G' : ~ 15.0 < t)
        by (intros C; apply Qgt_bool_iff in C; rewrite C in G; discriminate G)].
  all: destruct (Qle_bool t 5.0) eqn:E1;
    [apply Qle_bool_iff in E1 | apply Qle_bool_false in E1].
  all: destruct (Qle_bool t 15.0) eqn:E2;
    [apply Qle_bool_iff in E2 | apply Qle_bool_false in E2].
  all: destruct (Qle_bool t 30.0) eqn:E3;
    [apply Qle_bool_iff in E3 | apply Qle_bool_false in E3].
  all: destruct (Qle_bool t 60.0) eqn:E4;
    [apply Qle_bool_iff in E4 | apply Qle_bool_false in E4].
  all: try (exfalso; lra).
  all: eexists; split; [reflexivity|]; cbn [dimension score issues].
  all: repeat split; intros; try reflexivity; try (exfalso; lra);
    try discriminate; try lra; try congruence.
Qed.

Lemma timeliness_rule_witness :
  exists m,
    QualityCheckInterface.assess_timeliness py0
      [("processing_time", VFloat 45.0)] general_request = Ok m
    /\ score m = 0.4
    /\ issues m = ["Response time (s) exceeds optimal threshold"].
Proof.
  assert (H : py_number "<="
                (get_default [("processing_time", VFloat 45.0)]
                   "processing_time" (VInt 0)) = Ok 45.0)
    by reflexivity.
  destruct (timeliness_rule py0 [("processing_time", VFloat 45.0)]
              general_request H)
    as (m & Hm & _ & _ & _ & _ & _ & _ & _ & H45).
  exists m. split; [exact Hm|]. apply H45. reflexivity.
Defined.

(** ** The domain guard of an expert *)

Definition multi_domain_keywords : list string :=
  ["comprehensive_analysis"; "multi_domain"; "all"; "general"; "overview"].

Lemma expertise_token (self : ExpertAgent) :
  replace_space_underscore (lower (BaseExpertAgent.expertise self))
  = BaseExpertAgent.expertise self.
Proof.
  unfold BaseExpertAgent.expertise. destruct (expert_kind self); reflexivity.
Qed.

Lemma can_handle_false_iff (self : ExpertAgent) (rq : Request) :
  BaseExpertAgent._can_handle_request self rq = false
  <-> str_in (BaseExpertAgent.expertise self)
             (lower (get_str (request_type rq) "")) = false
      /\ any_in multi_domain_keywords (lower (get_str (request_type rq) ""))
         = false.
Proof.
  unfold BaseExpertAgent._can_handle_request. rewrite expertise_token.
  fold multi_domain_keywords.
  destruct (any_in multi_domain_keywords (lower (get_str (request_type rq) "")));
    split; intros H; try discriminate; try tauto.
Qed.

(** C5.  For every request, an expert's [process] raises if and only if the
    lower-cased request type contains neither the expert's own expertise
    token (financial_health, utility_management or vehicle_management) nor
    any of the override tokens comprehensive_analysis, multi_domain, all,
    general, overview as a substring; what it raises then is the
    domain-mismatch [ValueError]; and a request of type
    "comprehensive_analysis" is accepted by every expert. *)
Theorem expert_guard (py : Builtins) (self : ExpertAgent) (pt utcnow : Q)
        (request_data : Request) :
  ((exists e,
       snd (BaseExpertAgent.process py self pt utcnow request_data) = Raise e)
   <-> str_in (BaseExpertAgent.expertise self)
              (lower (get_str (request_type request_data) "")) = false
       /\ any_in multi_domain_keywords
                 (lower (get_str (request_type request_data) "")) = false)
  /\ (forall e,
         snd (BaseExpertAgent.process py self pt utcnow request_data) = Raise e ->
         e = ValueError
               ("Request type " ++ BaseExpertAgent.shown_request_type request_data
                  ++ " not suitable for " ++ BaseExpertAgent.expertise self
                  ++ " expert"))
  /\ (BaseExpertAgent.expertise self = "financial_health"
      \/ BaseExpertAgent.expertise self = "utility_management"
      \/ BaseExpertAgent.expertise self = "vehicle_management")
  /\ (forall rid uid desc pr md,
         exists result,
           snd (BaseExpertAgent.process py self pt utcnow
                  (mkRequest rid uid (Some "comprehensive_analysis") desc pr md))
           = Ok result).
Proof.
  split; [|split; [|split]].
  - rewrite <- can_handle_false_iff.
    destruct (expert_process_outcome py self pt utcnow request_data)
      as [[Hc Hp]|[Hc (report & _ & Hp)]]; rewrite Hp, Hc.
    + split; [reflexivity|]. intros _. eexists. reflexivity.
    + split; [intros [e He]; discriminate He | intros H; discriminate H].
  - intros e He.
    destruct (expert_process_outcome py self pt utcnow request_data)
      as [[Hc Hp]|[Hc (report & _ & Hp)]]; rewrite Hp in He.
    + injection He as <-. reflexivity.
    + discriminate He.
  - unfold BaseExpertAgent.expertise. destruct (expert_kind self); auto.
  - intros rid uid desc pr md.
    destruct (expert_process_outcome py self pt utcnow
                (mkRequest rid uid (Some "comprehensive_analysis") desc pr md))
      as [[Hc Hp]|[Hc (report & _ & Hp)]].
    + unfold BaseExpertAgent._can_handle_request in Hc. simpl in Hc.
      discriminate Hc.
    + eexists. exact Hp.
Qed.

(** ** Expert selection *)

Definition financial_keywords : list string :=
  ["financial"; "budget"; "cost"; "expense"; "revenue"; "profit"].
Definition utility_keywords : list string :=
  ["utility"; "energy"; "water"; "electricity"; "consumption"; "efficiency";
   "sustainability"].
Definition vehicle_keywords : list string :=
  ["vehicle"; "fleet"; "maintenance"; "transport"; "logistics"; "fuel"].

(** The registry that [initialize] builds when the three constructors
    succeed, inside an initialized orchestrator. *)
Definition standard_experts : list (string * ExpertAgent) :=
  [ ("financial", BaseExpertAgent.new Financial);
    ("utility", BaseExpertAgent.new Utility);
    ("vehicle", BaseExpertAgent.new Vehicle) ].

Definition standard_principal : PrincipalAgent :=
  mkPrincipalAgent true standard_experts [] FileStreamer [].

(** C7.  For every request whose lower-cased request type contains none of
    the financial, utility or vehicle keywords, expert selection returns the
    entire registered expert set; a request of type "general" against the
    standard three experts selects financial, utility and vehicle; and an
    empty registry yields the empty selection for every request. *)
Theorem router_fallback (self : PrincipalAgent) (request_data : Request)
        (Hfinancial : any_in financial_keywords
                        (lower (get_str (request_type request_data) "")) = false)
        (Hutility : any_in utility_keywords
                      (lower (get_str (request_type request_data) "")) = false)
        (Hvehicle : any_in vehicle_keywords
                      (lower (get_str (request_type request_data) "")) = false) :
  PrincipalAgent._determine_required_experts self request_data
  = expert_agents self
  /\ (forall rid uid desc pr md,
         keys (PrincipalAgent._determine_required_experts standard_principal
                 (mkRequest rid uid (Some "general") desc pr md))
         = ["financial"; "utility"; "vehicle"])
  /\ (forall (self' : PrincipalAgent) (rq : Request),
         expert_agents self' = [] ->
         PrincipalAgent._determine_required_experts self' rq = []).
Proof.
  split; [|split].
  - unfold PrincipalAgent._determine_required_experts.
    fold financial_keywords utility_keywords vehicle_keywords.
    rewrite Hfinancial, Hutility, Hvehicle.
    destruct (expert_agents self); reflexivity.
  - intros. reflexivity.
  - intros self' rq H. unfold PrincipalAgent._determine_required_experts.
    rewrite H. reflexivity.
Qed.

Lemma router_fallback_witness :
  PrincipalAgent._determine_required_experts standard_principal general_request
  = standard_experts.
Proof.
  apply (router_fallback standard_principal general_request);
    vm_compute; reflexivity.
Defined.

(** ** Synthesis *)

Definition error_free (result : value) : bool :=
  match result with
  | VDict d => negb (dict_has d "error")
  | _ => false
  end.

(** The ["recommendations"] list of a result, empty when it has none. *)
Definition recommendations_of (result : value) : list value :=
  match result with
  | VDict d => match dict_get d "recommendations" with
               | Some (VList l) => l
               | _ => []
               end
  | _ => []
  end.

(** The concatenation, in iteration order, of the recommendation lists of
    the error-free results. *)
Definition merged_recommendations (expert_results : dict) : list value :=
  flat_map (fun kv => if error_free (snd kv) then recommendations_of (snd kv)
                      else [])
           expert_results.

(** An expert result: a dict, whose ["recommendations"], when it is
    error-free and has any, is a list. *)
Definition expert_result_shape (result : value) : Prop :=
  exists d, result = VDict d
            /\ (dict_has d "error" = false ->
                forall v, dict_get d "recommendations" = Some v ->
                          exists l, v = VList l).

Lemma dict_has_get {V : Type} (d : list (string * V)) (k : string) :
  dict_has d k = true -> exists v, dict_get d k = Some v.
Proof.
  unfold dict_has. destruct (dict_get d k) as [v|]; intros H.
  - exists v. reflexivity.
  - discriminate H.
Qed.

Lemma getitem_present (d : dict) (k : string) :
  dict_has d k = true ->
  exists v, dict_get d k = Some v /\ py_getitem (VDict d) k = Ok v.
Proof.
  intros H. destruct (dict_has_get d k H) as [v Hv].
  exists v. split; [exact Hv|]. simpl. rewrite Hv. reflexivity.
Qed.

Lemma merge_results_concat (items : dict) :
  Forall expert_result_shape (values items) ->
  forall insights recommendations metrics,
  exists insights' metrics',
    PrincipalAgent.merge_results items insights recommendations metrics
    = Ok (insights', (recommendations ++ merged_recommendations items)%list,
          metrics').
Proof.
  induction items as [|[expert_name result] items IH]; intros Hshape i r m.
  - exists i, m. simpl. rewrite app_nil_r. reflexivity.
  - simpl in Hshape. apply Forall_cons_iff in Hshape.
    destruct Hshape as [(d & -> & Hrec) Hshape].
    specialize (IH Hshape).
    unfold merged_recommendations. simpl flat_map.
    fold (merged_recommendations items).
    cbn [PrincipalAgent.merge_results py_in bind].
    destruct (dict_has d "error") eqn:Eerr; cbn [negb].
    + apply IH.
    + specialize (Hrec eq_refl).
      destruct (dict_has d "insights") eqn:Ei.
      * destruct (getitem_present d "insights" Ei) as (vi & _ & ->).
        cbn [bind].
        destruct (dict_has d "recommendations") eqn:Er.
        -- destruct (getitem_present d "recommendations" Er) as (vr & Hvr & ->).
           destruct (Hrec vr Hvr) as [l ->]. rewrite Hvr. cbn [bind py_iter].
           destruct (dict_has d "metrics") eqn:Em.
           ++ destruct (getitem_present d "metrics" Em) as (vm & _ & ->).
              cbn [bind]. rewrite app_assoc. apply IH.
           ++ cbn [bind]. rewrite app_assoc. apply IH.
        -- unfold dict_has in Er.
           destruct (dict_get d "recommendations"); [discriminate Er|].
           cbn [bind app].
           destruct (dict_has d "metrics") eqn:Em.
           ++ destruct (getitem_present d "metrics" Em) as (vm & _ & ->).
              cbn [bind]. apply IH.
           ++ cbn [bind]. apply IH.
      * cbn [bind].
        destruct (dict_has d "recommendations") eqn:Er.
        -- destruct (getitem_present d "recommendations" Er) as (vr & Hvr & ->).
           destruct (Hrec vr Hvr) as [l ->]. rewrite Hvr. cbn [bind py_iter].
           destruct (dict_has d "metrics") eqn:Em.
           ++ destruct (getitem_present d "metrics" Em) as (vm & _ & ->).
              cbn [bind]. rewrite app_assoc. apply IH.
           ++ cbn [bind]. rewrite app_assoc. apply IH.
        -- unfold dict_has in Er.
           destruct (dict_get d "recommendations"); [discriminate Er|].
           cbn [bind app].
           destruct (dict_has d "metrics") eqn:Em.
           ++ destruct (getitem_present d "metrics" Em) as (vm & _ & ->).
              cbn [bind]. apply IH.
           ++ cbn [bind]. apply IH.
Qed.

Lemma select_by_error_dicts (wanted : bool) (rs : list value) :
  Forall (fun r => exists d, r = VDict d) rs ->
  exists selected, select_by_error wanted rs = Ok selected.
Proof.
  induction 1 as [|r rs (d & ->) _ [selected IH]]; simpl.
  - exists []. reflexivity.
  - rewrite IH. cbn [bind]. eexists. reflexivity.
Qed.

Lemma synthesis_recommendations (rq : Request) (expert_results : dict) :
  Forall expert_result_shape (values expert_results) ->
  dict_get (PrincipalAgent._synthesize_results rq expert_results)
    "recommendations"
  = Some (VList (merged_recommendations expert_results))
  /\ dict_has (PrincipalAgent._synthesize_results rq expert_results) "error"
     = false.
Proof.
  intros Hshape.
  unfold PrincipalAgent._synthesize_results, PrincipalAgent.synthesis_of.
  destruct (@merge_results_concat expert_results Hshape [] [] [])
    as (insights & metrics & ->).
  assert (Hdicts : Forall (fun r => exists d, r = VDict d)
                          (values expert_results)).
  { eapply Forall_impl; [|exact Hshape]. intros r (d & -> & _).
    exists d. reflexivity. }
  destruct (@select_by_error_dicts false _ Hdicts) as [successful ->].
  destruct (@select_by_error_dicts true _ Hdicts) as [failed ->].
  cbn [bind app]. split; reflexivity.
Qed.

Lemma merged_recommendations_app (xs ys : dict) :
  merged_recommendations (xs ++ ys)%list
  = (merged_recommendations xs ++ merged_recommendations ys)%list.
Proof. unfold merged_recommendations. apply flat_map_app. Qed.

Lemma merged_recommendations_cons (expert_name : string) (d : dict)
      (l : list value) (rest : dict) :
  dict_has d "error" = false ->
  dict_get d "recommendations" = Some (VList l) ->
  merged_recommendations ((expert_name, VDict d) :: rest)
  = (l ++ merged_recommendations rest)%list.
Proof.
  intros He Hr. unfold merged_recommendations. simpl.
  rewrite He, Hr. reflexivity.
Qed.

(** C8.  For every map of expert results (dicts, the recommendations of an
    error-free one being a list), the recommendations list of the synthesis
    is the concatenation of the recommendations lists of the error-free
    results in iteration order, duplicates preserved: when two error-free
    results both contain a recommendation [s], the list of the synthesis
    contains [s] twice. *)
Theorem synthesis_concatenates_recommendations
        (request_data : Request) (expert_results : dict)
        (Hshape : Forall expert_result_shape (values expert_results)) :
  dict_get (PrincipalAgent._synthesize_results request_data expert_results)
    "recommendations"
  = Some (VList (merged_recommendations expert_results))
  /\ (forall before name1 d1 l1 between name2 d2 l2 after s,
         expert_results
         = (before ++ (name1, VDict d1) :: between
              ++ (name2, VDict d2) :: after)%list ->
         dict_has d1 "error" = false ->
         dict_get d1 "recommendations" = Some (VList l1) ->
         dict_has d2 "error" = false ->
         dict_get d2 "recommendations" = Some (VList l2) ->
         In s l1 -> In s l2 ->
         exists a b c,
           dict_get
             (PrincipalAgent._synthesize_results request_data expert_results)
             "recommendations"
           = Some (VList (a ++ s :: b ++ s :: c)%list)).
Proof.
  destruct (@synthesis_recommendations request_data expert_results Hshape)
    as [Hrec _].
  split; [exact Hrec|].
  intros before name1 d1 l1 between name2 d2 l2 after s
         Heq He1 Hr1 He2 Hr2 Hin1 Hin2.
  rewrite Hrec, Heq.
  rewrite merged_recommendations_app,
    (@merged_recommendations_cons name1 d1 l1 _ He1 Hr1),
    merged_recommendations_app,
    (@merged_recommendations_cons name2 d2 l2 _ He2 Hr2).
  destruct (in_split _ _ Hin1) as (a1 & b1 & ->).
  destruct (in_split _ _ Hin2) as (a2 & b2 & ->).
  exists (merged_recommendations before ++ a1)%list,
         (b1 ++ merged_recommendations between ++ a2)%list,
         (b2 ++ merged_recommendations after)%list.
  repeat (rewrite <- app_assoc; simpl). reflexivity.
Qed.

(** Two error-free expert results that give the same advice. *)
Definition duplicate_advice : dict :=
  [ ("utility",
      VDict [ ("analysis_type", VStr "utility_management");
              ("recommendations",
                VList [VStr "Switch to energy-efficient appliances"]) ]);
    ("vehicle",
      VDict [ ("analysis_type", VStr "vehicle_management");
              ("recommendations",
                VList [VStr "Switch to energy-efficient appliances"]) ]) ].

Lemma synthesis_concatenates_recommendations_witness :
  dict_get (PrincipalAgent._synthesize_results general_request duplicate_advice)
    "recommendations"
  = Some (VList [ VStr "Switch to energy-efficient appliances";
                  VStr "Switch to energy-efficient appliances" ]).
Proof.
  assert (Hshape : Forall expert_result_shape (values duplicate_advice)).
  { repeat constructor; eexists; (split; [reflexivity|]); simpl;
      intros _ v H; injection H as <-; eexists; reflexivity. }
  exact (proj1 (@synthesis_concatenates_recommendations general_request
                  duplicate_advice Hshape)).
Defined.

(** ** What the generators emit *)

Lemma keys_if (b : bool) (items : list (string * string)) (d : dict) :
  keys (if b then append_all d items else d) = keys d.
Proof. destruct b; [apply keys_append_all | reflexivity]. Qed.

Lemma financial_analysis_keys (description : string) (metadata : option dict) :
  keys (FinancialHealthExpert._generate_financial_analysis description metadata)
  = ["analysis_type"; "financial_health_score"; "key_issues";
     "budget_optimization"; "investment_recommendations"; "debt_management";
     "risk_assessment"; "implementation_timeline"; "expected_outcomes";
     "priority_actions"; "estimated_savings"; "risk_level"].
Proof.
  unfold FinancialHealthExpert._generate_financial_analysis. cbv zeta.
  rewrite !keys_if. reflexivity.
Qed.

Lemma utility_analysis_keys (description : string) (metadata : option dict) :
  keys (UtilityManagementExpert._generate_utility_analysis description metadata)
  = ["analysis_type"; "key_issues"; "optimization_opportunities";
     "cost_savings_recommendations"; "implementation_steps";
     "expected_benefits"; "risk_considerations"; "technology_recommendations";
     "priority_level"; "estimated_savings"; "implementation_timeline"].
Proof.
  unfold UtilityManagementExpert._generate_utility_analysis. cbv zeta.
  rewrite !keys_if. reflexivity.
Qed.

Lemma vehicle_analysis_keys (description : string) (metadata : option dict) :
  keys (VehicleManagementExpert._generate_vehicle_analysis description metadata)
  = ["analysis_type"; "vehicle_health_score"; "key_issues";
     "maintenance_recommendations"; "cost_optimization";
     "safety_improvements"; "efficiency_enhancements";
     "implementation_timeline"; "expected_benefits"; "priority_actions";
     "estimated_savings"; "risk_level"].
Proof.
  unfold VehicleManagementExpert._generate_vehicle_analysis. cbv zeta.
  rewrite !keys_if. reflexivity.
Qed.

(** The fields the synthesizer merges. *)
Definition no_merge_fields (d : dict) : Prop :=
  dict_has d "recommendations" = false
  /\ dict_has d "insights" = false
  /\ dict_has d "metrics" = false.

Lemma expert_process_keys (self : ExpertAgent) (rq : Request) (k : string) :
  existsb (String.eqb k)
    ["analysis_type"; "financial_health_score"; "vehicle_health_score";
     "key_issues"; "budget_optimization"; "investment_recommendations";
     "debt_management"; "risk_assessment"; "implementation_timeline";
     "expected_outcomes"; "priority_actions"; "estimated_savings";
     "risk_level"; "optimization_opportunities";
     "cost_savings_recommendations"; "implementation_steps";
     "expected_benefits"; "risk_considerations";
     "technology_recommendations"; "priority_level";
     "maintenance_recommendations"; "cost_optimization";
     "safety_improvements"; "efficiency_enhancements"] = false ->
  dict_has (BaseExpertAgent._expert_process self rq) k = false.
Proof.
  intros H. apply dict_has_keys.
  unfold BaseExpertAgent._expert_process,
    FinancialHealthExpert._expert_process,
    UtilityManagementExpert._expert_process,
    VehicleManagementExpert._expert_process.
  destruct (expert_kind self);
    [rewrite financial_analysis_keys
    | rewrite utility_analysis_keys
    | rewrite vehicle_analysis_keys];
    simpl in *;
    repeat match goal with
           | H : _ || _ = false |- _ =>
               apply orb_false_iff in H; destruct H
           end;
    repeat match goal with
           | H : ?x = false |- context [?x] => rewrite H
           end;
    reflexivity.
Qed.

(** The entry the delegation loop records for one expert. *)
Definition entry_for (py : Builtins) (clock : Clock) (request_data : Request)
           (expert_name : string) (expert_agent : ExpertAgent) : value :=
  match snd (BaseExpertAgent.process py expert_agent
               (expert_processing_time clock expert_name)
               (expert_utcnow clock expert_name) request_data) with
  | Ok expert_result => VDict expert_result
  | Raise e => PrincipalAgent.failed_entry expert_name e
  end.

(** An entry produced by one of the three experts: the dict its [process]
    returned, or the failed entry recorded for the exception it raised. *)
Definition produced_by_expert (py : Builtins) (entry : value) : Prop :=
  exists clock request_data expert_name expert_agent,
    entry = entry_for py clock request_data expert_name expert_agent.

Definition inert_entry (entry : value) : Prop :=
  exists d, entry = VDict d
            /\ (dict_has d "error" = true
                \/ (dict_has d "error" = false /\ no_merge_fields d)).

Lemma produced_entry_inert (py : Builtins) (entry : value) :
  produced_by_expert py entry -> inert_entry entry.
Proof.
  intros (clock & rq & expert_name & self & ->). unfold entry_for.
  destruct (expert_process_outcome py self
              (expert_processing_time clock expert_name)
              (expert_utcnow clock expert_name) rq)
    as [[_ ->]|[_ (report & _ & ->)]].
  - eexists. split; [reflexivity|]. left. reflexivity.
  - eexists. split; [reflexivity|]. right.
    unfold no_merge_fields, timed_result.
    rewrite !dict_has_set.
    rewrite !(expert_process_keys self rq) by reflexivity.
    repeat split; reflexivity.
Qed.

Lemma merge_results_inert (items : dict) :
  Forall inert_entry (values items) ->
  forall insights recommendations metrics,
    PrincipalAgent.merge_results items insights recommendations metrics
    = Ok (insights, recommendations, metrics).
Proof.
  induction items as [|[expert_name result] items IH]; intros H i r m.
  - reflexivity.
  - simpl in H. apply Forall_cons_iff in H.
    destruct H as [(d & -> & Hd) H]. specialize (IH H).
    cbn [PrincipalAgent.merge_results py_in bind].
    destruct Hd as [->|[-> (Hr & Hi & Hm)]].
    + apply IH.
    + rewrite Hi, Hr, Hm. cbn [bind]. apply IH.
Qed.

Lemma synthesis_of_inert (rq : Request) (expert_results : dict) :
  Forall inert_entry (values expert_results) ->
  dict_get (PrincipalAgent._synthesize_results rq expert_results)
    "recommendations" = Some (VList [])
  /\ dict_get (PrincipalAgent._synthesize_results rq expert_results)
       "insights" = Some (VDict [])
  /\ dict_get (PrincipalAgent._synthesize_results rq expert_results)
       "metrics" = Some (VDict []).
Proof.
  intros H.
  unfold PrincipalAgent._synthesize_results, PrincipalAgent.synthesis_of.
  rewrite (@merge_results_inert expert_results H [] [] []).
  assert (Hdicts : Forall (fun r => exists d, r = VDict d)
                          (values expert_results)).
  { eapply Forall_impl; [|exact H]. intros r (d & -> & _).
    exists d. reflexivity. }
  destruct (@select_by_error_dicts false _ Hdicts) as [successful ->].
  destruct (@select_by_error_dicts true _ Hdicts) as [failed ->].
  cbn [bind]. repeat split; reflexivity.
Qed.

Lemma Forall_values_dict_set (P : value -> Prop) (d : dict) (k : string)
      (v : value) :
  Forall P (values d) -> P v -> Forall P (values (dict_set d k v)).
Proof.
  intros Hd Hv. induction d as [|[k0 v0] d IH]; simpl.
  - constructor; [exact Hv | constructor].
  - simpl in Hd. apply Forall_cons_iff in Hd. destruct Hd as [H0 Hd].
    destruct (String.eqb k0 k); simpl.
    + constructor; assumption.
    + constructor; [exact H0 | apply IH, Hd].
Qed.

Lemma delegate_step (py : Builtins) (clock : Clock) (rq : Request)
      (expert_name : string) (expert_agent : ExpertAgent)
      (rest : list (string * ExpertAgent))
      (agents : list (string * ExpertAgent)) (expert_results : dict) :
  snd (PrincipalAgent.delegate py clock ((expert_name, expert_agent) :: rest)
         rq agents expert_results)
  = snd (PrincipalAgent.delegate py clock rest rq
           (dict_set agents expert_name
              (fst (BaseExpertAgent.process py expert_agent
                      (expert_processing_time clock expert_name)
                      (expert_utcnow clock expert_name) rq)))
           (dict_set expert_results expert_name
              (entry_for py clock rq expert_name expert_agent))).
Proof.
  cbn [PrincipalAgent.delegate]. unfold entry_for.
  destruct (BaseExpertAgent.process py expert_agent
              (expert_processing_time clock expert_name)
              (expert_utcnow clock expert_name) rq) as [agent' [r|e]];
    reflexivity.
Qed.

Lemma delegate_entries (py : Builtins) (clock : Clock) (rq : Request)
      (required : list (string * ExpertAgent)) :
  forall agents expert_results,
    Forall (produced_by_expert py) (values expert_results) ->
    Forall (produced_by_expert py)
           (values (snd (PrincipalAgent.delegate py clock required rq agents
                           expert_results))).
Proof.
  induction required as [|[expert_name expert_agent] rest IH];
    intros agents expert_results H.
  - exact H.
  - rewrite delegate_step. apply IH. apply Forall_values_dict_set; [exact H|].
    exists clock, rq, expert_name, expert_agent. reflexivity.
Qed.

(** C10.  For every description and metadata, the analysis dict of each of
    the three generators has no top-level key named "recommendations",
    "insights" or "metrics"; consequently, for every map of expert results
    whose entries were all produced by these experts (as the delegation loop
    of the orchestrator builds them), the synthesis has an empty
    recommendations list, an empty insights map and an empty metrics map. *)
Theorem generated_analyses_have_no_merge_fields (py : Builtins) :
  (forall description metadata,
      no_merge_fields
        (FinancialHealthExpert._generate_financial_analysis description metadata)
      /\ no_merge_fields
           (UtilityManagementExpert._generate_utility_analysis description
              metadata)
      /\ no_merge_fields
           (VehicleManagementExpert._generate_vehicle_analysis description
              metadata))
  /\ (forall (request_data : Request) (expert_results : dict),
         Forall (produced_by_expert py) (values expert_results) ->
         dict_get (PrincipalAgent._synthesize_results request_data expert_results)
           "recommendations" = Some (VList [])
         /\ dict_get
              (PrincipalAgent._synthesize_results request_data expert_results)
              "insights" = Some (VDict [])
         /\ dict_get
              (PrincipalAgent._synthesize_results request_data expert_results)
              "metrics" = Some (VDict []))
  /\ (forall clock required request_data agents,
         Forall (produced_by_expert py)
           (values (snd (PrincipalAgent.delegate py clock required request_data
                           agents [])))).
Proof.
  split; [|split].
  - intros description metadata. unfold no_merge_fields.
    repeat split; apply dict_has_keys;
      rewrite ?financial_analysis_keys, ?utility_analysis_keys,
        ?vehicle_analysis_keys; reflexivity.
  - intros rq expert_results H. apply synthesis_of_inert.
    eapply Forall_impl; [|exact H]. intros entry. apply produced_entry_inert.
  - intros clock required rq agents. apply delegate_entries. constructor.
Qed.

(** ** The delegation loop *)

Lemma dict_set_fresh {V : Type} (d : list (string * V)) (k : string) (v : V) :
  ~ In k (keys d) -> dict_set d k v = (d ++ [(k, v)])%list.
Proof.
  induction d as [|[k0 v0] d IH]; simpl; intros H; [reflexivity|].
  destruct (String.eqb k0 k) eqn:E.
  - apply String.eqb_eq in E. exfalso. apply H. left. exact E.
  - rewrite IH; [reflexivity|]. intros Hin. apply H. right. exact Hin.
Qed.

Lemma in_keys_dict_set {V : Type} (d : list (string * V)) (k x : string) (v : V) :
  In x (keys (dict_set d k v)) -> x = k \/ In x (keys d).
Proof.
  induction d as [|[k0 v0] d IH]; simpl.
  - intros [H|[]]. left. symmetry. exact H.
  - destruct (String.eqb k0 k); simpl.
    + tauto.
    + intros [H|H]; [tauto|]. destruct (IH H); tauto.
Qed.

Lemma NoDup_keys_dict_set {V : Type} (d : list (string * V)) (k : string) (v : V) :
  NoDup (keys d) -> NoDup (keys (dict_set d k v)).
Proof.
  induction d as [|[k0 v0] d IH]; simpl; intros H.
  - constructor; [intros [] | constructor].
  - inversion H as [|? ? Hnotin Hrest]; subst.
    destruct (String.eqb k0 k) eqn:E; simpl.
    + constructor; assumption.
    + constructor; [|apply IH, Hrest].
      intros Hin. apply in_keys_dict_set in Hin. destruct Hin as [->|Hin].
      * rewrite String.eqb_refl in E. discriminate E.
      * apply Hnotin, Hin.
Qed.

Lemma dict_get_In {V : Type} (d : list (string * V)) (k : string) (v : V) :
  NoDup (keys d) -> In (k, v) d -> dict_get d k = Some v.
Proof.
  induction d as [|[k0 v0] d IH]; simpl; intros Hnd Hin; [destruct Hin|].
  inversion Hnd as [|? ? Hnotin Hrest]; subst.
  destruct Hin as [Heq|Hin].
  - injection Heq as -> ->. rewrite String.eqb_refl. reflexivity.
  - destruct (String.eqb k0 k) eqn:E.
    + apply String.eqb_eq in E. subst k0. exfalso. apply Hnotin.
      change k with (fst (k, v)). apply in_map, Hin.
    + apply IH; assumption.
Qed.

(** The entries of one delegation round, in iteration order. *)
Definition entries_for (py : Builtins) (clock : Clock) (request_data : Request)
           (required : list (string * ExpertAgent)) : dict :=
  map (fun na => (fst na, entry_for py clock request_data (fst na) (snd na)))
      required.

Lemma keys_entries_for (py : Builtins) (clock : Clock) (rq : Request)
      (required : list (string * ExpertAgent)) :
  keys (entries_for py clock rq required) = keys required.
Proof.
  unfold keys, entries_for. rewrite map_map. reflexivity.
Qed.

Lemma delegate_results (py : Builtins) (clock : Clock) (rq : Request)
      (required : list (string * ExpertAgent)) :
  forall agents expert_results,
    NoDup (keys expert_results ++ keys required) ->
    snd (PrincipalAgent.delegate py clock required rq agents expert_results)
    = (expert_results ++ entries_for py clock rq required)%list.
Proof.
  induction required as [|[expert_name expert_agent] rest IH];
    intros agents expert_results Hnd.
  - simpl. rewrite app_nil_r. reflexivity.
  - rewrite delegate_step.
    assert (Hfresh : ~ In expert_name (keys expert_results)).
    { intros Hin. simpl in Hnd. apply NoDup_remove_2 in Hnd.
      apply Hnd. apply in_or_app. left. exact Hin. }
    rewrite (@dict_set_fresh _ expert_results expert_name _ Hfresh).
    rewrite IH.
    + rewrite <- app_assoc. reflexivity.
    + unfold keys in *. rewrite map_app. simpl.
      rewrite <- app_assoc. simpl. exact Hnd.
Qed.

Lemma required_experts_NoDup (self : PrincipalAgent) (rq : Request) :
  NoDup (keys (expert_agents self)) ->
  NoDup (keys (PrincipalAgent._determine_required_experts self rq)).
Proof.
  intros Hnd. unfold PrincipalAgent._determine_required_experts.
  destruct (expert_agents self) as [|a agents] eqn:E; [constructor|].
  rewrite <- E in *.
  match goal with
  | |- NoDup (keys (match ?x with [] => _ | _ :: _ => ?x end)) =>
      assert (H : NoDup (keys x)); [|destruct x; [exact Hnd | exact H]]
  end.
  repeat match goal with
         | |- NoDup (keys (if ?c then _ else _)) => destruct c
         | |- NoDup (keys (match ?o with Some _ => _ | None => _ end)) =>
             destruct o
         | |- NoDup (keys (dict_set _ _ _)) => apply NoDup_keys_dict_set
         end;
    constructor.
Qed.

(** ** One processing cycle *)

Definition final_response_keys : list string :=
  ["request_id"; "request_type"; "status"; "processing_time";
   "principal_agent"; "expert_results"; "synthesis"; "quality_report";
   "approved_for_publication"; "timestamp"].

Definition not_initialized : exn :=
  RuntimeError "Principal agent is not initialized".

(** The outcome of [process] on an initialized orchestrator. *)
Lemma process_outcome (py : Builtins) (clock : Clock) (self : PrincipalAgent)
      (rq : Request) :
  is_initialized self = true ->
  exists final_response,
    snd (PrincipalAgent.process py clock self rq) = Ok final_response
    /\ keys final_response = final_response_keys
    /\ dict_get final_response "status" = Some (VStr "completed")
    /\ dict_get final_response "expert_results"
       = Some (VDict (snd (PrincipalAgent.delegate py clock
                             (PrincipalAgent._determine_required_experts self rq)
                             rq (expert_agents self) [])))
    /\ dict_get final_response "synthesis"
       = Some (VDict (PrincipalAgent._synthesize_results rq
                        (snd (PrincipalAgent.delegate py clock
                                (PrincipalAgent._determine_required_experts
                                   self rq)
                                rq (expert_agents self) []))))
    /\ dict_get final_response "approved_for_publication" = Some (VBool false)
    /\ publication_queue (fst (PrincipalAgent.process py clock self rq))
       = publication_queue self.
Proof.
  intros Hinit. unfold PrincipalAgent.process, PrincipalAgent.conclude.
  rewrite Hinit.
  cbn [negb]. cbv iota.
  destruct (PrincipalAgent.delegate py clock
              (PrincipalAgent._determine_required_experts self rq) rq
              (expert_agents self) []) as [agents expert_results].
  cbn [snd].
  destruct (synthesis_is_bare rq expert_results) as [H1 H2].
  destruct (principal_evaluation_bare py (principal_utcnow clock) _ rq H1 H2)
    as (report & -> & _ & _ & _ & Happroved).
  cbv zeta. rewrite Happroved. cbn [snd fst publication_queue].
  eexists. split; [reflexivity|]. repeat split.
Qed.

(** C6.  For every request handled by an initialized orchestrator, and every
    selected expert whose [process] raises, the orchestrator records for that
    expert the entry made of the error message, the expert's name and the
    status "failed"; every selected expert, failed or not, has its entry in
    [expert_results]; and the cycle still goes on to a synthesis of those
    entries and returns a completed final response. *)
Theorem expert_failures_are_contained
        (py : Builtins) (clock : Clock) (self : PrincipalAgent)
        (request_data : Request)
        (Hinit : is_initialized self = true)
        (Hregistry : NoDup (keys (expert_agents self))) :
  exists final_response expert_results,
    snd (PrincipalAgent.process py clock self request_data) = Ok final_response
    /\ dict_get final_response "status" = Some (VStr "completed")
    /\ dict_get final_response "expert_results" = Some (VDict expert_results)
    /\ dict_get final_response "synthesis"
       = Some (VDict (PrincipalAgent._synthesize_results request_data
                        expert_results))
    /\ keys expert_results
       = keys (PrincipalAgent._determine_required_experts self request_data)
    /\ (forall expert_name expert_agent,
           In (expert_name, expert_agent)
              (PrincipalAgent._determine_required_experts self request_data) ->
           match snd (BaseExpertAgent.process py expert_agent
                        (expert_processing_time clock expert_name)
                        (expert_utcnow clock expert_name) request_data) with
           | Raise e =>
               dict_get expert_results expert_name
               = Some (VDict [ ("error", VStr (str_exn e));
                               ("expert_agent", VStr expert_name);
                               ("status", VStr "failed") ])
           | Ok expert_result =>
               dict_get expert_results expert_name
               = Some (VDict expert_result)
           end).
Proof.
  destruct (process_outcome py clock self request_data Hinit)
    as (final_response & Hp & _ & Hstatus & Hresults & Hsynthesis & _).
  assert (Hnd : NoDup (keys (PrincipalAgent._determine_required_experts
                               self request_data)))
    by (apply required_experts_NoDup, Hregistry).
  rewrite delegate_results in Hresults, Hsynthesis by exact Hnd.
  cbn [app] in Hresults, Hsynthesis.
  exists final_response,
    (entries_for py clock request_data
       (PrincipalAgent._determine_required_experts self request_data)).
  split; [exact Hp|]. split; [exact Hstatus|]. split; [exact Hresults|].
  split; [exact Hsynthesis|]. split; [apply keys_entries_for|].
  intros expert_name expert_agent Hin.
  assert (Hentry : dict_get
                     (entries_for py clock request_data
                        (PrincipalAgent._determine_required_experts self
                           request_data)) expert_name
                   = Some (entry_for py clock request_data expert_name
                             expert_agent)).
  { apply dict_get_In.
    - rewrite keys_entries_for. exact Hnd.
    - unfold entries_for.
      change (expert_name,
              entry_for py clock request_data expert_name expert_agent)
        with ((fun na : string * ExpertAgent =>
                 (fst na, entry_for py clock request_data (fst na) (snd na)))
                (expert_name, expert_agent)).
      apply in_map, Hin. }
  rewrite Hentry. unfold entry_for.
  destruct (snd (BaseExpertAgent.process py expert_agent
                   (expert_processing_time clock expert_name)
                   (expert_utcnow clock expert_name) request_data));
    reflexivity.
Qed.

Definition clock0 : Clock := mkClock (fun _ => 1) (fun _ => 0) 2 0 0 0.

(** A request whose type selects the financial expert by keyword but fails
    that expert's own guard. *)
Definition budget_type_request : Request :=
  mkRequest (Some "r-3") (Some "u-1") (Some "budget")
    (Some "Review my spending") (Some "medium") (Some []).

Lemma expert_failures_are_contained_witness :
  exists final_response,
    snd (PrincipalAgent.process py0 clock0 standard_principal
           budget_type_request) = Ok final_response
    /\ dict_get final_response "status" = Some (VStr "completed")
    /\ dict_get final_response "expert_results"
       = Some (VDict
                 [ ("financial",
                     VDict [ ("error",
                               VStr "Request type budget not suitable for financial_health expert");
                             ("expert_agent", VStr "financial");
                             ("status", VStr "failed") ]) ]).
Proof.
  assert (Hinit : is_initialized standard_principal = true) by reflexivity.
  assert (Hregistry : NoDup (keys (expert_agents standard_principal))).
  { repeat constructor; simpl; intuition discriminate. }
  destruct (expert_failures_are_contained py0 clock0 standard_principal
              budget_type_request Hinit Hregistry)
    as (final_response & expert_results & Hp & Hstatus & Hresults & _).
  exists final_response. split; [exact Hp|]. split; [exact Hstatus|].
  assert (Hrun : exists r,
             snd (PrincipalAgent.process py0 clock0 standard_principal
                    budget_type_request) = Ok r
             /\ dict_get r "expert_results"
                = Some (VDict
                          [ ("financial",
                              VDict [ ("error",
                                        VStr "Request type budget not suitable for financial_health expert");
                                      ("expert_agent", VStr "financial");
                                      ("status", VStr "failed") ]) ]))
    by (eexists; split; vm_compute; reflexivity).
  destruct Hrun as (r & Hr & Hr').
  rewrite Hp in Hr. injection Hr as <-. exact Hr'.
Defined.

(** ** Publication *)

(** Publication itself passes a sink failure on, and always fails on the
    repository's [FileStreamer], which has no [stream_data]. *)
Lemma publish_results_outcome (self : PrincipalAgent) (final_result : dict) :
  (forall stream e,
      stream_data (file_streamer self) = Some stream ->
      stream final_result = Raise e ->
      PrincipalAgent._publish_results self final_result = Raise e)
  /\ (file_streamer self = FileStreamer ->
      PrincipalAgent._publish_results self final_result
      = Raise (AttributeError
                 "'FileStreamer' object has no attribute 'stream_data'")).
Proof.
  unfold PrincipalAgent._publish_results. split.
  - intros stream e -> H. exact H.
  - intros ->. reflexivity.
Qed.

(** The orchestrator's evaluation of a synthesis never approves: every
    synthesis scores 0.58, below the 0.70 bar, so [process] does not reach
    the publication step. *)
Lemma synthesis_never_approved (py : Builtins) (utcnow : Q) (rq : Request)
      (expert_results : dict) :
  exists report,
    BaseAgent.evaluate_quality (PrincipalAgent.class py) utcnow
      (PrincipalAgent._synthesize_results rq expert_results) rq = Ok report
    /\ overall_score report == 0.58
    /\ approved_for_publication report = false.
Proof.
  destruct (synthesis_is_bare rq expert_results) as [H1 H2].
  destruct (principal_evaluation_bare py utcnow _ rq H1 H2)
    as (report & H & _ & Hs & _ & Ha).
  exists report. auto.
Qed.










(** * Further properties of the evaluation pipeline *)

(** ** Quality levels *)

(** The place of a quality level in the five-tier ordering, for the enum
    members of the experts and for the labels of the orchestrator. *)
Definition level_rank (level : value) : nat :=
  match level with
  | VQualityScore EXCELLENT => 4
  | VQualityScore GOOD => 3
  | VQualityScore SATISFACTORY => 2
  | VQualityScore NEEDS_IMPROVEMENT => 1
  | VQualityScore POOR => 0
  | VStr s =>
      if String.eqb s "EXCELLENT" then 4
      else if String.eqb s "VERY_GOOD" then 3
      else if String.eqb s "GOOD" then 2
      else if String.eqb s "ACCEPTABLE" then 1
      else 0
  | _ => 0
  end%nat.

Ltac split_bands :=
  repeat match goal with
         | |- context [Qle_bool ?a ?b] =>
             let E := fresh "E" in
             destruct (Qle_bool a b) eqn:E;
             [apply Qle_bool_iff in E | apply Qle_bool_false in E]
         | H : context [Qle_bool ?a ?b] |- _ =>
             let E := fresh "E" in
             destruct (Qle_bool a b) eqn:E;
             [apply Qle_bool_iff in E | apply Qle_bool_false in E]
         end.

(** X1.  Banding is monotone for both label sets, and the two label sets cut
    the score line at the same points. *)
Theorem quality_level_monotone (s1 s2 : Q) (Hle : s1 <= s2) :
  (level_rank (QualityCheckInterface.determine_quality_level s1)
   <= level_rank (QualityCheckInterface.determine_quality_level s2))%nat
  /\ (level_rank (PrincipalAgent.determine_quality_level s1)
      <= level_rank (PrincipalAgent.determine_quality_level s2))%nat
  /\ level_rank (PrincipalAgent.determine_quality_level s1)
     = level_rank (QualityCheckInterface.determine_quality_level s1).
Proof.
  unfold QualityCheckInterface.determine_quality_level,
    PrincipalAgent.determine_quality_level.
  split_bands; simpl; repeat split; try lia; exfalso; lra.
Qed.

Lemma quality_level_monotone_witness :
  (level_rank (QualityCheckInterface.determine_quality_level 0.58)
   <= level_rank (QualityCheckInterface.determine_quality_level 0.91))%nat
  /\ (level_rank (PrincipalAgent.determine_quality_level 0.58)
      <= level_rank (PrincipalAgent.determine_quality_level 0.91))%nat
  /\ level_rank (PrincipalAgent.determine_quality_level 0.58)
     = level_rank (QualityCheckInterface.determine_quality_level 0.58).
Proof.
  apply quality_level_monotone. unfold Qle. simpl. lia.
Defined.

(** The remaining fields of a returned report. *)
Lemma evaluate_quality_Ok_fields (self : AgentClass) (utcnow : Q) (d : dict)
      (rq : Request) (report : QualityReport) :
  BaseAgent.evaluate_quality self utcnow d rq = Ok report ->
  quality_level report = v_determine_quality_level self (overall_score report)
  /\ v_generate_summary self (metrics report) (overall_score report)
     = Ok (summary report)
  /\ total_issues report = count_issues (metrics report)
  /\ total_recommendations report = count_recommendations (metrics report)
  /\ agent_name report = v_name self
  /\ report_request_id report = get_str (request_id rq) "unknown".
Proof.
  unfold BaseAgent.evaluate_quality. intros H.
  apply bind_Ok_inv in H. destruct H as (ms & Hms & H).
  apply bind_Ok_inv in H. destruct H as (text & Htext & H).
  injection H as <-. simpl. repeat split. exact Htext.
Qed.

(** X2.  For every report of the orchestrator, approval, the quality label
    and the summary text agree: the report is approved exactly when its
    label is GOOD or better, and exactly then the summary is one of the two
    texts that announce publishable quality. *)
Theorem orchestrator_verdict_matches_label
        (py : Builtins) (utcnow : Q) (agent_result : dict)
        (original_request : Request) (report : QualityReport)
        (Hreport : BaseAgent.evaluate_quality (PrincipalAgent.class py) utcnow
                     agent_result original_request = Ok report) :
  (approved_for_publication report = true
   <-> (2 <= level_rank (quality_level report))%nat)
  /\ (approved_for_publication report = true
      <-> summary report
          = "High-quality synthesis with comprehensive expert analysis"
          \/ summary report
             = "Good quality synthesis meeting publication standards")
  /\ (approved_for_publication report = passed_threshold report).
Proof.
  destruct (evaluate_quality_Ok_inv _ _ _ _ Hreport) as (_ & _ & Hp & Ha).
  destruct (evaluate_quality_Ok_fields _ _ _ _ Hreport) as (Hl & Hs & _).
  rewrite Ha, Hp, Hl. simpl v_get_quality_threshold.
  simpl v_determine_quality_level. simpl v_generate_summary in Hs.
  unfold PrincipalAgent.get_quality_threshold,
    PrincipalAgent.determine_quality_level.
  unfold PrincipalAgent.generate_summary in Hs.
  split_bands; try (exfalso; lra);
    injection Hs as Hs; rewrite <- Hs; simpl;
    repeat split; intros; try lia; try discriminate; auto;
    repeat match goal with
           | H : _ \/ _ |- _ => destruct H
           end; try discriminate.
Qed.

(** An approving run of the orchestrator's rules: the envelope they were
    written for, with one successful expert and a full synthesis. *)
Definition good_envelope : dict :=
  [ ("expert_results",
      VDict [("utility", VDict [("analysis_type", VStr "utility_management")])]);
    ("synthesis",
      VDict [ ("summary",
                VStr "Analysis of the general request completed by 1 expert agents");
              ("insights", VDict [("utility", VStr "usage is high")]);
              ("recommendations",
                VList [VStr "Switch to energy-efficient appliances"]) ]) ].

Lemma orchestrator_verdict_matches_label_witness :
  exists report,
    BaseAgent.evaluate_quality (PrincipalAgent.class py0) 0 good_envelope
      general_request = Ok report
    /\ approved_for_publication report = true
    /\ (approved_for_publication report = true
        <-> (2 <= level_rank (quality_level report))%nat).
Proof.
  assert (H : exists report,
             BaseAgent.evaluate_quality (PrincipalAgent.class py0) 0
               good_envelope general_request = Ok report
             /\ approved_for_publication report = true)
    by (eexists; split; vm_compute; reflexivity).
  destruct H as (report & Hreport & Happroved).
  exists report. split; [exact Hreport|]. split; [exact Happroved|].
  exact (proj1 (orchestrator_verdict_matches_label _ _ _ _ Hreport)).
Defined.

(** ** Scores stay in the unit interval *)

Lemma max0_range (x : Q) : x <= 1 -> 0 <= max0 x /\ max0 x <= 1.
Proof.
  intros H. unfold max0.
  destruct (Qle_bool x 0) eqn:E.
  - split; [apply Qle_refl | unfold Qle; simpl; lia].
  - apply Qle_bool_false in E. split; [apply Qlt_le_weak, E | exact H].
Qed.

Lemma inject_nat_nonneg (n : nat) : 0 <= inject_Z (Z.of_nat n).
Proof. unfold Qle. simpl. lia. Qed.

Lemma deduct_missing_le (synthesis : value) (fields : list string) :
  forall s s', PrincipalAgent.deduct_missing synthesis fields s = Ok s' ->
               s' <= s.
Proof.
  induction fields as [|field fields IH]; intros s s' H; simpl in H.
  - injection H as <-. apply Qle_refl.
  - apply bind_Ok_inv in H. destruct H as (missing & _ & H).
    apply IH in H. destruct missing; lra.
Qed.

Ltac literal_range :=
  unfold metric_in_range; cbn [score weight];
  repeat split; unfold Qle; simpl; lia.

Lemma timeliness_range (py : Builtins) (d : dict) (rq : Request)
      (m : QualityMetric) :
  QualityCheckInterface.assess_timeliness py d rq = Ok m ->
  metric_in_range m /\ weight m = 0.1.
Proof.
  unfold QualityCheckInterface.assess_timeliness. intros H.
  apply bind_Ok_inv in H. destruct H as (t & _ & H). cbv beta zeta in H.
  invert_rules; (split; [literal_range | reflexivity]).
Qed.

Ltac unfold_rules H :=
  cbv delta
    [FinancialHealthExpert.assess_accuracy
     FinancialHealthExpert.assess_completeness
     FinancialHealthExpert.assess_relevance
     FinancialHealthExpert.assess_consistency
     FinancialHealthExpert.assess_clarity
     FinancialHealthExpert.assess_actionability
     UtilityManagementExpert.assess_accuracy
     UtilityManagementExpert.assess_completeness
     UtilityManagementExpert.assess_relevance
     UtilityManagementExpert.assess_consistency
     UtilityManagementExpert.assess_clarity
     UtilityManagementExpert.assess_actionability
     VehicleManagementExpert.assess_accuracy
     VehicleManagementExpert.assess_completeness
     VehicleManagementExpert.assess_relevance
     VehicleManagementExpert.assess_consistency
     VehicleManagementExpert.assess_clarity
     VehicleManagementExpert.assess_actionability
     QualityCheckInterface.assess_accuracy
     QualityCheckInterface.assess_completeness
     QualityCheckInterface.assess_relevance
     QualityCheckInterface.assess_consistency
     QualityCheckInterface.assess_clarity
     QualityCheckInterface.assess_actionability
     PrincipalAgent.assess_accuracy
     PrincipalAgent.assess_completeness
     PrincipalAgent.assess_relevance
     PrincipalAgent.assess_consistency
     PrincipalAgent.assess_clarity
     PrincipalAgent.assess_actionability] in H;
  cbv beta zeta in H.

Lemma expert_assess_range (py : Builtins) (self : ExpertAgent)
      (metric : QualityMetric) (d : dict) (rq : Request) (m : QualityMetric) :
  In metric BaseAgent.get_quality_metrics ->
  BaseAgent.assess (BaseExpertAgent.class py self) metric d rq = Ok m ->
  metric_in_range m /\ weight m = weight metric.
Proof.
  unfold BaseAgent.assess, BaseExpertAgent.class. intros Hin.
  simpl in Hin.
  repeat (destruct Hin as [<-|Hin]); try contradiction;
    destruct (expert_kind self); simpl; intros H;
    first
      [ apply timeliness_range in H; exact H
      | unfold_rules H; invert_rules; (split; [literal_range | reflexivity]) ].
Qed.

Lemma base_assess_range (py : Builtins) (name : string)
      (metric : QualityMetric) (d : dict) (rq : Request) (m : QualityMetric) :
  In metric BaseAgent.get_quality_metrics ->
  BaseAgent.assess (BaseAgent.class py name) metric d rq = Ok m ->
  metric_in_range m /\ weight m = weight metric.
Proof.
  unfold BaseAgent.assess. intros Hin. simpl in Hin.
  repeat (destruct Hin as [<-|Hin]); try contradiction; simpl; intros H;
    first
      [ apply timeliness_range in H; exact H
      | unfold_rules H; invert_rules; (split; [literal_range | reflexivity]) ].
Qed.

Ltac principal_range :=
  split; [|reflexivity];
  unfold metric_in_range; cbn [score weight];
  split; [|split; unfold Qle; simpl; lia];
  apply max0_range;
  repeat match goal with
         | |- context [if ?c then _ else _] => destruct c
         | |- context [match ?c with [] => _ | _ :: _ => _ end] => destruct c
         end;
  repeat match goal with
         | |- context [inject_Z (Z.of_nat ?n)] =>
             pose proof (inject_nat_nonneg n);
             generalize dependent (inject_Z (Z.of_nat n)); intros
         end;
  try lra.

Lemma principal_assess_range (py : Builtins) (metric : QualityMetric)
      (d : dict) (rq : Request) (m : QualityMetric) :
  In metric PrincipalAgent.get_quality_metrics ->
  BaseAgent.assess (PrincipalAgent.class py) metric d rq = Ok m ->
  metric_in_range m /\ weight m = weight metric.
Proof.
  unfold BaseAgent.assess. intros Hin. simpl in Hin.
  repeat (destruct Hin as [<-|Hin]); try contradiction; simpl; intros H;
    unfold_rules H.
  - invert_rules; principal_range.
  - apply bind_Ok_inv in H. destruct H as (s & Hs & H).
    injection H as <-. apply deduct_missing_le in Hs. principal_range.
  - invert_rules; principal_range.
  - invert_rules; principal_range.
  - invert_rules; principal_range.
  - invert_rules; principal_range.
Qed.

Lemma assess_each_range (self : AgentClass) (d : dict) (rq : Request)
      (cfg : list QualityMetric) :
  (forall metric m, In metric cfg ->
                    BaseAgent.assess self metric d rq = Ok m ->
                    metric_in_range m /\ weight m = weight metric) ->
  forall ms, BaseAgent.assess_each self cfg d rq = Ok ms ->
             Forall metric_in_range ms /\ map weight ms = map weight cfg.
Proof.
  induction cfg as [|metric cfg IH]; intros Hrule ms H; simpl in H.
  - injection H as <-. split; [constructor | reflexivity].
  - apply bind_Ok_inv in H. destruct H as (m & Hm & H).
    apply bind_Ok_inv in H. destruct H as (rest & Hrest & H).
    injection H as <-.
    destruct (Hrule metric m (or_introl eq_refl) Hm) as [Hr Hw].
    destruct (IH (fun x y Hx => Hrule x y (or_intror Hx)) rest Hrest)
      as [Hrs Hws].
    split; [constructor; assumption|]. simpl. rewrite Hw, Hws. reflexivity.
Qed.

Lemma total_weight_nonneg (ms : list QualityMetric) :
  Forall metric_in_range ms -> 0 <= total_weight ms.
Proof.
  intros H. destruct (weighted_sum_bounds H). lra.
Qed.

Lemma overall_score_in_unit (ms : list QualityMetric) :
  Forall metric_in_range ms ->
  0 <= _calculate_overall_score ms /\ _calculate_overall_score ms <= 1.
Proof.
  intros H. pose proof (total_weight_nonneg H) as Hnn.
  destruct (weighted_sum_bounds H) as [H0 H1].
  unfold _calculate_overall_score. destruct ms as [|m ms].
  - split; unfold Qle; simpl; lia.
  - destruct (Qeq_bool (total_weight (m :: ms)) 0) eqn:E.
    + split; unfold Qle; simpl; lia.
    + assert (HW : 0 < total_weight (m :: ms)).
      { apply Qeq_bool_neq in E. lra. }
      split.
      * apply Qle_shift_div_l; [exact HW | lra].
      * apply Qle_shift_div_r; [exact HW | lra].
Qed.

(** The agent classes of the repository: the three experts, the
    orchestrator, and an agent that overrides no rule. *)
Definition known_class (py : Builtins) (c : AgentClass) : Prop :=
  (exists self, c = BaseExpertAgent.class py self)
  \/ c = PrincipalAgent.class py
  \/ (exists name, c = BaseAgent.class py name).

Lemma known_class_rules (py : Builtins) (c : AgentClass) (d : dict)
      (rq : Request) :
  known_class py c ->
  (forall metric m, In metric (v_get_quality_metrics c) ->
                    BaseAgent.assess c metric d rq = Ok m ->
                    metric_in_range m /\ weight m = weight metric)
  /\ total_weight (v_get_quality_metrics c) == 1.
Proof.
  intros [[self ->]|[->|[name ->]]].
  - split.
    + intros metric m Hin. apply expert_assess_range.
      unfold BaseExpertAgent.class in Hin.
      destruct (expert_kind self); exact Hin.
    + unfold BaseExpertAgent.class.
      destruct (expert_kind self); vm_compute; reflexivity.
  - split; [intros metric m; apply principal_assess_range|].
    vm_compute. reflexivity.
  - split; [intros metric m; apply base_assess_range|].
    vm_compute. reflexivity.
Qed.

(** X3.  Every report of an expert, of the orchestrator or of a plain agent,
    on any input whatever: each metric has its score and weight in [0,1],
    the weights add up to 1, so the overall score is the plain weighted sum,
    and it lies in [0,1]. *)
Theorem report_scores_in_unit_interval
        (py : Builtins) (c : AgentClass) (utcnow : Q) (agent_result : dict)
        (original_request : Request) (report : QualityReport)
        (Hclass : known_class py c)
        (Hreport : BaseAgent.evaluate_quality c utcnow agent_result
                     original_request = Ok report) :
  Forall metric_in_range (metrics report)
  /\ total_weight (metrics report) == 1
  /\ overall_score report == weighted_sum (metrics report)
  /\ 0 <= overall_score report /\ overall_score report <= 1.
Proof.
  destruct (evaluate_quality_Ok_inv _ _ _ _ Hreport) as (Hms & Ho & _).
  destruct (known_class_rules agent_result original_request Hclass)
    as [Hrules Hcfg].
  destruct (@assess_each_range _ _ _ _ Hrules _ Hms) as [Hrange Hweights].
  assert (HW : total_weight (metrics report) == 1).
  { unfold total_weight in *. rewrite Hweights. exact Hcfg. }
  split; [exact Hrange|]. split; [exact HW|]. rewrite Ho. split.
  - rewrite overall_score_nonzero by lra. rewrite HW. field.
  - apply overall_score_in_unit, Hrange.
Qed.

Lemma report_scores_in_unit_interval_witness :
  exists report,
    BaseAgent.evaluate_quality (PrincipalAgent.class py0) 0 good_envelope
      general_request = Ok report
    /\ 0 <= overall_score report /\ overall_score report <= 1.
Proof.
  assert (H : exists report,
             BaseAgent.evaluate_quality (PrincipalAgent.class py0) 0
               good_envelope general_request = Ok report)
    by (eexists; vm_compute; reflexivity).
  destruct H as (report & Hreport).
  exists report. split; [exact Hreport|].
  assert (Hclass : known_class py0 (PrincipalAgent.class py0))
    by (right; left; reflexivity).
  exact (proj2 (proj2 (proj2
           (@report_scores_in_unit_interval py0 _ 0 good_envelope
              general_request report Hclass Hreport)))).
Defined.

(** ** A report without issues *)

(** The score of the best band of each rule of an expert. *)
Definition top_score (d : QualityDimension) : Q :=
  match d with
  | COMPLETENESS => 1.0
  | TIMELINESS => 0.8
  | _ => 0.9
  end.

Lemma timeliness_clean (py : Builtins) (d : dict) (rq : Request)
      (m : QualityMetric) :
  QualityCheckInterface.assess_timeliness py d rq = Ok m ->
  issues m = [] -> 0.8 <= score m.
Proof.
  unfold QualityCheckInterface.assess_timeliness. intros H.
  apply bind_Ok_inv in H. destruct H as (t & _ & H). cbv beta zeta in H.
  destruct (Qgt_bool t 15.0) eqn:G.
  - invert_rules; cbn [issues]; intros; discriminate.
  - assert (G' : t <= 15.0).
    { apply Qnot_lt_le. intros C. apply Qgt_bool_iff in C.
      rewrite C in G. discriminate G. }
    split_bands; try (exfalso; lra);
      injection H as <-; cbn [score]; intros _; unfold Qle; simpl; lia.
Qed.

Lemma expert_assess_clean (py : Builtins) (self : ExpertAgent)
      (metric : QualityMetric) (d : dict) (rq : Request) (m : QualityMetric) :
  BaseAgent.assess (BaseExpertAgent.class py self) metric d rq = Ok m ->
  issues m = [] -> top_score (dimension metric) <= score m.
Proof.
  unfold BaseAgent.assess, BaseExpertAgent.class.
  destruct (expert_kind self); destruct (dimension metric); simpl; intros H;
    first
      [ exact (@timeliness_clean py d rq m H)
      | unfold_rules H; invert_rules; cbn [issues score]; intros Hi;
        first [discriminate Hi | unfold Qle; simpl; lia] ].
Qed.

Lemma expert_metrics_seven (py : Builtins) (self : ExpertAgent) (d : dict)
      (rq : Request) (ms : list QualityMetric) :
  BaseAgent.assess_each (BaseExpertAgent.class py self)
    BaseAgent.get_quality_metrics d rq = Ok ms ->
  exists m1 m2 m3 m4 m5 m6 m7,
    ms = [m1; m2; m3; m4; m5; m6; m7]
    /\ Forall2 (fun metric m =>
                  BaseAgent.assess (BaseExpertAgent.class py self) metric d rq
                  = Ok m)
               BaseAgent.get_quality_metrics ms.
Proof.
  unfold BaseAgent.get_quality_metrics. cbn [BaseAgent.assess_each]. intros H.
  repeat match goal with
         | H : bind _ _ = Ok _ |- _ =>
             let a := fresh "a" in
             let Ha := fresh "Ha" in
             apply bind_Ok_inv in H; destruct H as (a & Ha & H);
             cbv beta in H
         | H : Ok _ = Ok ?x |- _ => injection H as H; subst x
         end.
  do 7 eexists. split; [reflexivity|]. repeat constructor; assumption.
Qed.

Lemma count_issues_cons (m : QualityMetric) (ms : list QualityMetric) :
  count_issues (m :: ms) = (List.length (issues m) + count_issues ms)%nat.
Proof.
  unfold count_issues. simpl.
  generalize (map (fun metric => List.length (issues metric)) ms).
  generalize (List.length (issues m)). intros n l.
  assert (G : forall k a, fold_left Nat.add k a = (a + fold_left Nat.add k 0)%nat).
  { induction k as [|x k IH]; intros a; simpl; [lia|].
    rewrite IH, (IH x). lia. }
  apply G.
Qed.

Lemma count_issues_zero (ms : list QualityMetric) :
  count_issues ms = 0%nat -> Forall (fun m => issues m = []) ms.
Proof.
  induction ms as [|m ms IH]; intros H; [constructor|].
  rewrite count_issues_cons in H. constructor.
  - apply length_zero_iff_nil. lia.
  - apply IH. lia.
Qed.

(** X4.  For every report of an expert, on any input: when no rule raised an
    issue, the overall score is at least 0.91, the report passes the
    expert's threshold, is approved, and is graded excellent.  The summary
    line "Results are ready for publication", which the text prints exactly
    when the issue count is zero, is therefore never printed on a report
    that is withheld. *)
Theorem expert_report_without_issues_is_approved
        (py : Builtins) (self : ExpertAgent) (utcnow : Q) (agent_result : dict)
        (original_request : Request) (report : QualityReport)
        (Hreport : BaseAgent.evaluate_quality (BaseExpertAgent.class py self)
                     utcnow agent_result original_request = Ok report)
        (Hclean : total_issues report = 0%nat) :
  0.91 <= overall_score report
  /\ passed_threshold report = true
  /\ approved_for_publication report = true
  /\ quality_level report = VQualityScore EXCELLENT.
Proof.
  destruct (evaluate_quality_Ok_inv _ _ _ _ Hreport) as (Hms & Ho & Hp & Ha).
  destruct (evaluate_quality_Ok_fields _ _ _ _ Hreport) as (Hl & _ & Hi & _).
  assert (Hcfg : v_get_quality_metrics (BaseExpertAgent.class py self)
                 = BaseAgent.get_quality_metrics)
    by (unfold BaseExpertAgent.class; destruct (expert_kind self); reflexivity).
  rewrite Hcfg in Hms.
  destruct (expert_metrics_seven _ _ _ _ Hms)
    as (m1 & m2 & m3 & m4 & m5 & m6 & m7 & Heq & Hall).
  rewrite Hi, Heq in Hclean. apply count_issues_zero in Hclean.
  assert (Hscore : 0.91 <= overall_score report).
  { rewrite Ho, Heq. rewrite Heq in Hall.
    unfold BaseAgent.get_quality_metrics in Hall.
    repeat match goal with
           | H : Forall2 _ (_ :: _) (_ :: _) |- _ =>
               let H1 := fresh "Hr" in
               let H2 := fresh "Hf" in
               inversion H as [|? ? ? ? H1 H2]; subst; clear H
           | H : Forall (fun m => issues m = []) (_ :: _) |- _ =>
               let H1 := fresh "Hc" in
               let H2 := fresh "Hf" in
               inversion H as [|? ? H1 H2]; subst; clear H
           end.
    repeat match goal with
           | Hr : BaseAgent.assess _ ?metric _ _ = Ok ?m,
             Hc : issues ?m = [] |- _ =>
               let Hw := fresh "Hw" in
               let Ht := fresh "Ht" in
               pose proof (proj2 (@expert_assess_range py self metric
                                    agent_result original_request m
                                    ltac:(simpl; intuition reflexivity)
                                    Hr)) as Hw;
               pose proof (@expert_assess_clean py self metric agent_result
                             original_request m Hr Hc) as Ht;
               cbn [weight dimension top_score] in Hw, Ht;
               clear Hr Hc
           end.
    unfold _calculate_overall_score, total_weight, weighted_sum, sumQ.
    cbn [map fold_left].
    repeat match goal with
           | Hw : weight _ = _ |- _ => rewrite Hw; clear Hw
           end.
    replace (Qeq_bool (0 + 0.3 + 0.2 + 0.2 + 0.1 + 0.1 + 0.05 + 0.05) 0)
      with false by (vm_compute; reflexivity).
    apply Qle_shift_div_l; [unfold Qlt; simpl; lia | lra]. }
  assert (Hpass : passed_threshold report = true).
  { rewrite Hp. apply Qle_bool_iff.
    unfold BaseExpertAgent.class. destruct (expert_kind self); simpl;
      unfold FinancialHealthExpert.get_quality_threshold,
        UtilityManagementExpert.get_quality_threshold,
        VehicleManagementExpert.get_quality_threshold; lra. }
  split; [exact Hscore|]. split; [exact Hpass|]. split.
  - rewrite Ha, Hpass. simpl. apply Qle_bool_iff. lra.
  - rewrite Hl.
    assert (Hlevel : v_determine_quality_level (BaseExpertAgent.class py self)
                     = QualityCheckInterface.determine_quality_level)
      by (unfold BaseExpertAgent.class; destruct (expert_kind self);
          reflexivity).
    rewrite Hlevel. unfold QualityCheckInterface.determine_quality_level.
    replace (Qle_bool 0.9 (overall_score report)) with true;
      [reflexivity|].
    symmetry. apply Qle_bool_iff. lra.
Qed.

(** Built-ins whose [str] always mentions the vocabulary of every domain. *)
Definition py1 : Builtins :=
  mkBuiltins
    (fun _ => "energy water electricity budget investment debt savings maintenance fuel safety cost")
    (fun _ => "").

Definition utility_request : Request :=
  mkRequest (Some "r-4") (Some "u-1") (Some "utility_management")
    (Some "Energy and water usage optimization") (Some "medium") (Some []).

Lemma expert_report_without_issues_is_approved_witness :
  exists report,
    BaseAgent.evaluate_quality
      (BaseExpertAgent.class py1 (BaseExpertAgent.new Utility)) 0
      (timed_result (BaseExpertAgent.new Utility) 1 utility_request)
      utility_request = Ok report
    /\ total_issues report = 0%nat
    /\ approved_for_publication report = true.
Proof.
  assert (H : exists report,
             BaseAgent.evaluate_quality
               (BaseExpertAgent.class py1 (BaseExpertAgent.new Utility)) 0
               (timed_result (BaseExpertAgent.new Utility) 1 utility_request)
               utility_request = Ok report
             /\ total_issues report = 0%nat)
    by (eexists; split; vm_compute; reflexivity).
  destruct H as (report & Hreport & Hclean).
  exists report. split; [exact Hreport|]. split; [exact Hclean|].
  exact (proj1 (proj2 (proj2
           (@expert_report_without_issues_is_approved py1 _ 0 _ _ report
              Hreport Hclean)))).
Defined.

(** ** The orchestrator's report carries no issue *)

Lemma fold_add_zero (l : list nat) :
  Forall (fun n => n = 0%nat) l -> fold_left Nat.add l 0%nat = 0%nat.
Proof.
  induction 1 as [|n l -> _ IH]; simpl; [reflexivity | exact IH].
Qed.

Lemma principal_assess_silent (py : Builtins) (metric : QualityMetric)
      (d : dict) (rq : Request) (m : QualityMetric) :
  In metric PrincipalAgent.get_quality_metrics ->
  BaseAgent.assess (PrincipalAgent.class py) metric d rq = Ok m ->
  issues m = [] /\ recommendations m = [].
Proof.
  unfold BaseAgent.assess. intros Hin. simpl in Hin.
  repeat (destruct Hin as [<-|Hin]); try contradiction; simpl; intros H;
    unfold_rules H; invert_rules; split; reflexivity.
Qed.

Lemma assess_each_Forall (self : AgentClass) (d : dict) (rq : Request)
      (P : QualityMetric -> Prop) (cfg : list QualityMetric) :
  (forall metric m, In metric cfg ->
                    BaseAgent.assess self metric d rq = Ok m -> P m) ->
  forall ms, BaseAgent.assess_each self cfg d rq = Ok ms -> Forall P ms.
Proof.
  induction cfg as [|metric cfg IH]; intros Hrule ms H; simpl in H.
  - injection H as <-. constructor.
  - apply bind_Ok_inv in H. destruct H as (m & Hm & H).
    apply bind_Ok_inv in H. destruct H as (rest & Hrest & H).
    injection H as <-. constructor.
    + exact (Hrule metric m (or_introl eq_refl) Hm).
    + exact (IH (fun x y Hx => Hrule x y (or_intror Hx)) rest Hrest).
Qed.

(** A run of the orchestrator's rules on an envelope with two failed experts
    and a failed synthesis. *)
Definition failing_envelope : dict :=
  [ ("expert_results",
      VDict [ ("financial", VDict [("error", VStr "boom")]);
              ("utility", VDict [("error", VStr "boom")]) ]);
    ("synthesis",
      VDict [ ("error", VStr "Failed to synthesize results: boom");
              ("summary", VStr "Synthesis failed") ]) ].

(** X5.  For every input on which the orchestrator's evaluation returns, the
    report counts no issue and no recommendation, and none of its metrics
    carries any: the rules detect missing expert results, failed experts, a
    failed synthesis and missing fields, and lower the scores, but the
    messages they build never reach the report. *)
Theorem orchestrator_report_is_silent
        (py : Builtins) (utcnow : Q) (agent_result : dict)
        (original_request : Request) (report : QualityReport)
        (Hreport : BaseAgent.evaluate_quality (PrincipalAgent.class py) utcnow
                     agent_result original_request = Ok report) :
  total_issues report = 0%nat
  /\ total_recommendations report = 0%nat
  /\ Forall (fun m => issues m = [] /\ recommendations m = [])
            (metrics report).
Proof.
  destruct (evaluate_quality_Ok_inv _ _ _ _ Hreport) as (Hms & _).
  destruct (evaluate_quality_Ok_fields _ _ _ _ Hreport)
    as (_ & _ & Hi & Hr & _).
  assert (Hall : Forall (fun m => issues m = [] /\ recommendations m = [])
                        (metrics report)).
  { eapply assess_each_Forall; [|exact Hms].
    intros metric m. apply principal_assess_silent. }
  split; [|split; [|exact Hall]].
  - rewrite Hi. unfold count_issues. apply fold_add_zero.
    apply Forall_map. eapply Forall_impl; [|exact Hall].
    intros m [-> _]. reflexivity.
  - rewrite Hr. unfold count_recommendations. apply fold_add_zero.
    apply Forall_map. eapply Forall_impl; [|exact Hall].
    intros m [_ ->]. reflexivity.
Qed.

Lemma orchestrator_report_is_silent_witness :
  exists report,
    BaseAgent.evaluate_quality (PrincipalAgent.class py0) 0 failing_envelope
      general_request = Ok report
    /\ total_issues report = 0%nat
    /\ total_recommendations report = 0%nat.
Proof.
  assert (H : exists report,
             BaseAgent.evaluate_quality (PrincipalAgent.class py0) 0
               failing_envelope general_request = Ok report)
    by (eexists; vm_compute; reflexivity).
  destruct H as (report & Hreport).
  exists report. split; [exact Hreport|].
  destruct (@orchestrator_report_is_silent py0 0 _ _ report Hreport)
    as (H1 & H2 & _).
  split; assumption.
Defined.

(** ** An agent that customizes no rule *)

Lemma assessed_seven (self : AgentClass) (d : dict) (rq : Request)
      (ms : list QualityMetric) :
  BaseAgent.assess_each self BaseAgent.get_quality_metrics d rq = Ok ms ->
  exists m1 m2 m3 m4 m5 m6 m7,
    ms = [m1; m2; m3; m4; m5; m6; m7]
    /\ v_assess_accuracy self d rq = Ok m1
    /\ v_assess_completeness self d rq = Ok m2
    /\ v_assess_relevance self d rq = Ok m3
    /\ v_assess_timeliness self d rq = Ok m4
    /\ v_assess_consistency self d rq = Ok m5
    /\ v_assess_clarity self d rq = Ok m6
    /\ v_assess_actionability self d rq = Ok m7.
Proof.
  unfold BaseAgent.get_quality_metrics.
  cbn [BaseAgent.assess_each BaseAgent.assess dimension]. intros H.
  repeat match goal with
         | H : bind _ _ = Ok _ |- _ =>
             let a := fresh "a" in
             let Ha := fresh "Ha" in
             apply bind_Ok_inv in H; destruct H as (a & Ha & H);
             cbv beta in H
         | H : Ok _ = Ok ?x |- _ => injection H as H; subst x
         end.
  do 7 eexists. repeat split; eassumption.
Qed.

(** X6.  An agent that keeps every default rule (the state of an expert
    freshly generated from the template) can never pass: whatever it
    evaluates, its overall score lies between 0.45 and 0.55, below the
    default threshold of 0.60, so the report neither passes nor is approved. *)
Theorem default_rules_never_pass
        (py : Builtins) (name : string) (utcnow : Q) (agent_result : dict)
        (original_request : Request) (report : QualityReport)
        (Hreport : BaseAgent.evaluate_quality (BaseAgent.class py name) utcnow
                     agent_result original_request = Ok report) :
  0.45 <= overall_score report
  /\ overall_score report <= 0.55
  /\ passed_threshold report = false
  /\ approved_for_publication report = false.
Proof.
  destruct (evaluate_quality_Ok_inv _ _ _ _ Hreport) as (Hms & Ho & Hp & Ha).
  change (v_get_quality_metrics (BaseAgent.class py name))
    with BaseAgent.get_quality_metrics in Hms.
  destruct (assessed_seven _ _ _ Hms)
    as (m1 & m2 & m3 & m4 & m5 & m6 & m7 & Heq & H1 & H2 & H3 & H4 & H5 & H6
        & H7).
  simpl in H1, H2, H3, H4, H5, H6, H7.
  injection H1 as <-. injection H2 as <-. injection H3 as <-.
  injection H5 as <-. injection H6 as <-. injection H7 as <-.
  destruct (timeliness_range _ _ _ H4) as [[[Hs0 Hs1] _] Hw].
  assert (Hscore : 0.45 <= overall_score report
                   /\ overall_score report <= 0.55).
  { rewrite Ho, Heq.
    unfold _calculate_overall_score, total_weight, weighted_sum, sumQ.
    cbn [map fold_left score weight]. rewrite Hw.
    replace (Qeq_bool (0 + 0.3 + 0.2 + 0.2 + 0.1 + 0.1 + 0.05 + 0.05) 0)
      with false by (vm_compute; reflexivity).
    split.
    - apply Qle_shift_div_l; [unfold Qlt; simpl; lia | lra].
    - apply Qle_shift_div_r; [unfold Qlt; simpl; lia | lra]. }
  destruct Hscore as [Hlo Hhi].
  assert (Hpass : passed_threshold report = false).
  { rewrite Hp. simpl v_get_quality_threshold.
    unfold BaseAgent.get_quality_threshold.
    destruct (Qle_bool 0.6 (overall_score report)) eqn:E; [|reflexivity].
    apply Qle_bool_iff in E. exfalso. lra. }
  repeat split; try assumption. rewrite Ha, Hpass. reflexivity.
Qed.

Lemma default_rules_never_pass_witness :
  exists report,
    BaseAgent.evaluate_quality (BaseAgent.class py0 "HomeSecurityExpert") 0
      [("processing_time", VFloat 1.5)] general_request = Ok report
    /\ overall_score report <= 0.55
    /\ passed_threshold report = false.
Proof.
  assert (H : exists report,
             BaseAgent.evaluate_quality
               (BaseAgent.class py0 "HomeSecurityExpert") 0
               [("processing_time", VFloat 1.5)] general_request = Ok report)
    by (eexists; vm_compute; reflexivity).
  destruct H as (report & Hreport).
  exists report. split; [exact Hreport|].
  destruct (@default_rules_never_pass py0 _ 0 _ _ report Hreport)
    as (_ & H1 & H2 & _).
  split; assumption.
Defined.

(** ** How the experts grade their own analyses *)

(** The keyword groups of the vehicle generator, on a description. *)
Definition maintenance_group (description : string) : bool :=
  any_in ["maintenance"; "service"; "repair"; "oil"; "tire"] (lower description).
Definition fuel_group (description : string) : bool :=
  any_in ["fuel"; "gas"; "mileage"; "efficiency"; "consumption"]
         (lower description).
Definition cost_group (description : string) : bool :=
  any_in ["cost"; "budget"; "expense"; "insurance"; "registration"]
         (lower description).
Definition safety_group (description : string) : bool :=
  any_in ["safety"; "brake"; "light"; "seat"; "airbag"] (lower description).
Definition general_vehicle_group (description : string) : bool :=
  str_in "vehicle" (lower description)
  || str_in "car" (lower description)
  || str_in "auto" (lower description).

(** The financial health analysis as a function of which keyword groups matched. *)
Definition financial_analysis_of (budget investment debt general : bool) : dict :=
  let analysis : dict :=
    [ ("analysis_type", VStr "financial_health");
      ("financial_health_score", VStr "good");
      ("key_issues", VList []);
      ("budget_optimization", VList []);
      ("investment_recommendations", VList []);
      ("debt_management", VList []);
      ("risk_assessment", VList []);
      ("implementation_timeline", VStr "3-12 months");
      ("expected_outcomes", VList []);
      ("priority_actions", VList []);
      ("estimated_savings", VStr "10-25%");
      ("risk_level", VStr "moderate") ] in
  let analysis :=
    if budget then
      append_all analysis
        [ ("key_issues", "Budget optimization needed");
          ("budget_optimization", "Implement 50/30/20 budgeting rule");
          ("budget_optimization", "Track all expenses for 30 days");
          ("budget_optimization", "Identify and reduce discretionary spending");
          ("expected_outcomes", "15-25% reduction in unnecessary expenses");
          ("priority_actions", "Set up expense tracking system") ]
    else analysis in
  let analysis :=
    if investment then
      append_all analysis
        [ ("key_issues", "Investment strategy optimization needed");
          ("investment_recommendations", "Diversify investment portfolio");
          ("investment_recommendations", "Increase retirement contributions");
          ("investment_recommendations", "Consider index fund investments");
          ("expected_outcomes", "8-12% annual investment returns");
          ("priority_actions", "Review and rebalance investment portfolio") ]
    else analysis in
  let analysis :=
    if debt then
      append_all analysis
        [ ("key_issues", "Debt management strategy needed");
          ("debt_management", "Prioritize high-interest debt repayment");
          ("debt_management", "Consider debt consolidation options");
          ("debt_management", "Negotiate lower interest rates");
          ("expected_outcomes", "20-40% reduction in debt payments");
          ("priority_actions", "Create debt repayment plan") ]
    else analysis in
  let analysis :=
    if general then
      append_all analysis
        [ ("key_issues", "Comprehensive financial health improvement needed");
          ("budget_optimization", "Implement comprehensive financial planning");
          ("investment_recommendations",
            "Develop long-term investment strategy");
          ("debt_management", "Create debt reduction timeline");
          ("expected_outcomes", "25-35% overall financial improvement");
          ("priority_actions", "Conduct comprehensive financial audit") ]
    else analysis in
  let analysis :=
    if negb (py_bool (get_default analysis "key_issues" VNone)) then
      append_all analysis
        [ ("key_issues", "General financial health assessment needed");
          ("budget_optimization", "Implement basic budgeting system");
          ("investment_recommendations", "Start emergency fund savings");
          ("debt_management", "Review all outstanding debts");
          ("expected_outcomes", "10-20% overall financial improvement");
          ("priority_actions", "Schedule financial health assessment") ]
    else analysis in
  analysis.


(** The utility management analysis as a function of which keyword groups matched. *)
Definition utility_analysis_of (energy water general : bool) : dict :=
  let analysis : dict :=
    [ ("analysis_type", VStr "utility_management");
      ("key_issues", VList []);
      ("optimization_opportunities", VList []);
      ("cost_savings_recommendations", VList []);
      ("implementation_steps", VList []);
      ("expected_benefits", VList []);
      ("risk_considerations", VList []);
      ("technology_recommendations", VList []);
      ("priority_level", VStr "medium");
      ("estimated_savings", VStr "5-15%");
      ("implementation_timeline", VStr "3-6 months") ] in
  let analysis :=
    if energy then
      append_all analysis
        [ ("key_issues", "High energy consumption patterns detected");
          ("optimization_opportunities",
            "Implement smart energy monitoring systems");
          ("cost_savings_recommendations",
            "Switch to energy-efficient appliances");
          ("implementation_steps",
            "Conduct energy audit and identify high-consumption areas");
          ("expected_benefits", "15-25% reduction in energy costs");
          ("technology_recommendations",
            "Smart meters and energy monitoring devices") ]
    else analysis in
  let analysis :=
    if water then
      append_all analysis
        [ ("key_issues", "Water usage optimization needed");
          ("optimization_opportunities", "Install water-efficient fixtures");
          ("cost_savings_recommendations", "Implement leak detection systems");
          ("implementation_steps",
            "Audit water usage patterns and identify leaks");
          ("expected_benefits", "10-20% reduction in water costs");
          ("technology_recommendations",
            "Smart water meters and leak detectors") ]
    else analysis in
  let analysis :=
    if general then
      append_all analysis
        [ ("key_issues", "Overall utility efficiency improvement needed");
          ("optimization_opportunities",
            "Implement comprehensive utility monitoring");
          ("cost_savings_recommendations",
            "Bundle utility services for better rates");
          ("implementation_steps",
            "Develop utility management strategy and timeline");
          ("expected_benefits", "20-30% overall utility cost reduction");
          ("technology_recommendations",
            "Integrated utility management platform") ]
    else analysis in
  let analysis :=
    if negb (py_bool (get_default analysis "key_issues" VNone)) then
      append_all analysis
        [ ("key_issues", "General utility management improvement opportunity");
          ("optimization_opportunities",
            "Implement comprehensive utility monitoring and optimization");
          ("cost_savings_recommendations",
            "Audit all utility services for optimization opportunities");
          ("implementation_steps",
            "Conduct comprehensive utility audit and develop optimization plan");
          ("expected_benefits", "10-25% overall utility cost reduction");
          ("technology_recommendations",
            "Smart utility monitoring and management systems") ]
    else analysis in
  analysis.


(** The vehicle management analysis as a function of which keyword groups matched. *)
Definition vehicle_analysis_of (maintenance fuel cost safety general : bool) : dict :=
  let analysis : dict :=
    [ ("analysis_type", VStr "vehicle_management");
      ("vehicle_health_score", VStr "good");
      ("key_issues", VList []);
      ("maintenance_recommendations", VList []);
      ("cost_optimization", VList []);
      ("safety_improvements", VList []);
      ("efficiency_enhancements", VList []);
      ("implementation_timeline", VStr "1-6 months");
      ("expected_benefits", VList []);
      ("priority_actions", VList []);
      ("estimated_savings", VStr "15-30%");
      ("risk_level", VStr "low") ] in
  let analysis :=
    if maintenance then
      append_all analysis
        [ ("key_issues", "Vehicle maintenance optimization needed");
          ("maintenance_recommendations",
            "Implement preventive maintenance schedule");
          ("maintenance_recommendations",
            "Regular oil changes and filter replacements");
          ("maintenance_recommendations",
            "Tire rotation and alignment checks");
          ("expected_benefits",
            "Extended vehicle lifespan and reduced repair costs");
          ("priority_actions", "Schedule comprehensive vehicle inspection") ]
    else analysis in
  let analysis :=
    if fuel then
      append_all analysis
        [ ("key_issues", "Fuel efficiency optimization needed");
          ("efficiency_enhancements", "Optimize driving behavior and routes");
          ("efficiency_enhancements", "Maintain proper tire pressure");
          ("efficiency_enhancements",
            "Reduce vehicle weight and aerodynamic drag");
          ("expected_benefits", "20-30% improvement in fuel efficiency");
          ("priority_actions",
            "Implement fuel tracking and monitoring system") ]
    else analysis in
  let analysis :=
    if cost then
      append_all analysis
        [ ("key_issues", "Vehicle cost optimization needed");
          ("cost_optimization", "Shop around for better insurance rates");
          ("cost_optimization",
            "Compare fuel prices and use rewards programs");
          ("cost_optimization",
            "Consider carpooling or ride-sharing options");
          ("expected_benefits",
            "15-25% reduction in vehicle operating costs");
          ("priority_actions", "Conduct comprehensive cost analysis") ]
    else analysis in
  let analysis :=
    if safety then
      append_all analysis
        [ ("key_issues", "Vehicle safety improvements needed");
          ("safety_improvements", "Regular brake system inspections");
          ("safety_improvements",
            "Ensure all lights and signals work properly");
          ("safety_improvements", "Check seat belts and airbag systems");
          ("expected_benefits", "Enhanced vehicle and passenger safety");
          ("priority_actions", "Schedule safety inspection and repairs") ]
    else analysis in
  let analysis :=
    if general then
      append_all analysis
        [ ("key_issues",
            "Comprehensive vehicle management optimization needed");
          ("maintenance_recommendations",
            "Implement comprehensive maintenance program");
          ("cost_optimization", "Develop vehicle cost management strategy");
          ("safety_improvements",
            "Establish regular safety check protocols");
          ("expected_benefits",
            "25-35% overall vehicle cost and efficiency improvement");
          ("priority_actions",
            "Create comprehensive vehicle management plan") ]
    else analysis in
  let analysis :=
    if negb (py_bool (get_default analysis "key_issues" VNone)) then
      append_all analysis
        [ ("key_issues", "General vehicle management assessment needed");
          ("maintenance_recommendations",
            "Establish regular maintenance schedule");
          ("cost_optimization", "Track all vehicle-related expenses");
          ("safety_improvements", "Schedule regular safety inspections");
          ("expected_benefits", "10-20% overall vehicle improvement");
          ("priority_actions", "Schedule comprehensive vehicle assessment") ]
    else analysis in
  analysis.


(** The keyword groups of the financial and utility generators. *)
Definition budget_group (description : string) : bool :=
  any_in ["budget"; "spending"; "expenses"; "cost"] (lower description).
Definition investment_group (description : string) : bool :=
  any_in ["investment"; "portfolio"; "savings"; "retirement"]
         (lower description).
Definition debt_group (description : string) : bool :=
  any_in ["debt"; "credit"; "loan"; "payment"] (lower description).
Definition general_financial_group (description : string) : bool :=
  str_in "financial" (lower description)
  || str_in "money" (lower description)
  || str_in "finance" (lower description).
Definition energy_group (description : string) : bool :=
  any_in ["energy"; "electricity"; "power"; "consumption"] (lower description).
Definition water_group (description : string) : bool :=
  any_in ["water"; "usage"; "bills"; "leak"] (lower description).
Definition general_utility_group (description : string) : bool :=
  str_in "optimization" (lower description)
  || str_in "efficiency" (lower description).

Lemma financial_analysis_groups (description : string) (metadata : option dict) :
  FinancialHealthExpert._generate_financial_analysis description metadata
  = financial_analysis_of (budget_group description)
      (investment_group description) (debt_group description)
      (general_financial_group description).
Proof. reflexivity. Qed.

Lemma utility_analysis_groups (description : string) (metadata : option dict) :
  UtilityManagementExpert._generate_utility_analysis description metadata
  = utility_analysis_of (energy_group description) (water_group description)
      (general_utility_group description).
Proof. reflexivity. Qed.

Lemma vehicle_analysis_groups (description : string) (metadata : option dict) :
  VehicleManagementExpert._generate_vehicle_analysis description metadata
  = vehicle_analysis_of (maintenance_group description)
      (fuel_group description) (cost_group description)
      (safety_group description) (general_vehicle_group description).
Proof. reflexivity. Qed.

Ltac open_generated :=
  unfold BaseExpertAgent.class, timed_result, BaseExpertAgent._expert_process,
    BaseExpertAgent.name, BaseExpertAgent.expertise,
    FinancialHealthExpert._expert_process,
    UtilityManagementExpert._expert_process,
    VehicleManagementExpert._expert_process;
  cbv beta iota delta [expert_kind];
  rewrite ?financial_analysis_groups, ?utility_analysis_groups,
    ?vehicle_analysis_groups.

Ltac settle_generated :=
  eexists; split; [vm_compute; reflexivity|];
  cbn [score issues]; repeat split; intros;
  repeat match goal with
         | H : _ /\ _ |- _ => destruct H
         end;
  try reflexivity; try discriminate; try (unfold Qle; simpl; lia).

(** X7.  The completeness an expert finds in the analysis it generated
    itself, for a request whose description is ASCII text.  The utility
    expert always finds it complete (1.0, no issue); the financial expert
    finds at most two sections missing (never below 0.8); the vehicle expert
    grades it 0.5 exactly when the description matches the fuel group and
    none of the maintenance, cost, safety and general groups, since the fuel
    group fills none of the required sections but keeps the general fallback
    from running. *)
Theorem completeness_of_generated_analysis
        (py : Builtins) (self : ExpertAgent) (pt : Q) (request_data : Request)
        (Hascii : ascii_text (get_str (request_description request_data) "")
                  = true) :
  exists m,
    v_assess_completeness (BaseExpertAgent.class py self)
      (timed_result self pt request_data) request_data = Ok m
    /\ match expert_kind self with
       | Utility => score m = 1.0 /\ issues m = []
       | Financial => 0.8 <= score m
       | Vehicle =>
           let description := get_str (request_description request_data) "" in
           0.5 <= score m
           /\ (score m = 0.5
               <-> fuel_group description = true
                   /\ maintenance_group description = false
                   /\ cost_group description = false
                   /\ safety_group description = false
                   /\ general_vehicle_group description = false)
       end.
Proof.
  clear Hascii.
  destruct self as [[| |] stats]; open_generated; cbv zeta.
  - generalize (budget_group (get_str (request_description request_data) "")),
      (investment_group (get_str (request_description request_data) "")),
      (debt_group (get_str (request_description request_data) "")),
      (general_financial_group (get_str (request_description request_data) "")).
    intros [|] [|] [|] [|]; settle_generated.
  - generalize (energy_group (get_str (request_description request_data) "")),
      (water_group (get_str (request_description request_data) "")),
      (general_utility_group (get_str (request_description request_data) "")).
    intros [|] [|] [|]; settle_generated.
  - generalize (maintenance_group (get_str (request_description request_data) "")),
      (fuel_group (get_str (request_description request_data) "")),
      (cost_group (get_str (request_description request_data) "")),
      (safety_group (get_str (request_description request_data) "")),
      (general_vehicle_group (get_str (request_description request_data) "")).
    intros [|] [|] [|] [|] [|]; settle_generated.
Qed.

(** A request to the vehicle expert that speaks of fuel only. *)
Definition fuel_request : Request :=
  mkRequest (Some "r-7") (Some "u-1") (Some "vehicle_management")
    (Some "Fuel use of my van") (Some "medium") (Some []).

Lemma completeness_of_generated_analysis_witness :
  exists m,
    v_assess_completeness
      (BaseExpertAgent.class py0 (BaseExpertAgent.new Vehicle))
      (timed_result (BaseExpertAgent.new Vehicle) 1 fuel_request)
      fuel_request = Ok m
    /\ score m = 0.5.
Proof.
  destruct (@completeness_of_generated_analysis py0
              (BaseExpertAgent.new Vehicle) 1 fuel_request eq_refl)
    as (m & Hm & Hv).
  cbn [expert_kind BaseExpertAgent.new] in Hv. cbv zeta in Hv.
  destruct Hv as [_ Hiff].
  exists m. split; [exact Hm|]. apply Hiff. vm_compute. repeat split.
Defined.

(** X8.  The consistency an expert finds in the analysis it generated
    itself, for a request whose description is ASCII text.  Every benefit
    text of the financial and utility generators carries a percentage, so
    these experts always grade 0.9.  The maintenance and safety texts of the
    vehicle generator carry neither a percentage nor the word "reduction",
    so the vehicle expert grades 0.7 exactly when the description matches
    the maintenance or the safety group and none of the fuel, cost and
    general groups, and 0.9 otherwise. *)
Theorem consistency_of_generated_analysis
        (py : Builtins) (self : ExpertAgent) (pt : Q) (request_data : Request)
        (Hascii : ascii_text (get_str (request_description request_data) "")
                  = true) :
  exists m,
    v_assess_consistency (BaseExpertAgent.class py self)
      (timed_result self pt request_data) request_data = Ok m
    /\ match expert_kind self with
       | Financial | Utility => score m = 0.9 /\ issues m = []
       | Vehicle =>
           let description := get_str (request_description request_data) "" in
           (score m = 0.7 \/ score m = 0.9)
           /\ (score m = 0.7
               <-> (maintenance_group description = true
                    \/ safety_group description = true)
                   /\ fuel_group description = false
                   /\ cost_group description = false
                   /\ general_vehicle_group description = false)
       end.
Proof.
  clear Hascii.
  destruct self as [[| |] stats]; open_generated; cbv zeta.
  - generalize (budget_group (get_str (request_description request_data) "")),
      (investment_group (get_str (request_description request_data) "")),
      (debt_group (get_str (request_description request_data) "")),
      (general_financial_group (get_str (request_description request_data) "")).
    intros [|] [|] [|] [|]; settle_generated.
  - generalize (energy_group (get_str (request_description request_data) "")),
      (water_group (get_str (request_description request_data) "")),
      (general_utility_group (get_str (request_description request_data) "")).
    intros [|] [|] [|]; settle_generated.
  - generalize (maintenance_group (get_str (request_description request_data) "")),
      (fuel_group (get_str (request_description request_data) "")),
      (cost_group (get_str (request_description request_data) "")),
      (safety_group (get_str (request_description request_data) "")),
      (general_vehicle_group (get_str (request_description request_data) "")).
    intros [|] [|] [|] [|] [|]; settle_generated;
      try (left; reflexivity); try (right; reflexivity);
      try match goal with
          | H : _ \/ _ |- _ => destruct H; discriminate
          end.
Qed.

(** A request to the vehicle expert that speaks of brakes only. *)
Definition brake_request : Request :=
  mkRequest (Some "r-8") (Some "u-1") (Some "vehicle_management")
    (Some "BRAKE pads of my van") (Some "medium") (Some []).

Lemma consistency_of_generated_analysis_witness :
  exists m,
    v_assess_consistency
      (BaseExpertAgent.class py0 (BaseExpertAgent.new Vehicle))
      (timed_result (BaseExpertAgent.new Vehicle) 1 brake_request)
      brake_request = Ok m
    /\ score m = 0.7.
Proof.
  destruct (@consistency_of_generated_analysis py0
              (BaseExpertAgent.new Vehicle) 1 brake_request eq_refl)
    as (m & Hm & Hv).
  cbn [expert_kind BaseExpertAgent.new] in Hv. cbv zeta in Hv.
  destruct Hv as [_ Hiff].
  exists m. split; [exact Hm|]. apply Hiff. vm_compute.
  split; [right; reflexivity | repeat split].
Defined.

(** ** Bookkeeping of an expert *)

(** What the counters of an expert satisfy between two calls. *)
Definition stats_consistent (s : ProcessingStats) : Prop :=
  total_requests s = (successful_requests s + failed_requests s)%nat
  /\ List.length (quality_scores s) = successful_requests s
  /\ Forall (fun q => 0 <= q /\ q <= 1) (quality_scores s).

Lemma expert_overall_in_unit (py : Builtins) (self : ExpertAgent) (utcnow : Q)
      (d : dict) (rq : Request) (report : QualityReport) :
  BaseAgent.evaluate_quality (BaseExpertAgent.class py self) utcnow d rq
  = Ok report ->
  0 <= overall_score report /\ overall_score report <= 1.
Proof.
  intros H. destruct (evaluate_quality_Ok_inv _ _ _ _ H) as (Hms & Ho & _).
  assert (Hclass : known_class py (BaseExpertAgent.class py self))
    by (left; exists self; reflexivity).
  destruct (known_class_rules d rq Hclass) as [Hrules _].
  destruct (@assess_each_range _ _ _ _ Hrules _ Hms) as [Hrange _].
  rewrite Ho. apply overall_score_in_unit, Hrange.
Qed.

(** X9.  One call of an expert's [process] and its counters.  Every call
    counts as one request.  An accepted request counts as one success, moves
    the average processing time to the mean that includes the new duration,
    and records the overall score of the report; a refused request counts as
    one failure and changes nothing else.  Either way the counters stay
    consistent: requests are successes plus failures, there is one recorded
    score per success, and every recorded score lies in [0,1]. *)
Theorem expert_process_bookkeeping
        (py : Builtins) (self : ExpertAgent) (pt utcnow : Q)
        (request_data : Request)
        (Hstats : stats_consistent (processing_stats self)) :
  let before := processing_stats self in
  let after :=
    processing_stats
      (fst (BaseExpertAgent.process py self pt utcnow request_data)) in
  stats_consistent after
  /\ expert_kind (fst (BaseExpertAgent.process py self pt utcnow request_data))
     = expert_kind self
  /\ total_requests after = S (total_requests before)
  /\ (BaseExpertAgent._can_handle_request self request_data = true ->
      successful_requests after = S (successful_requests before)
      /\ failed_requests after = failed_requests before
      /\ average_processing_time after
           * inject_Z (Z.of_nat (S (successful_requests before)))
         == average_processing_time before
              * inject_Z (Z.of_nat (successful_requests before)) + pt
      /\ exists report,
           BaseAgent.evaluate_quality (BaseExpertAgent.class py self) utcnow
             (timed_result self pt request_data) request_data = Ok report
           /\ quality_scores after
              = (quality_scores before ++ [overall_score report])%list)
  /\ (BaseExpertAgent._can_handle_request self request_data = false ->
      successful_requests after = successful_requests before
      /\ failed_requests after = S (failed_requests before)
      /\ average_processing_time after = average_processing_time before
      /\ quality_scores after = quality_scores before).
Proof.
  destruct Hstats as (Htotal & Hlen & Hscores).
  unfold BaseExpertAgent.process.
  destruct (BaseExpertAgent._can_handle_request self request_data) eqn:E;
    cbn [negb]; cbv iota.
  - destruct (expert_evaluation_returns py self pt utcnow request_data)
      as [report Hr].
    cbv zeta. fold (timed_result self pt request_data). rewrite Hr.
    cbn [fst processing_stats expert_kind total_requests successful_requests
         failed_requests average_processing_time quality_scores].
    split; [|split; [reflexivity|split; [reflexivity|split]]].
    + unfold stats_consistent.
      cbn [total_requests successful_requests failed_requests quality_scores].
      split; [lia|]. split.
      * rewrite length_app. simpl. lia.
      * apply Forall_app. split; [exact Hscores|].
        constructor; [|constructor].
        exact (expert_overall_in_unit _ _ _ _ _ Hr).
    + intros _. split; [reflexivity|]. split; [reflexivity|]. split.
      * replace (Z.of_nat (S (successful_requests (processing_stats self))) - 1)%Z
          with (Z.of_nat (successful_requests (processing_stats self)))
          by lia.
        field. unfold Qeq. simpl. lia.
      * exists report. split; reflexivity.
    + intros C. discriminate C.
  - cbn [fst processing_stats BaseExpertAgent.count_failure expert_kind
         total_requests successful_requests failed_requests
         average_processing_time quality_scores].
    split; [|split; [reflexivity|split; [reflexivity|split]]].
    + unfold stats_consistent.
      cbn [total_requests successful_requests failed_requests quality_scores].
      split; [lia|]. split; assumption.
    + intros C. discriminate C.
    + intros _. repeat split; reflexivity.
Qed.

Lemma expert_process_bookkeeping_witness :
  stats_consistent
    (processing_stats
       (fst (BaseExpertAgent.process py0 (BaseExpertAgent.new Utility) 2 0
               utility_request)))
  /\ total_requests
       (processing_stats
          (fst (BaseExpertAgent.process py0 (BaseExpertAgent.new Utility) 2 0
                  utility_request))) = 1%nat.
Proof.
  assert (H : stats_consistent (processing_stats (BaseExpertAgent.new Utility))).
  { unfold stats_consistent. simpl. repeat split; constructor. }
  destruct (@expert_process_bookkeeping py0 (BaseExpertAgent.new Utility) 2 0
              utility_request H) as (H1 & _ & H2 & _).
  split; [exact H1 | exact H2].
Defined.

(** ** What one cycle does to the orchestrator *)

Lemma keys_dict_set_present {V : Type} (d : list (string * V)) (k : string)
      (v : V) :
  In k (keys d) -> keys (dict_set d k v) = keys d.
Proof.
  unfold keys. induction d as [|[k0 v0] d IH]; simpl; intros H; [destruct H|].
  destruct (String.eqb k0 k) eqn:E; simpl; [reflexivity|].
  destruct H as [H|H].
  - subst k0. rewrite String.eqb_refl in E. discriminate E.
  - rewrite IH by exact H. reflexivity.
Qed.

Lemma dict_get_in_keys {V : Type} (d : list (string * V)) (k : string) (v : V) :
  dict_get d k = Some v -> In k (keys d).
Proof.
  induction d as [|[k0 v0] d IH]; simpl; intros H; [discriminate H|].
  destruct (String.eqb k0 k) eqn:E.
  - left. apply String.eqb_eq, E.
  - right. apply IH, H.
Qed.

Lemma required_experts_registered (self : PrincipalAgent) (rq : Request)
      (k : string) :
  In k (keys (PrincipalAgent._determine_required_experts self rq)) ->
  In k (keys (expert_agents self)).
Proof.
  unfold PrincipalAgent._determine_required_experts.
  destruct (expert_agents self) as [|a agents] eqn:E; [intros []|].
  rewrite <- E.
  assert (G : forall (c : bool) (name : string)
                     (acc : list (string * ExpertAgent)),
             (In k (keys acc) -> In k (keys (expert_agents self))) ->
             In k (keys (if c
                         then match dict_get (expert_agents self) name with
                              | Some agent => dict_set acc name agent
                              | None => acc
                              end
                         else acc)) ->
             In k (keys (expert_agents self))).
  { intros c name acc Hacc. destruct c; [|exact Hacc].
    destruct (dict_get (expert_agents self) name) as [agent|] eqn:Eg;
      [|exact Hacc].
    intros Hin. apply in_keys_dict_set in Hin. destruct Hin as [->|Hin].
    - exact (dict_get_in_keys _ _ Eg).
    - exact (Hacc Hin). }
  match goal with
  | |- In k (keys (match ?x with [] => _ | _ :: _ => ?x end)) -> _ =>
      assert (H : In k (keys x) -> In k (keys (expert_agents self)));
        [|destruct x; [tauto | exact H]]
  end.
  apply G. apply G. apply G. intros [].
Qed.

Lemma delegate_cons (py : Builtins) (clock : Clock) (rq : Request)
      (expert_name : string) (expert_agent : ExpertAgent)
      (rest : list (string * ExpertAgent))
      (agents : list (string * ExpertAgent)) (expert_results : dict) :
  PrincipalAgent.delegate py clock ((expert_name, expert_agent) :: rest)
    rq agents expert_results
  = PrincipalAgent.delegate py clock rest rq
      (dict_set agents expert_name
         (fst (BaseExpertAgent.process py expert_agent
                 (expert_processing_time clock expert_name)
                 (expert_utcnow clock expert_name) rq)))
      (dict_set expert_results expert_name
         (entry_for py clock rq expert_name expert_agent)).
Proof.
  cbn [PrincipalAgent.delegate]. unfold entry_for.
  destruct (BaseExpertAgent.process py expert_agent
              (expert_processing_time clock expert_name)
              (expert_utcnow clock expert_name) rq) as [agent' [r|e]];
    reflexivity.
Qed.

Lemma delegate_registry (py : Builtins) (clock : Clock) (rq : Request)
      (required : list (string * ExpertAgent)) :
  forall agents expert_results,
    (forall k, In k (keys required) -> In k (keys agents)) ->
    keys (fst (PrincipalAgent.delegate py clock required rq agents
                 expert_results)) = keys agents
    /\ (forall k, ~ In k (keys required) ->
                  dict_get (fst (PrincipalAgent.delegate py clock required rq
                                   agents expert_results)) k
                  = dict_get agents k).
Proof.
  induction required as [|[expert_name expert_agent] rest IH];
    intros agents expert_results Hsub.
  - split; [reflexivity | intros; reflexivity].
  - rewrite delegate_cons.
    assert (Hname : In expert_name (keys agents))
      by (apply Hsub; left; reflexivity).
    match goal with
    | |- context [PrincipalAgent.delegate py clock rest rq ?a ?r] =>
        destruct (IH a r) as [Hk Hg]
    end.
    + intros k Hk. rewrite keys_dict_set_present by exact Hname.
      apply Hsub. right. exact Hk.
    + split.
      * rewrite Hk. apply keys_dict_set_present, Hname.
      * intros k Hnot. rewrite Hg.
        -- rewrite dict_get_set.
           destruct (String.eqb expert_name k) eqn:E; [|reflexivity].
           apply String.eqb_eq in E. exfalso. apply Hnot. left. exact E.
        -- intros Hin. apply Hnot. right. exact Hin.
Qed.

(** X10.  One processing cycle on an initialized orchestrator never
    publishes and never changes who is registered: the publication queue,
    the sink and the initialized flag are as before, the registry has the
    same keys in the same order and every expert that was not selected is
    untouched, and the workflow history grows by exactly one entry, which
    names the selected experts and records that the result was not approved. *)
Theorem process_state_effects
        (py : Builtins) (clock : Clock) (self : PrincipalAgent)
        (request_data : Request)
        (Hinit : is_initialized self = true) :
  let after := fst (PrincipalAgent.process py clock self request_data) in
  let required := PrincipalAgent._determine_required_experts self request_data in
  is_initialized after = true
  /\ file_streamer after = file_streamer self
  /\ publication_queue after = publication_queue self
  /\ keys (expert_agents after) = keys (expert_agents self)
  /\ (forall k, ~ In k (keys required) ->
                dict_get (expert_agents after) k
                = dict_get (expert_agents self) k)
  /\ exists entry,
       workflow_history after = (workflow_history self ++ [entry])%list
       /\ dict_get entry "experts_used" = Some (VList (map VStr (keys required)))
       /\ dict_get entry "approved" = Some (VBool false)
       /\ dict_get entry "request_id"
          = Some (VStr (get_str (request_id request_data) "unknown")).
Proof.
  cbv zeta.
  pose proof (delegate_registry py clock request_data
                (PrincipalAgent._determine_required_experts self request_data)
                (expert_agents self) []
                (required_experts_registered self request_data))
    as [Hkeys Hget].
  unfold PrincipalAgent.process, PrincipalAgent.conclude. rewrite Hinit.
  cbn [negb]. cbv iota.
  destruct (PrincipalAgent.delegate py clock
              (PrincipalAgent._determine_required_experts self request_data)
              request_data (expert_agents self) [])
    as [agents expert_results].
  cbn [fst] in Hkeys, Hget.
  destruct (synthesis_is_bare request_data expert_results) as [H1 H2].
  destruct (principal_evaluation_bare py (principal_utcnow clock) _
              request_data H1 H2)
    as (report & -> & _ & _ & _ & Happroved).
  cbv zeta. rewrite Happroved.
  cbn [fst is_initialized file_streamer publication_queue expert_agents
       workflow_history].
  repeat split; try assumption.
  eexists. split; [reflexivity|]. repeat split.
Qed.

Lemma process_state_effects_witness :
  publication_queue
    (fst (PrincipalAgent.process py0 clock0 standard_principal utility_request))
  = []
  /\ keys (expert_agents
             (fst (PrincipalAgent.process py0 clock0 standard_principal
                     utility_request)))
     = ["financial"; "utility"; "vehicle"].
Proof.
  assert (Hinit : is_initialized standard_principal = true) by reflexivity.
  destruct (@process_state_effects py0 clock0 standard_principal
              utility_request Hinit) as (_ & _ & Hq & Hk & _).
  split; [exact Hq | exact Hk].
Defined.

(** ** Substrings *)

Lemma string_app_assoc (a b c : string) : (a ++ b) ++ c = a ++ (b ++ c).
Proof. induction a as [|x a IH]; simpl; [reflexivity | rewrite IH; reflexivity]. Qed.

Lemma prefix_iff (a b : string) :
  prefix a b = true <-> exists s, b = a ++ s.
Proof.
  revert a. induction b as [|y b IH]; intros a.
  - destruct a as [|x a]; simpl.
    + split; [intros _; exists ""; reflexivity | reflexivity].
    + split; [discriminate | intros [s H]; discriminate H].
  - destruct a as [|x a]; simpl.
    + split; [intros _; exists (String y b); reflexivity | reflexivity].
    + destruct (ascii_dec x y) as [->|Hneq].
      * rewrite IH. split; intros [s H]; exists s.
        -- rewrite H. reflexivity.
        -- injection H as H. exact H.
      * split; [discriminate|]. intros [s H]. injection H as H1 H2.
        exfalso. apply Hneq. symmetry. exact H1.
Qed.

Lemma str_in_nil (a : string) : str_in a "" = prefix a "".
Proof. destruct a; reflexivity. Qed.

Lemma str_in_cons (a : string) (y : ascii) (b : string) :
  str_in a (String y b) = prefix a (String y b) || str_in a b.
Proof.
  change (str_in a (String y b))
    with (if prefix a (String y b) then true else str_in a b).
  destruct (prefix a (String y b)); reflexivity.
Qed.

Lemma str_in_iff (a b : string) :
  str_in a b = true <-> exists p s, b = p ++ a ++ s.
Proof.
  induction b as [|y b IH].
  - rewrite str_in_nil, prefix_iff. split.
    + intros [s H]. exists "", s. exact H.
    + intros (p & s & H). destruct p as [|x p]; [|discriminate H].
      exists s. exact H.
  - rewrite str_in_cons, orb_true_iff, prefix_iff, IH. split.
    + intros [[s H] | (p & s & H)].
      * exists "", s. exact H.
      * exists (String y p), s. rewrite H. reflexivity.
    + intros (p & s & H). destruct p as [|x p].
      * left. exists s. exact H.
      * right. injection H as _ H. exists p, s. exact H.
Qed.

Lemma str_in_trans (a b c : string) :
  str_in a b = true -> str_in b c = true -> str_in a c = true.
Proof.
  rewrite !str_in_iff. intros (p1 & s1 & ->) (p2 & s2 & ->).
  exists (p2 ++ p1), (s1 ++ s2).
  rewrite !string_app_assoc. reflexivity.
Qed.

(** ** Routing against the experts' own guards *)

(** The registry key under which [initialize] stores each expert. *)
Definition registry_key (k : ExpertKind) : string :=
  match k with
  | Financial => "financial"
  | Utility => "utility"
  | Vehicle => "vehicle"
  end.

Definition router_keywords (k : ExpertKind) : list string :=
  match k with
  | Financial => financial_keywords
  | Utility => utility_keywords
  | Vehicle => vehicle_keywords
  end.

Lemma token_implies_keyword (self : ExpertAgent) (t : string) :
  str_in (BaseExpertAgent.expertise self) t = true ->
  any_in (router_keywords (expert_kind self)) t = true.
Proof.
  intros H. unfold BaseExpertAgent.expertise in H.
  destruct (expert_kind self); simpl router_keywords;
    unfold any_in; cbn [existsb financial_keywords utility_keywords
                          vehicle_keywords].
  - rewrite (@str_in_trans "financial" FinancialHealthExpert.expertise t
               eq_refl H). reflexivity.
  - rewrite (@str_in_trans "utility" UtilityManagementExpert.expertise t
               eq_refl H). reflexivity.
  - rewrite (@str_in_trans "vehicle" VehicleManagementExpert.expertise t
               eq_refl H). reflexivity.
Qed.

Lemma dict_get_Some_In {V : Type} (d : list (string * V)) (k : string) (v : V) :
  dict_get d k = Some v -> In (k, v) d.
Proof.
  induction d as [|[k0 v0] d IH]; simpl; intros H; [discriminate H|].
  destruct (String.eqb k0 k) eqn:E.
  - apply String.eqb_eq in E. injection H as ->. left. rewrite E. reflexivity.
  - right. apply IH, H.
Qed.

Definition lowered_type (request_data : Request) : string :=
  lower (get_str (request_type request_data) "").

Lemma selection_registered (self : PrincipalAgent) (rq : Request)
      (expert_name : string) (expert_agent : ExpertAgent) :
  In (expert_name, expert_agent)
     (PrincipalAgent._determine_required_experts self rq) ->
  In (expert_name, expert_agent) (expert_agents self).
Proof.
  unfold PrincipalAgent._determine_required_experts.
  fold financial_keywords utility_keywords vehicle_keywords.
  fold (lowered_type rq).
  destruct (expert_agents self) as [|a agents] eqn:E; [intros []|].
  rewrite <- E.
  destruct (any_in financial_keywords (lowered_type rq));
    destruct (any_in utility_keywords (lowered_type rq));
    destruct (any_in vehicle_keywords (lowered_type rq));
    destruct (dict_get (expert_agents self) "financial") eqn:Hf;
    destruct (dict_get (expert_agents self) "utility") eqn:Hu;
    destruct (dict_get (expert_agents self) "vehicle") eqn:Hv;
    simpl; intros Hin;
    repeat match goal with
           | H : _ \/ _ |- _ => destruct H
           | H : False |- _ => destruct H
           | H : (_, _) = (_, _) |- _ => injection H as <- <-
           end;
    try (apply dict_get_Some_In; assumption);
    try assumption.
Qed.

Lemma selection_by_keyword (self : PrincipalAgent) (rq : Request)
      (expert_agent : ExpertAgent) :
  dict_get (expert_agents self) (registry_key (expert_kind expert_agent))
  = Some expert_agent ->
  any_in (router_keywords (expert_kind expert_agent)) (lowered_type rq) = true ->
  dict_get (PrincipalAgent._determine_required_experts self rq)
    (registry_key (expert_kind expert_agent)) = Some expert_agent.
Proof.
  intros Hget Hkw.
  unfold PrincipalAgent._determine_required_experts.
  fold financial_keywords utility_keywords vehicle_keywords.
  fold (lowered_type rq).
  destruct (expert_agents self) as [|a agents] eqn:E; [discriminate Hget|].
  rewrite <- E in *. clear E.
  destruct (expert_kind expert_agent);
    cbn [registry_key router_keywords] in Hget, Hkw |- *;
    rewrite ?Hget, ?Hkw;
    repeat match goal with
           | |- context [any_in ?ks ?t] => destruct (any_in ks t)
           | |- context [dict_get (expert_agents self) ?k] =>
               destruct (dict_get (expert_agents self) k)
           end;
    reflexivity.
Qed.

Definition expertise_tokens : list string :=
  ["financial_health"; "utility_management"; "vehicle_management"].

(** The exception an expert raises for a request outside its domain. *)
Definition refusal (request_data : Request) (expert_agent : ExpertAgent) : exn :=
  ValueError ("Request type " ++ BaseExpertAgent.shown_request_type request_data
                ++ " not suitable for " ++ BaseExpertAgent.expertise expert_agent
                ++ " expert").

Lemma refused_by_every_expert (rq : Request) :
  any_in expertise_tokens (lowered_type rq) = false ->
  any_in multi_domain_keywords (lowered_type rq) = false ->
  forall expert_agent,
    BaseExpertAgent._can_handle_request expert_agent rq = false.
Proof.
  intros Ht Hm expert_agent. apply can_handle_false_iff.
  fold (lowered_type rq). split; [|exact Hm].
  unfold any_in, expertise_tokens in Ht. cbn [existsb] in Ht.
  apply orb_false_iff in Ht. destruct Ht as [H1 Ht].
  apply orb_false_iff in Ht. destruct Ht as [H2 Ht].
  apply orb_false_iff in Ht. destruct Ht as [H3 _].
  unfold BaseExpertAgent.expertise.
  destruct (expert_kind expert_agent); assumption.
Qed.

Lemma accepted_by_every_expert (rq : Request) :
  any_in multi_domain_keywords (lowered_type rq) = true ->
  forall expert_agent,
    BaseExpertAgent._can_handle_request expert_agent rq = true.
Proof.
  intros H expert_agent.
  destruct (BaseExpertAgent._can_handle_request expert_agent rq) eqn:E;
    [reflexivity|].
  apply can_handle_false_iff in E. destruct E as [_ E].
  unfold lowered_type in H. rewrite H in E. discriminate E.
Qed.

Lemma entry_when_refused (py : Builtins) (clock : Clock) (rq : Request)
      (expert_name : string) (expert_agent : ExpertAgent) :
  BaseExpertAgent._can_handle_request expert_agent rq = false ->
  entry_for py clock rq expert_name expert_agent
  = PrincipalAgent.failed_entry expert_name (refusal rq expert_agent).
Proof.
  intros H. unfold entry_for.
  destruct (expert_process_outcome py expert_agent
              (expert_processing_time clock expert_name)
              (expert_utcnow clock expert_name) rq)
    as [[_ ->]|[Hc _]]; [reflexivity|].
  rewrite H in Hc. discriminate Hc.
Qed.

(** The entry of an expert that accepted the request. *)
Definition successful_entry (expert_agent : ExpertAgent) (entry : value) : Prop :=
  exists d,
    entry = VDict d
    /\ dict_has d "error" = false
    /\ no_merge_fields d
    /\ dict_get d "expert_agent" = Some (VStr (BaseExpertAgent.name expert_agent))
    /\ dict_get d "expertise"
       = Some (VStr (BaseExpertAgent.expertise expert_agent))
    /\ dict_has d "quality_report" = true.

Lemma entry_when_accepted (py : Builtins) (clock : Clock) (rq : Request)
      (expert_name : string) (expert_agent : ExpertAgent) :
  BaseExpertAgent._can_handle_request expert_agent rq = true ->
  successful_entry expert_agent
    (entry_for py clock rq expert_name expert_agent).
Proof.
  intros H. unfold entry_for.
  destruct (expert_process_outcome py expert_agent
              (expert_processing_time clock expert_name)
              (expert_utcnow clock expert_name) rq)
    as [[Hc _]|[_ (report & _ & ->)]]; [rewrite H in Hc; discriminate Hc|].
  eexists. split; [reflexivity|].
  unfold no_merge_fields, timed_result.
  rewrite !dict_has_set, !dict_get_set.
  rewrite !(expert_process_keys expert_agent rq) by reflexivity.
  repeat split; reflexivity.
Qed.

(** Entries that all carry, or all lack, the "error" key. *)
Definition with_error (b : bool) (r : value) : Prop :=
  exists d, r = VDict d /\ dict_has d "error" = b
            /\ (b = false -> no_merge_fields d).

Lemma with_error_inert (b : bool) (r : value) :
  with_error b r -> inert_entry r.
Proof.
  intros (d & -> & He & Hm). exists d. split; [reflexivity|].
  destruct b; [left; exact He | right; split; [exact He | apply Hm; reflexivity]].
Qed.

Lemma select_by_error_uniform (b wanted : bool) (rs : list value) :
  Forall (with_error b) rs ->
  select_by_error wanted rs = Ok (if Bool.eqb b wanted then rs else []).
Proof.
  induction 1 as [|r rs (d & -> & He & _) _ IH]; simpl.
  - destruct (Bool.eqb b wanted); reflexivity.
  - rewrite He, IH. cbn [bind]. destruct (Bool.eqb b wanted); reflexivity.
Qed.

(** The synthesis of a round in which every expert failed ([b = true]) or
    every expert succeeded ([b = false]). *)
Definition uniform_synthesis (b : bool) (n : nat) : dict :=
  [ ("summary",
      VStr ("Analysis completed by " ++ str_nat n ++ " expert agents"));
    ("insights", VDict []);
    ("recommendations", VList []);
    ("metrics", VDict []);
    ("expert_count", VInt (Z.of_nat n));
    ("successful_experts", VInt (if b then 0 else Z.of_nat n));
    ("failed_experts", VInt (if b then Z.of_nat n else 0)) ].

Lemma synthesis_uniform (rq : Request) (expert_results : dict) (b : bool) :
  Forall (with_error b) (values expert_results) ->
  PrincipalAgent._synthesize_results rq expert_results
  = uniform_synthesis b (List.length expert_results).
Proof.
  intros H.
  unfold PrincipalAgent._synthesize_results, PrincipalAgent.synthesis_of.
  assert (Hinert : Forall inert_entry (values expert_results)).
  { eapply Forall_impl; [|exact H]. intros r. apply with_error_inert. }
  rewrite (@merge_results_inert expert_results Hinert [] [] []).
  rewrite (@select_by_error_uniform b false _ H).
  rewrite (@select_by_error_uniform b true _ H).
  cbn [bind]. unfold uniform_synthesis, values.
  destruct b; cbn [Bool.eqb]; rewrite ?length_map; reflexivity.
Qed.

Lemma values_entries_for (py : Builtins) (clock : Clock) (rq : Request)
      (required : list (string * ExpertAgent)) :
  values (entries_for py clock rq required)
  = map (fun na => entry_for py clock rq (fst na) (snd na)) required.
Proof. unfold values, entries_for. rewrite map_map. reflexivity. Qed.

Lemma length_entries_for (py : Builtins) (clock : Clock) (rq : Request)
      (required : list (string * ExpertAgent)) :
  List.length (entries_for py clock rq required) = List.length required.
Proof. unfold entries_for. apply length_map. Qed.

(** The entries recorded when every selected expert refuses. *)
Definition refusals (request_data : Request)
           (required : list (string * ExpertAgent)) : dict :=
  map (fun na =>
         (fst na,
          PrincipalAgent.failed_entry (fst na) (refusal request_data (snd na))))
      required.

(** A request without a type. *)
Definition untyped_request : Request :=
  mkRequest (Some "r-5") (Some "u-1") None
    (Some "Help me with my budget and my debt") (Some "medium") (Some []).

(** A request whose type names the financial expert's own token. *)
Definition review_request : Request :=
  mkRequest (Some "r-6") (Some "u-1") (Some "Financial_Health_Review")
    (Some "Help me with my budget and my debt") (Some "medium") (Some []).

(** X11.  The router never returns an empty selection from a non-empty
    registry, and every expert it selects is one the registry holds under
    that name. *)
Theorem router_selects_registered_experts
        (self : PrincipalAgent) (request_data : Request) :
  (PrincipalAgent._determine_required_experts self request_data = []
   <-> expert_agents self = [])
  /\ (forall expert_name expert_agent,
         In (expert_name, expert_agent)
            (PrincipalAgent._determine_required_experts self request_data) ->
         In (expert_name, expert_agent) (expert_agents self)).
Proof.
  split; [|intros expert_name expert_agent; apply selection_registered].
  unfold PrincipalAgent._determine_required_experts.
  destruct (expert_agents self) as [|a agents] eqn:E.
  - split; reflexivity.
  - split; [|discriminate]. cbv beta iota zeta.
    match goal with
    | |- match ?x with [] => _ | _ :: _ => _ end = [] -> _ =>
        destruct x; discriminate
    end.
Qed.

(** X12.  An expert registered under its own key whose expertise token
    occurs in the lower-cased request type is selected by the router, and
    accepts the request it is then handed: its [process] returns a result. *)
Theorem router_agrees_with_guard_on_tokens
        (py : Builtins) (self : PrincipalAgent) (request_data : Request)
        (expert_agent : ExpertAgent) (pt utcnow : Q)
        (Hregistered :
           dict_get (expert_agents self)
             (registry_key (expert_kind expert_agent)) = Some expert_agent)
        (Htoken : str_in (BaseExpertAgent.expertise expert_agent)
                    (lowered_type request_data) = true) :
  dict_get (PrincipalAgent._determine_required_experts self request_data)
    (registry_key (expert_kind expert_agent)) = Some expert_agent
  /\ exists result,
      snd (BaseExpertAgent.process py expert_agent pt utcnow request_data)
      = Ok result
      /\ dict_has result "error" = false.
Proof.
  split.
  - apply selection_by_keyword; [exact Hregistered|].
    apply token_implies_keyword, Htoken.
  - destruct (expert_process_outcome py expert_agent pt utcnow request_data)
      as [[Hc _]|[_ (report & _ & ->)]].
    + apply can_handle_false_iff in Hc. destruct Hc as [Hc _].
      unfold lowered_type in Htoken. rewrite Htoken in Hc. discriminate Hc.
    + eexists. split; [reflexivity|].
      unfold timed_result. rewrite !dict_has_set.
      rewrite !(expert_process_keys expert_agent request_data) by reflexivity.
      reflexivity.
Qed.

Lemma router_agrees_with_guard_on_tokens_witness :
  dict_get (PrincipalAgent._determine_required_experts standard_principal
              review_request) "financial"
  = Some (BaseExpertAgent.new Financial).
Proof.
  apply (@router_agrees_with_guard_on_tokens py0 standard_principal
           review_request (BaseExpertAgent.new Financial) 1 0 eq_refl eq_refl).
Defined.

(** X13.  For every request handled by an initialized orchestrator whose
    lower-cased type contains none of the three expertise tokens and none of
    the five override tokens, every selected expert refuses, whether it was
    selected by keyword or by the fallback: the cycle still completes,
    [expert_results] holds one failed entry per selected expert, and the
    synthesis counts no successful expert. *)
Theorem unmatched_types_fail_every_expert
        (py : Builtins) (clock : Clock) (self : PrincipalAgent)
        (request_data : Request)
        (Hinit : is_initialized self = true)
        (Hregistry : NoDup (keys (expert_agents self)))
        (Htokens : any_in expertise_tokens (lowered_type request_data) = false)
        (Hoverride : any_in multi_domain_keywords (lowered_type request_data)
                     = false) :
  exists final_response,
    snd (PrincipalAgent.process py clock self request_data) = Ok final_response
    /\ dict_get final_response "status" = Some (VStr "completed")
    /\ dict_get final_response "expert_results"
       = Some (VDict
                 (refusals request_data
                    (PrincipalAgent._determine_required_experts self
                       request_data)))
    /\ dict_get final_response "synthesis"
       = Some (VDict
                 (uniform_synthesis true
                    (List.length
                       (PrincipalAgent._determine_required_experts self
                          request_data)))).
Proof.
  destruct (process_outcome py clock self request_data Hinit)
    as (final_response & Hp & _ & Hstatus & Hresults & Hsynthesis & _).
  assert (Hnd : NoDup (keys (PrincipalAgent._determine_required_experts
                               self request_data)))
    by (apply required_experts_NoDup, Hregistry).
  rewrite delegate_results in Hresults, Hsynthesis by exact Hnd.
  cbn [app] in Hresults, Hsynthesis.
  assert (Hentries :
            entries_for py clock request_data
              (PrincipalAgent._determine_required_experts self request_data)
            = refusals request_data
                (PrincipalAgent._determine_required_experts self request_data)).
  { unfold entries_for, refusals. apply map_ext. intros [expert_name agent].
    cbn [fst snd]. f_equal. apply entry_when_refused.
    apply refused_by_every_expert; assumption. }
  rewrite Hentries in Hresults, Hsynthesis.
  exists final_response. split; [exact Hp|]. split; [exact Hstatus|].
  split; [exact Hresults|]. rewrite Hsynthesis. do 2 f_equal.
  rewrite synthesis_uniform with (b := true).
  - unfold refusals. rewrite length_map. reflexivity.
  - unfold values, refusals. rewrite map_map. apply Forall_forall.
    intros r Hr. apply in_map_iff in Hr. destruct Hr as ([n a] & <- & _).
    eexists. split; [reflexivity|]. split; [reflexivity|]. discriminate.
Qed.

Lemma unmatched_types_fail_every_expert_witness :
  exists final_response,
    snd (PrincipalAgent.process py0 clock0 standard_principal untyped_request)
    = Ok final_response
    /\ dict_get final_response "synthesis"
       = Some (VDict (uniform_synthesis true 3)).
Proof.
  assert (Hinit : is_initialized standard_principal = true) by reflexivity.
  assert (Hregistry : NoDup (keys (expert_agents standard_principal))).
  { repeat constructor; simpl; intuition discriminate. }
  destruct (@unmatched_types_fail_every_expert py0 clock0 standard_principal
              untyped_request Hinit Hregistry eq_refl eq_refl)
    as (final_response & Hp & _ & _ & Hs).
  exists final_response. split; [exact Hp | exact Hs].
Defined.

Lemma all_accept_outcome
      (py : Builtins) (clock : Clock) (self : PrincipalAgent)
      (request_data : Request) :
  is_initialized self = true ->
  NoDup (keys (expert_agents self)) ->
  (forall expert_name expert_agent,
      In (expert_name, expert_agent)
         (PrincipalAgent._determine_required_experts self request_data) ->
      BaseExpertAgent._can_handle_request expert_agent request_data = true) ->
  exists final_response expert_results,
    snd (PrincipalAgent.process py clock self request_data) = Ok final_response
    /\ dict_get final_response "expert_results" = Some (VDict expert_results)
    /\ keys expert_results
       = keys (PrincipalAgent._determine_required_experts self request_data)
    /\ (forall expert_name expert_agent,
           In (expert_name, expert_agent)
              (PrincipalAgent._determine_required_experts self request_data) ->
           exists entry,
             dict_get expert_results expert_name = Some entry
             /\ successful_entry expert_agent entry)
    /\ dict_get final_response "synthesis"
       = Some (VDict
                 (uniform_synthesis false
                    (List.length
                       (PrincipalAgent._determine_required_experts self
                          request_data)))).
Proof.
  intros Hinit Hregistry Hacc.
  destruct (process_outcome py clock self request_data Hinit)
    as (final_response & Hp & _ & _ & Hresults & Hsynthesis & _).
  assert (Hnd : NoDup (keys (PrincipalAgent._determine_required_experts
                               self request_data)))
    by (apply required_experts_NoDup, Hregistry).
  rewrite delegate_results in Hresults, Hsynthesis by exact Hnd.
  cbn [app] in Hresults, Hsynthesis.
  exists final_response,
    (entries_for py clock request_data
       (PrincipalAgent._determine_required_experts self request_data)).
  split; [exact Hp|]. split; [exact Hresults|].
  split; [apply keys_entries_for|]. split.
  - intros expert_name expert_agent Hin.
    exists (entry_for py clock request_data expert_name expert_agent). split.
    + apply dict_get_In; [rewrite keys_entries_for; exact Hnd|].
      unfold entries_for.
      change (expert_name,
              entry_for py clock request_data expert_name expert_agent)
        with ((fun na : string * ExpertAgent =>
                 (fst na, entry_for py clock request_data (fst na) (snd na)))
                (expert_name, expert_agent)).
      apply in_map, Hin.
    + apply entry_when_accepted, (Hacc expert_name), Hin.
  - rewrite Hsynthesis. do 2 f_equal.
    rewrite synthesis_uniform with (b := false).
    + rewrite length_entries_for. reflexivity.
    + rewrite values_entries_for. apply Forall_forall.
      intros r Hr. apply in_map_iff in Hr. destruct Hr as ([n a] & <- & Hna).
      destruct (@entry_when_accepted py clock request_data n a
                  (Hacc n a Hna))
        as (d & Hd & He & Hm & _).
      cbn [fst snd]. exists d. split; [exact Hd|]. split; [exact He|].
      intros _. exact Hm.
Qed.

(** X14.  For every request handled by an initialized orchestrator whose
    lower-cased type contains one of the override tokens, every selected
    expert accepts: each entry of [expert_results] is the expert's own
    result, without an "error" key and with its quality report, and the
    synthesis counts no failed expert. *)
Theorem override_types_reach_every_expert
        (py : Builtins) (clock : Clock) (self : PrincipalAgent)
        (request_data : Request)
        (Hinit : is_initialized self = true)
        (Hregistry : NoDup (keys (expert_agents self)))
        (Hoverride : any_in multi_domain_keywords (lowered_type request_data)
                     = true) :
  exists final_response expert_results,
    snd (PrincipalAgent.process py clock self request_data) = Ok final_response
    /\ dict_get final_response "expert_results" = Some (VDict expert_results)
    /\ keys expert_results
       = keys (PrincipalAgent._determine_required_experts self request_data)
    /\ (forall expert_name expert_agent,
           In (expert_name, expert_agent)
              (PrincipalAgent._determine_required_experts self request_data) ->
           exists entry,
             dict_get expert_results expert_name = Some entry
             /\ successful_entry expert_agent entry)
    /\ dict_get final_response "synthesis"
       = Some (VDict
                 (uniform_synthesis false
                    (List.length
                       (PrincipalAgent._determine_required_experts self
                          request_data)))).
Proof.
  apply all_accept_outcome; [exact Hinit | exact Hregistry |].
  intros expert_name expert_agent _.
  apply accepted_by_every_expert, Hoverride.
Qed.

Lemma override_types_reach_every_expert_witness :
  exists final_response,
    snd (PrincipalAgent.process py0 clock0 standard_principal general_request)
    = Ok final_response
    /\ dict_get final_response "synthesis"
       = Some (VDict (uniform_synthesis false 3)).
Proof.
  assert (Hinit : is_initialized standard_principal = true) by reflexivity.
  assert (Hregistry : NoDup (keys (expert_agents standard_principal))).
  { repeat constructor; simpl; intuition discriminate. }
  destruct (@override_types_reach_every_expert py0 clock0 standard_principal
              general_request Hinit Hregistry eq_refl)
    as (final_response & expert_results & Hp & _ & _ & _ & Hs).
  exists final_response. split; [exact Hp | exact Hs].
Defined.

(** * The response store *)

Lemma not_blank (content : string) :
  strip content <> "" -> String.eqb (strip content) "" = false.
Proof. intros H. apply String.eqb_neq, H. Qed.

Lemma read_existing_text (json : Json) (content : string) :
  strip content <> "" ->
  FileStreamerClass.read_existing json (Some content) = loads json content.
Proof.
  intros H. unfold FileStreamerClass.read_existing.
  rewrite (@not_blank content H). reflexivity.
Qed.

Lemma get_responses_text (json : Json) (content : string) (limit : Z) :
  strip content <> "" ->
  FileStreamerClass.get_responses json (Some content) limit
  = match (responses <- loads json content ;;
           py_slice_from responses (- limit)) with
    | Ok responses => responses
    | Raise _ => VList []
    end.
Proof.
  intros H. unfold FileStreamerClass.get_responses.
  rewrite (@not_blank content H). reflexivity.
Qed.

Lemma get_responses_blank (json : Json) (content : string) (limit : Z) :
  strip content = "" ->
  FileStreamerClass.get_responses json (Some content) limit = VList [].
Proof.
  intros H. unfold FileStreamerClass.get_responses. rewrite H. reflexivity.
Qed.

(** X15.  For every store whose text parses to a list, [get_responses]
    returns a suffix of that list: the last [limit] entries (all of them
    when fewer are stored) for a positive [limit], the whole list for [limit
    = 0], and the list without its first [-limit] entries for a negative
    [limit]. *)
Theorem get_responses_returns_recent_suffix
        (json : Json) (content : string) (xs : list value) (limit : Z)
        (Hcontent : strip content <> "")
        (Hloads : loads json content = Ok (VList xs)) :
  exists older recent,
    FileStreamerClass.get_responses json (Some content) limit = VList recent
    /\ xs = (older ++ recent)%list
    /\ ((0 < limit)%Z ->
        List.length recent = Nat.min (Z.to_nat limit) (List.length xs))
    /\ (limit = 0%Z -> recent = xs)
    /\ ((limit < 0)%Z ->
        List.length older = Nat.min (Z.to_nat (- limit)) (List.length xs)).
Proof.
  rewrite (@get_responses_text json content limit Hcontent), Hloads.
  cbn [bind py_slice_from].
  exists (firstn (slice_start (List.length xs) (- limit)) xs),
    (skipn (slice_start (List.length xs) (- limit)) xs).
  split; [reflexivity|]. split; [symmetry; apply firstn_skipn|].
  unfold slice_start. split; [|split].
  - intros H. rewrite length_skipn.
    destruct (Z.ltb_spec (- limit) 0); lia.
  - intros ->. reflexivity.
  - intros H. rewrite length_firstn.
    destruct (Z.ltb_spec (- limit) 0); lia.
Qed.

Definition stamped_entry : dict :=
  [("request_id", VStr "r-1"); ("timestamp", VStr "t1")].

(** A serializer that knows one document. *)
Definition one_document : Json :=
  mkJson
    (fun content =>
       if String.eqb content "[entry]" then Ok (VList [VDict stamped_entry])
       else Raise (ValueError "Expecting value"))
    (fun _ => Ok "[entry]").

Lemma get_responses_returns_recent_suffix_witness :
  exists older recent,
    FileStreamerClass.get_responses one_document (Some "[entry]") 5
    = VList recent
    /\ [VDict stamped_entry] = (older ++ recent)%list.
Proof.
  assert (Hcontent : strip "[entry]" <> "") by (vm_compute; discriminate).
  destruct (@get_responses_returns_recent_suffix one_document "[entry]"
              [VDict stamped_entry] 5 Hcontent eq_refl)
    as (older & recent & H1 & H2 & _).
  exists older, recent. split; [exact H1 | exact H2].
Defined.

(** X16.  [get_responses] answers with something other than the empty list
    only when the file exists, holds text that is not blank, and that text
    parses to a non-empty list or to a string: a missing, blank, unparsable
    or otherwise shaped store reads as empty. *)
Theorem get_responses_answers_only_from_a_sequence
        (json : Json) (file : File) (limit : Z)
        (Hanswer : FileStreamerClass.get_responses json file limit <> VList []) :
  exists content,
    file = Some content
    /\ strip content <> ""
    /\ ((exists xs, loads json content = Ok (VList xs) /\ xs <> [])
        \/ (exists s, loads json content = Ok (VStr s))).
Proof.
  destruct file as [content|];
    [|exfalso; apply Hanswer; reflexivity].
  exists content. split; [reflexivity|].
  destruct (String.eqb (strip content) "") eqn:E.
  - exfalso. apply Hanswer. apply get_responses_blank.
    apply String.eqb_eq, E.
  - apply String.eqb_neq in E. split; [exact E|].
    rewrite (@get_responses_text json content limit E) in Hanswer.
    destruct (loads json content) as [v|e];
      [|exfalso; apply Hanswer; reflexivity].
    destruct v; cbn [bind py_slice_from] in Hanswer;
      try (exfalso; apply Hanswer; reflexivity).
    + right. eexists. reflexivity.
    + left. eexists. split; [reflexivity|]. intros ->.
      apply Hanswer. destruct (slice_start _ _); reflexivity.
Qed.

Lemma get_responses_answers_only_from_a_sequence_witness :
  exists content,
    Some "[entry]" = Some content /\ strip content <> "".
Proof.
  assert (Hanswer : FileStreamerClass.get_responses one_document
                      (Some "[entry]") 5 <> VList [])
    by (vm_compute; discriminate).
  destruct (@get_responses_answers_only_from_a_sequence one_document
              (Some "[entry]") 5 Hanswer) as (content & H1 & H2 & _).
  exists content. split; [exact H1 | exact H2].
Defined.

(** X17.  When the stored text parses to a list and the serializer returns
    the extended list's text and reads it back, [write_response] succeeds,
    the written entry carries the write's own timestamp whatever the caller
    had put there, the store grows by exactly that entry, and reading with
    [limit = 1] returns it. *)
Theorem write_then_read_round_trip
        (json : Json) (now : string) (file : File) (response_data : dict)
        (xs : list value) (text : string)
        (Hstore : FileStreamerClass.read_existing json file = Ok (VList xs))
        (Hdumps :
           dumps json
             (VList (xs ++ [VDict (dict_set response_data "timestamp"
                                     (VStr now))])%list) = Ok text)
        (Hloads :
           loads json text
           = Ok (VList (xs ++ [VDict (dict_set response_data "timestamp"
                                        (VStr now))])%list))
        (Htext : strip text <> "") :
  exists written,
    FileStreamerClass.write_response json now file response_data
    = (Some text, written, true)
    /\ dict_get written "timestamp" = Some (VStr now)
    /\ (forall k, k <> "timestamp" ->
                  dict_get written k = dict_get response_data k)
    /\ FileStreamerClass.read_existing json (Some text)
       = Ok (VList (xs ++ [VDict written])%list)
    /\ FileStreamerClass.get_responses json (Some text) 1
       = VList [VDict written]
    /\ FileStreamerClass.get_responses json (Some text) 0
       = VList (xs ++ [VDict written])%list.
Proof.
  exists (dict_set response_data "timestamp" (VStr now)).
  split; [|split; [|split; [|split; [|split]]]].
  - unfold FileStreamerClass.write_response. cbv zeta.
    rewrite Hstore. cbn [bind py_append]. rewrite Hdumps. reflexivity.
  - rewrite dict_get_set, String.eqb_refl. reflexivity.
  - intros k Hk. rewrite dict_get_set.
    destruct (String.eqb "timestamp" k) eqn:E; [|reflexivity].
    apply String.eqb_eq in E. exfalso. apply Hk. symmetry. exact E.
  - rewrite (@read_existing_text json text Htext). exact Hloads.
  - rewrite (@get_responses_text json text 1 Htext), Hloads.
    cbn [bind py_slice_from]. f_equal. unfold slice_start.
    rewrite length_app. cbn [List.length Z.opp Z.ltb Z.compare].
    replace (Z.to_nat (Z.max (Z.of_nat (List.length xs + 1) + -1) 0))
      with (List.length xs + 0)%nat by lia.
    rewrite skipn_app, skipn_all2 by lia.
    replace (List.length xs + 0 - List.length xs)%nat with 0%nat by lia.
    reflexivity.
  - rewrite (@get_responses_text json text 0 Htext), Hloads.
    cbn [bind py_slice_from]. reflexivity.
Qed.

Lemma write_then_read_round_trip_witness :
  exists written,
    FileStreamerClass.write_response one_document "t1" None
      [("request_id", VStr "r-1"); ("timestamp", VStr "t0")]
    = (Some "[entry]", written, true)
    /\ dict_get written "timestamp" = Some (VStr "t1").
Proof.
  assert (Htext : strip "[entry]" <> "") by (vm_compute; discriminate).
  destruct (@write_then_read_round_trip one_document "t1" None
              [("request_id", VStr "r-1"); ("timestamp", VStr "t0")]
              [] "[entry]" eq_refl eq_refl eq_refl Htext)
    as (written & H1 & H2 & _).
  exists written. split; [exact H1 | exact H2].
Defined.

(** A series of writes, each with its own timestamp. *)
Fixpoint write_all (json : Json) (file : File) (batch : list (string * dict))
  : File * list bool :=
  match batch with
  | [] => (file, [])
  | (now, response_data) :: rest =>
      let '(file', _, ok) :=
        FileStreamerClass.write_response json now file response_data in
      let '(file'', oks) := write_all json file' rest in
      (file'', ok :: oks)
  end.

(** X18.  A store whose text is ASCII, not blank, and does not parse to a
    list is never repaired: every later write fails and leaves the file as
    it is, and the store keeps reading as it did before. *)
Theorem unusable_store_rejects_every_write
        (json : Json) (content : string) (batch : list (string * dict))
        (Hascii : ascii_text content = true)
        (Hcontent : strip content <> "")
        (Hshape : forall xs, loads json content <> Ok (VList xs)) :
  fst (write_all json (Some content) batch) = Some content
  /\ snd (write_all json (Some content) batch)
     = repeat false (List.length batch).
Proof.
  clear Hascii.
  induction batch as [|[now response_data] rest [IHfile IHoks]].
  - split; reflexivity.
  - cbn [write_all]. unfold FileStreamerClass.write_response. cbv zeta.
    rewrite (@read_existing_text json content Hcontent).
    assert (Hfail : exists e,
               (existing_data <- loads json content ;;
                py_append existing_data
                  (VDict (dict_set response_data "timestamp" (VStr now))))
               = Raise e).
    { destruct (loads json content) as [v|e] eqn:E; [|eexists; reflexivity].
      destruct v; cbn [bind py_append]; try (eexists; reflexivity).
      exfalso. apply (Hshape l). reflexivity. }
    destruct Hfail as [e ->].
    destruct (write_all json (Some content) rest) as [file'' oks].
    cbn [fst snd] in *. subst. split; reflexivity.
Qed.

Lemma unusable_store_rejects_every_write_witness :
  fst (write_all one_document (Some "{}")
         [("t1", stamped_entry); ("t2", stamped_entry)]) = Some "{}".
Proof.
  assert (Hcontent : strip "{}" <> "") by (vm_compute; discriminate).
  assert (Hshape : forall xs, loads one_document "{}" <> Ok (VList xs))
    by (intros xs; vm_compute; discriminate).
  apply (@unusable_store_rejects_every_write one_document "{}"
           [("t1", stamped_entry); ("t2", stamped_entry)] eq_refl Hcontent
           Hshape).
Defined.

(** A serializer that refuses every document. *)
Definition refusing_json : Json :=
  mkJson
    (fun _ => Ok (VList [VDict stamped_entry]))
    (fun _ => Raise (TypeError "keys must be str, int, float, bool or None")).

(** X19.  When the stored text parses to a list but the extended list cannot
    be serialized, [write_response] reports failure after the file has been
    opened for writing: the file is left empty, so the responses stored
    before are gone and the store reads as empty from then on. *)
Theorem failed_serialization_empties_store
        (json : Json) (now : string) (file : File) (response_data : dict)
        (xs : list value) (e : exn)
        (Hstore : FileStreamerClass.read_existing json file = Ok (VList xs))
        (Hdumps :
           dumps json
             (VList (xs ++ [VDict (dict_set response_data "timestamp"
                                     (VStr now))])%list) = Raise e) :
  FileStreamerClass.write_response json now file response_data
  = (Some "", dict_set response_data "timestamp" (VStr now), false)
  /\ (forall limit,
         FileStreamerClass.get_responses json (Some "") limit = VList [])
  /\ FileStreamerClass.read_existing json (Some "") = Ok (VList []).
Proof.
  split; [|split].
  - unfold FileStreamerClass.write_response. cbv zeta.
    rewrite Hstore. cbn [bind py_append]. rewrite Hdumps. reflexivity.
  - intros limit. reflexivity.
  - reflexivity.
Qed.

Lemma failed_serialization_empties_store_witness :
  FileStreamerClass.write_response refusing_json "t2" (Some "[entry]")
    [("request_id", VStr "r-2")]
  = (Some "",
     [("request_id", VStr "r-2"); ("timestamp", VStr "t2")], false).
Proof.
  apply (@failed_serialization_empties_store refusing_json "t2"
           (Some "[entry]") [("request_id", VStr "r-2")]
           [VDict stamped_entry]
           (TypeError "keys must be str, int, float, bool or None")
           eq_refl eq_refl).
Defined.

(** * Start-up, shutdown and the background task *)

Lemma initialize_outcome (env : Startup) (self : PrincipalAgent) :
  (exists e, assistant_agent env = Raise e
             /\ PrincipalAgent.initialize env self = (self, Raise e))
  \/ (assistant_agent env = Ok tt
      /\ snd (PrincipalAgent.initialize env self) = Ok tt
      /\ is_initialized (fst (PrincipalAgent.initialize env self)) = true
      /\ workflow_history (fst (PrincipalAgent.initialize env self))
         = workflow_history self
      /\ file_streamer (fst (PrincipalAgent.initialize env self))
         = file_streamer self
      /\ publication_queue (fst (PrincipalAgent.initialize env self))
         = publication_queue self).
Proof.
  unfold PrincipalAgent.initialize.
  destruct (assistant_agent env) as [[]|e].
  - right. repeat split.
  - left. exists e. split; reflexivity.
Qed.

Lemma initialize_registry (env : Startup) (self : PrincipalAgent) :
  assistant_agent env = Ok tt ->
  NoDup (keys (expert_agents (fst (PrincipalAgent.initialize env self))))
  /\ (forall expert_name expert_agent,
         In (expert_name, expert_agent)
            (expert_agents (fst (PrincipalAgent.initialize env self)))
         <-> exists k, expert_constructed env k = true
                       /\ expert_name = registry_key k
                       /\ expert_agent = BaseExpertAgent.new k)
  /\ (forall k, expert_constructed env k = true ->
                dict_get (expert_agents (fst (PrincipalAgent.initialize env self)))
                  (registry_key k) = Some (BaseExpertAgent.new k)).
Proof.
  intros Ha. unfold PrincipalAgent.initialize. rewrite Ha.
  cbv zeta. cbn [fst expert_agents flat_map snd app].
  destruct (expert_constructed env Financial) eqn:Ef;
    destruct (expert_constructed env Utility) eqn:Eu;
    destruct (expert_constructed env Vehicle) eqn:Ev;
    cbn [fst snd app keys map].
  all: split; [repeat constructor; simpl; intuition discriminate|].
  all: split.
  all: try (intros [| |] Hk; try reflexivity; congruence).
  all: intros expert_name expert_agent; split.
  all: try (intros (k & Hk & -> & ->); destruct k; simpl; try congruence;
            tauto).
  all: simpl; intros Hin;
    repeat match goal with
           | H : _ \/ _ |- _ => destruct H
           | H : False |- _ => destruct H
           | H : (_, _) = (_, _) |- _ => injection H as <- <-
           end.
  all: first [ exists Financial; repeat split; assumption
             | exists Utility; repeat split; assumption
             | exists Vehicle; repeat split; assumption ].
Qed.

(** X20.  Start-up succeeds exactly when the orchestrator's assistant can be
    built and at least one of the three expert classes can be constructed. *)
Theorem startup_succeeds_iff (env : Startup) (service : Routes.Service) :
  snd (Routes.startup_event env service) = Ok tt
  <-> (assistant_agent env = Ok tt
       /\ exists k, expert_constructed env k = true).
Proof.
  unfold Routes.startup_event, PrincipalAgent.initialize.
  destruct (assistant_agent env) as [[]|e].
  - cbv zeta. cbn [is_initialized negb expert_agents flat_map snd fst app].
    destruct (expert_constructed env Financial) eqn:Ef;
      destruct (expert_constructed env Utility) eqn:Eu;
      destruct (expert_constructed env Vehicle) eqn:Ev;
      cbn [snd fst app]; split;
      try discriminate;
      try (intros _; split; [reflexivity|]);
      try (intros _; reflexivity);
      try (first [ exists Financial; assumption
                 | exists Utility; assumption
                 | exists Vehicle; assumption ]).
    intros [_ [[| |] Hk]]; congruence.
  - cbn [snd]. split; [discriminate|]. intros [H _]. discriminate H.
Qed.

(** All three expert classes available. *)
Definition full_startup : Startup := mkStartup (Ok tt) (fun _ => true).

(** X21.  When [initialize] returns, the orchestrator is initialized; its
    registry holds, under "financial", "utility" and "vehicle" and without
    duplicate names, exactly the experts whose class could be constructed,
    each one new (so an earlier registry and its statistics are replaced);
    history, sink and queue are kept; and any request processed next gets a
    completed response. *)
Theorem initialize_establishes_registry
        (env : Startup) (self : PrincipalAgent)
        (Hstart : snd (PrincipalAgent.initialize env self) = Ok tt) :
  let after := fst (PrincipalAgent.initialize env self) in
  is_initialized after = true
  /\ NoDup (keys (expert_agents after))
  /\ (forall expert_name expert_agent,
         In (expert_name, expert_agent) (expert_agents after)
         <-> exists k, expert_constructed env k = true
                       /\ expert_name = registry_key k
                       /\ expert_agent = BaseExpertAgent.new k)
  /\ (forall k, expert_constructed env k = true ->
                dict_get (expert_agents after) (registry_key k)
                = Some (BaseExpertAgent.new k))
  /\ workflow_history after = workflow_history self
  /\ file_streamer after = file_streamer self
  /\ publication_queue after = publication_queue self
  /\ (forall py clock request_data,
         exists final_response,
           snd (PrincipalAgent.process py clock after request_data)
           = Ok final_response
           /\ dict_get final_response "status" = Some (VStr "completed")).
Proof.
  cbv zeta.
  destruct (initialize_outcome env self)
    as [(e & _ & He)|(Ha & _ & Hinit & Hh & Hs & Hq)].
  - rewrite He in Hstart. discriminate Hstart.
  - destruct (@initialize_registry env self Ha) as (Hnd & Hin & Hget).
    split; [exact Hinit|]. split; [exact Hnd|]. split; [exact Hin|].
    split; [exact Hget|]. split; [exact Hh|]. split; [exact Hs|].
    split; [exact Hq|]. intros py clock request_data.
    destruct (@process_outcome py clock _ request_data Hinit)
      as (final_response & Hp & _ & Hstatus & _).
    exists final_response. split; [exact Hp | exact Hstatus].
Qed.

Lemma initialize_establishes_registry_witness :
  keys (expert_agents
          (fst (PrincipalAgent.initialize full_startup PrincipalAgent.new)))
  = ["financial"; "utility"; "vehicle"]
  /\ is_initialized
       (fst (PrincipalAgent.initialize full_startup PrincipalAgent.new))
     = true.
Proof.
  split; [reflexivity|].
  apply (@initialize_establishes_registry full_startup PrincipalAgent.new
           eq_refl).
Defined.

Lemma process_step (py : Builtins) (clock : Clock) (self : PrincipalAgent)
      (rq : Request) :
  is_initialized self = true ->
  exists final_response entry,
    snd (PrincipalAgent.process py clock self rq) = Ok final_response
    /\ dict_get final_response "processing_time"
       = Some (VFloat (principal_processing_time clock))
    /\ dict_get final_response "status" = Some (VStr "completed")
    /\ dict_get final_response "approved_for_publication" = Some (VBool false)
    /\ is_initialized (fst (PrincipalAgent.process py clock self rq)) = true
    /\ file_streamer (fst (PrincipalAgent.process py clock self rq))
       = file_streamer self
    /\ publication_queue (fst (PrincipalAgent.process py clock self rq))
       = publication_queue self
    /\ keys (expert_agents (fst (PrincipalAgent.process py clock self rq)))
       = keys (expert_agents self)
    /\ workflow_history (fst (PrincipalAgent.process py clock self rq))
       = (workflow_history self ++ [entry])%list
    /\ dict_get entry "approved" = Some (VBool false).
Proof.
  intros Hinit.
  pose proof (delegate_registry py clock rq
                (PrincipalAgent._determine_required_experts self rq)
                (expert_agents self) []
                (required_experts_registered self rq))
    as [Hkeys _].
  unfold PrincipalAgent.process, PrincipalAgent.conclude. rewrite Hinit.
  cbn [negb]. cbv iota.
  destruct (PrincipalAgent.delegate py clock
              (PrincipalAgent._determine_required_experts self rq)
              rq (expert_agents self) [])
    as [agents expert_results].
  cbn [fst] in Hkeys.
  destruct (synthesis_is_bare rq expert_results) as [H1 H2].
  destruct (principal_evaluation_bare py (principal_utcnow clock) _ rq H1 H2)
    as (report & -> & _ & _ & _ & Happroved).
  cbv zeta. rewrite Happroved.
  cbn [fst snd is_initialized file_streamer publication_queue expert_agents
       workflow_history].
  eexists. eexists. split; [reflexivity|]. repeat split. exact Hkeys.
Qed.

(** The orchestrator the background task works with: the one it finds, or
    the one [initialize] returns when it finds it not initialized. *)
Definition prepared (env : Startup) (principal : PrincipalAgent)
  : PrincipalAgent :=
  if negb (is_initialized principal)
  then fst (PrincipalAgent.initialize env principal)
  else principal.

Lemma prepared_ready (env : Startup) (principal : PrincipalAgent) :
  is_initialized principal = true \/ assistant_agent env = Ok tt ->
  (if negb (is_initialized principal)
   then PrincipalAgent.initialize env principal
   else (principal, Ok tt))
  = (prepared env principal, Ok tt)
  /\ is_initialized (prepared env principal) = true.
Proof.
  intros H. unfold prepared.
  destruct (is_initialized principal) eqn:E; cbn [negb].
  - split; [reflexivity | exact E].
  - destruct H as [H|H]; [discriminate H|].
    destruct (initialize_outcome env principal)
      as [(e & He & _)|(_ & Hs & Hi & _)].
    + rewrite H in He. discriminate He.
    + split; [|exact Hi].
      destruct (PrincipalAgent.initialize env principal) as [p [[]|e]];
        [reflexivity | discriminate Hs].
Qed.

(** X22.  For every request that carries its id, user id and type, handled
    by an orchestrator that is initialized or can be initialized, the
    background task does not raise, leaves the orchestrator initialized, and
    hands the store exactly one record, with status "completed", the
    orchestrator's final response as its result and that response's
    processing time: no "error" record is written, even when every expert
    refused and although the final response is never approved for
    publication. *)
Theorem background_task_records_completion
        (py : Builtins) (clock : Clock) (env : Startup) (json : Json)
        (times : Routes.Timestamps) (service : Routes.Service)
        (request_data : Request) (processing_id rid uid rtype : string)
        (Hrid : request_id request_data = Some rid)
        (Huid : user_id request_data = Some uid)
        (Hrtype : request_type request_data = Some rtype)
        (Hready : is_initialized (Routes.principal_agent service) = true
                  \/ assistant_agent env = Ok tt) :
  exists final_response,
    snd (PrincipalAgent.process py clock
           (prepared env (Routes.principal_agent service)) request_data)
    = Ok final_response
    /\ dict_get final_response "status" = Some (VStr "completed")
    /\ dict_get final_response "approved_for_publication" = Some (VBool false)
    /\ Routes.process_request_async py clock env json times service
         request_data processing_id
       = (Routes.mkService
            (fst (PrincipalAgent.process py clock
                    (prepared env (Routes.principal_agent service))
                    request_data))
            (fst (fst (FileStreamerClass.write_response json
                         (Routes.written_at times)
                         (Routes.responses_file service)
                         [ ("processing_id", VStr processing_id);
                           ("request_id", VStr rid);
                           ("user_id", VStr uid);
                           ("request_type", VStr rtype);
                           ("status", VStr "completed");
                           ("result", VDict final_response);
                           ("processing_time",
                             VFloat (principal_processing_time clock));
                           ("timestamp",
                             VStr (Routes.completed_at times)) ]))),
          Ok tt)
    /\ is_initialized
         (fst (PrincipalAgent.process py clock
                 (prepared env (Routes.principal_agent service))
                 request_data)) = true.
Proof.
  destruct (@prepared_ready env (Routes.principal_agent service) Hready)
    as [Hprep Hinit].
  destruct (@process_step py clock _ request_data Hinit)
    as (final_response & entry & Hp & Htime & Hstatus & Happroved & Hinit'
        & _).
  exists final_response. split; [exact Hp|]. split; [exact Hstatus|].
  split; [exact Happroved|]. split; [|exact Hinit'].
  unfold Routes.process_request_async, Routes.attempt,
    PrincipalAgent.process_request.
  rewrite Hrid, Huid, Hrtype. cbn [Routes.required_field].
  rewrite Hprep.
  destruct (PrincipalAgent.process py clock
              (prepared env (Routes.principal_agent service)) request_data)
    as [principal outcome].
  cbn [snd fst] in *. subst outcome. cbn [bind].
  unfold get_default. rewrite Htime.
  destruct (FileStreamerClass.write_response json (Routes.written_at times)
              (Routes.responses_file service) _) as [[file written] ok].
  reflexivity.
Qed.

Definition clock_times : Routes.Timestamps := Routes.mkTimestamps "t0" "t0" "t1".

Definition new_service : Routes.Service :=
  Routes.mkService PrincipalAgent.new None.

Lemma background_task_records_completion_witness :
  snd (Routes.process_request_async py0 clock0 full_startup one_document
         clock_times new_service budget_request "p-1") = Ok tt.
Proof.
  destruct (@background_task_records_completion py0 clock0 full_startup
              one_document clock_times new_service budget_request "p-1"
              "r-1" "u-1" "financial_health" eq_refl eq_refl eq_refl
              (or_intror eq_refl))
    as (final_response & _ & _ & _ & H & _).
  rewrite H. reflexivity.
Defined.

(** X23.  For every request that carries its id, user id and type, found by
    a background task whose orchestrator is not initialized and cannot be
    initialized, the task does not raise either: it leaves the orchestrator
    as it was and hands the store one record with status "error" and the
    text of the start-up exception. *)
Theorem background_task_records_startup_failure
        (py : Builtins) (clock : Clock) (env : Startup) (json : Json)
        (times : Routes.Timestamps) (service : Routes.Service)
        (request_data : Request) (processing_id rid uid rtype : string)
        (e : exn)
        (Hrid : request_id request_data = Some rid)
        (Huid : user_id request_data = Some uid)
        (Hrtype : request_type request_data = Some rtype)
        (Hcold : is_initialized (Routes.principal_agent service) = false)
        (Hfail : assistant_agent env = Raise e) :
  Routes.process_request_async py clock env json times service request_data
    processing_id
  = (Routes.mkService (Routes.principal_agent service)
       (fst (fst (FileStreamerClass.write_response json
                    (Routes.written_at times) (Routes.responses_file service)
                    [ ("processing_id", VStr processing_id);
                      ("request_id", VStr rid);
                      ("user_id", VStr uid);
                      ("request_type", VStr rtype);
                      ("status", VStr "error");
                      ("error", VStr (str_exn e));
                      ("timestamp", VStr (Routes.failed_at times)) ]))),
     Ok tt).
Proof.
  unfold Routes.process_request_async, Routes.attempt,
    PrincipalAgent.initialize.
  rewrite Hrid, Huid, Hrtype, Hcold, Hfail.
  cbn [Routes.required_field negb bind].
  destruct (FileStreamerClass.write_response json (Routes.written_at times)
              (Routes.responses_file service) _) as [[file written] ok].
  reflexivity.
Qed.

Definition failing_startup : Startup :=
  mkStartup (Raise (RuntimeError "no model configured")) (fun _ => true).

Lemma background_task_records_startup_failure_witness :
  snd (Routes.process_request_async py0 clock0 failing_startup one_document
         clock_times new_service budget_request "p-1") = Ok tt.
Proof.
  rewrite (@background_task_records_startup_failure py0 clock0
             failing_startup one_document clock_times new_service
             budget_request "p-1" "r-1" "u-1" "financial_health"
             (RuntimeError "no model configured")
             eq_refl eq_refl eq_refl eq_refl eq_refl).
  reflexivity.
Defined.

(** X24.  After [cleanup] the orchestrator refuses every request with the
    not-initialized error and changes nothing, while its registry, history
    and queue are still those it had; a later successful [initialize] does
    not bring the old experts back: every expert it registers has the
    statistics of a new one. *)
Theorem cleanup_stops_processing
        (py : Builtins) (clock : Clock) (env : Startup)
        (self : PrincipalAgent) (request_data : Request) :
  PrincipalAgent.process py clock (PrincipalAgent.cleanup self) request_data
  = (PrincipalAgent.cleanup self, Raise not_initialized)
  /\ expert_agents (PrincipalAgent.cleanup self) = expert_agents self
  /\ workflow_history (PrincipalAgent.cleanup self) = workflow_history self
  /\ publication_queue (PrincipalAgent.cleanup self) = publication_queue self
  /\ (assistant_agent env = Ok tt ->
      forall expert_name expert_agent,
        In (expert_name, expert_agent)
           (expert_agents
              (fst (PrincipalAgent.initialize env
                      (PrincipalAgent.cleanup self)))) ->
        processing_stats expert_agent = mkProcessingStats 0 0 0 0.0 []).
Proof.
  split; [reflexivity|]. split; [reflexivity|]. split; [reflexivity|].
  split; [reflexivity|]. intros Ha expert_name expert_agent Hin.
  destruct (@initialize_registry env (PrincipalAgent.cleanup self) Ha)
    as (_ & Hreg & _).
  apply Hreg in Hin. destruct Hin as (k & _ & _ & ->). reflexivity.
Qed.

(** * The responses route *)

Lemma length_skip_chars (n : nat) (s : string) :
  String.length (skip_chars n s) = (String.length s - n)%nat.
Proof.
  revert s. induction n as [|n IH]; intros s.
  - simpl. lia.
  - destruct s as [|c s]; simpl; [reflexivity | apply IH].
Qed.

Lemma slice_start_window (len : nat) (limit : Z) :
  (0 < limit)%Z ->
  (Z.of_nat (len - slice_start len (- limit)) <= limit)%Z.
Proof.
  intros H. unfold slice_start. destruct (Z.ltb_spec (- limit) 0); lia.
Qed.

(** X25.  The responses route never fails, whatever the file holds: it
    returns the store's answer with its length as "count", and for a
    positive [limit] that count is at most [limit]. *)
Theorem responses_route_never_fails
        (json : Json) (service : Routes.Service) (limit : Z) :
  exists responses n,
    Routes.get_responses json service limit
    = Ok [("responses", responses); ("count", VInt (Z.of_nat n))]
    /\ responses
       = FileStreamerClass.get_responses json (Routes.responses_file service)
           limit
    /\ py_len responses = Ok n
    /\ ((0 < limit)%Z -> (Z.of_nat n <= limit)%Z).
Proof.
  unfold Routes.get_responses. cbv zeta.
  assert (H : exists n,
             py_len (FileStreamerClass.get_responses json
                       (Routes.responses_file service) limit) = Ok n
             /\ ((0 < limit)%Z -> (Z.of_nat n <= limit)%Z)).
  { unfold FileStreamerClass.get_responses.
    destruct (Routes.responses_file service) as [content|];
      [|exists 0%nat; split; [reflexivity | simpl; lia]].
    destruct (negb (negb (String.eqb (strip content) "")));
      [exists 0%nat; split; [reflexivity | simpl; lia]|].
    destruct (loads json content) as [v|e];
      [|exists 0%nat; split; [reflexivity | simpl; lia]].
    destruct v; cbn [bind py_slice_from];
      try (exists 0%nat; split; [reflexivity | simpl; lia]).
    - eexists. split; [reflexivity|]. intros Hl.
      rewrite length_skip_chars. apply slice_start_window, Hl.
    - eexists. split; [reflexivity|]. intros Hl.
      rewrite length_skipn. apply slice_start_window, Hl. }
  destruct H as (n & Hn & Hle).
  eexists. exists n. rewrite Hn. cbn [bind].
  split; [reflexivity|]. split; [reflexivity|]. split; [exact Hn | exact Hle].
Qed.

(** * Status after a run of requests *)

(** A run of requests handled one after the other, each with its own
    clock readings. *)
Fixpoint process_all (py : Builtins) (self : PrincipalAgent)
         (batch : list (Clock * Request)) : PrincipalAgent :=
  match batch with
  | [] => self
  | (clock, request_data) :: rest =>
      process_all py (fst (PrincipalAgent.process py clock self request_data))
        rest
  end.

Lemma recent_workflows_window (self : PrincipalAgent) :
  List.length (PrincipalAgent.recent_workflows self)
  = Nat.min 5 (PrincipalAgent.workflow_history_count self)
  /\ exists older,
       workflow_history self
       = (older ++ PrincipalAgent.recent_workflows self)%list.
Proof.
  unfold PrincipalAgent.recent_workflows, PrincipalAgent.workflow_history_count.
  destruct (workflow_history self) as [|w ws] eqn:E.
  - split; [reflexivity | exists []; reflexivity].
  - rewrite <- E. split.
    + rewrite length_skipn. unfold slice_start.
      change (-5 <? 0)%Z with true. cbv iota. lia.
    + eexists. symmetry. apply firstn_skipn.
Qed.

(** X26.  Whatever requests an initialized orchestrator has handled, its
    status reports an empty publication queue if it started with one
    (nothing is ever queued), a history count that grew by the number of
    requests, and as recent workflows the last five history entries (all of
    them when there are fewer); every entry the run added records that its
    result was not approved; and the registered names are unchanged. *)
Theorem status_after_any_run
        (py : Builtins) (self : PrincipalAgent) (batch : list (Clock * Request))
        (Hinit : is_initialized self = true) :
  let after := process_all py self batch in
  is_initialized after = true
  /\ PrincipalAgent.publication_queue_size after
     = PrincipalAgent.publication_queue_size self
  /\ PrincipalAgent.workflow_history_count after
     = (PrincipalAgent.workflow_history_count self + List.length batch)%nat
  /\ List.length (PrincipalAgent.recent_workflows after)
     = Nat.min 5 (PrincipalAgent.workflow_history_count after)
  /\ (exists older,
         workflow_history after
         = (older ++ PrincipalAgent.recent_workflows after)%list)
  /\ (exists added,
         workflow_history after = (workflow_history self ++ added)%list
         /\ Forall (fun entry => dict_get entry "approved" = Some (VBool false))
                   added)
  /\ keys (expert_agents after) = keys (expert_agents self).
Proof.
  cbv zeta.
  assert (H : is_initialized (process_all py self batch) = true
              /\ publication_queue (process_all py self batch)
                 = publication_queue self
              /\ (exists added,
                     workflow_history (process_all py self batch)
                     = (workflow_history self ++ added)%list
                     /\ List.length added = List.length batch
                     /\ Forall (fun entry =>
                                  dict_get entry "approved"
                                  = Some (VBool false)) added)
              /\ keys (expert_agents (process_all py self batch))
                 = keys (expert_agents self)).
  { revert self Hinit.
    induction batch as [|[clock rq] rest IH]; intros self Hinit.
    - split; [exact Hinit|]. split; [reflexivity|].
      split; [|reflexivity]. exists []. rewrite app_nil_r.
      split; [reflexivity|]. split; [reflexivity | constructor].
    - cbn [process_all].
      destruct (@process_step py clock self rq Hinit)
        as (final_response & entry & _ & _ & _ & _ & Hi & _ & Hq & Hk & Hh
            & Ha).
      destruct (IH _ Hi) as (Hi' & Hq' & (added & Hh' & Hlen & Hall) & Hk').
      split; [exact Hi'|]. split; [rewrite Hq'; exact Hq|].
      split; [|rewrite Hk'; exact Hk].
      exists (entry :: added). rewrite Hh', Hh, <- app_assoc.
      split; [reflexivity|]. split; [simpl; rewrite Hlen; reflexivity|].
      constructor; assumption. }
  destruct H as (Hi & Hq & (added & Hh & Hlen & Hall) & Hk).
  destruct (recent_workflows_window (process_all py self batch))
    as [Hrecent Hsuffix].
  split; [exact Hi|].
  split; [unfold PrincipalAgent.publication_queue_size; rewrite Hq; reflexivity|].
  split.
  { unfold PrincipalAgent.workflow_history_count.
    rewrite Hh, length_app, Hlen. reflexivity. }
  split; [exact Hrecent|]. split; [exact Hsuffix|].
  split; [exists added; split; assumption | exact Hk].
Qed.

Lemma status_after_any_run_witness :
  PrincipalAgent.workflow_history_count
    (process_all py0 standard_principal
       [(clock0, budget_request); (clock0, general_request)]) = 2%nat.
Proof.
  apply (@status_after_any_run py0 standard_principal
           [(clock0, budget_request); (clock0, general_request)] eq_refl).
Defined.

(** A run of requests handed to one expert, each with the processing time
    measured for it and the clock reading of its evaluation. *)
Fixpoint expert_run (py : Builtins) (self : ExpertAgent)
         (batch : list (Q * Q * Request)) : ExpertAgent :=
  match batch with
  | [] => self
  | (processing_time, utcnow, request_data) :: rest =>
      expert_run py
        (fst (BaseExpertAgent.process py self processing_time utcnow
                request_data)) rest
  end.

Lemma process_keeps_consistency (py : Builtins) (self : ExpertAgent)
      (pt utcnow : Q) (rq : Request) :
  stats_consistent (processing_stats self) ->
  stats_consistent
    (processing_stats (fst (BaseExpertAgent.process py self pt utcnow rq)))
  /\ expert_kind (fst (BaseExpertAgent.process py self pt utcnow rq))
     = expert_kind self
  /\ total_requests
       (processing_stats (fst (BaseExpertAgent.process py self pt utcnow rq)))
     = S (total_requests (processing_stats self)).
Proof.
  intros (Htotal & Hlen & Hscores).
  unfold BaseExpertAgent.process.
  destruct (BaseExpertAgent._can_handle_request self rq) eqn:E;
    cbn [negb]; cbv iota.
  - destruct (expert_evaluation_returns py self pt utcnow rq) as [report Hr].
    cbv zeta. fold (timed_result self pt rq). rewrite Hr.
    cbn [fst processing_stats expert_kind total_requests].
    split; [|split; reflexivity].
    unfold stats_consistent.
    cbn [total_requests successful_requests failed_requests quality_scores].
    split; [lia|]. split.
    + rewrite length_app. simpl. lia.
    + apply Forall_app. split; [exact Hscores|].
      constructor; [|constructor].
      exact (expert_overall_in_unit _ _ _ _ _ Hr).
  - cbn [fst processing_stats BaseExpertAgent.count_failure expert_kind
         total_requests].
    split; [|split; reflexivity].
    unfold stats_consistent.
    cbn [total_requests successful_requests failed_requests quality_scores].
    split; [lia|]. split; assumption.
Qed.

Lemma sumQ_bounds (xs : list Q) :
  Forall (fun q => 0 <= q /\ q <= 1) xs ->
  0 <= sumQ xs /\ sumQ xs <= inject_Z (Z.of_nat (List.length xs)).
Proof.
  induction 1 as [|x xs [Hx0 Hx1] _ [IH0 IH1]].
  - split; unfold Qle; simpl; lia.
  - rewrite sumQ_cons. cbn [List.length]. rewrite Nat2Z.inj_succ.
    unfold Z.succ. rewrite inject_Z_plus. split.
    + replace 0 with (0 + 0) by reflexivity. apply Qplus_le_compat; assumption.
    + rewrite Qplus_comm. apply Qplus_le_compat; assumption.
Qed.

Lemma average_in_unit (self : ExpertAgent) :
  Forall (fun q => 0 <= q /\ q <= 1) (quality_scores (processing_stats self)) ->
  0 <= BaseExpertAgent.average_quality_score self
  /\ BaseExpertAgent.average_quality_score self <= 1.
Proof.
  intros H. unfold BaseExpertAgent.average_quality_score.
  destruct (quality_scores (processing_stats self)) as [|q qs] eqn:E.
  - split; unfold Qle; simpl; lia.
  - destruct (sumQ_bounds H) as [H0 H1].
    assert (Hpos : 0 < inject_Z (Z.of_nat (List.length (q :: qs)))).
    { unfold Qlt. simpl. lia. }
    split.
    + apply Qle_shift_div_l; [exact Hpos|]. rewrite Qmult_0_l. exact H0.
    + apply Qle_shift_div_r; [exact Hpos|]. rewrite Qmult_1_l. exact H1.
Qed.

(** X27.  Whatever requests an expert has handled since a state in which its
    counters agreed, they still agree: every request is counted once, as
    successful or failed, there is one recorded score per successful
    request, every recorded score lies in [0, 1], and so does the average
    quality score its status reports, which is 0 while no request has
    succeeded. *)
Theorem expert_status_after_any_run
        (py : Builtins) (self : ExpertAgent) (batch : list (Q * Q * Request))
        (Hstats : stats_consistent (processing_stats self)) :
  let after := expert_run py self batch in
  stats_consistent (processing_stats after)
  /\ expert_kind after = expert_kind self
  /\ total_requests (processing_stats after)
     = (total_requests (processing_stats self) + List.length batch)%nat
  /\ 0 <= BaseExpertAgent.average_quality_score after
  /\ BaseExpertAgent.average_quality_score after <= 1
  /\ (successful_requests (processing_stats after) = 0%nat ->
      BaseExpertAgent.average_quality_score after = 0.0).
Proof.
  cbv zeta.
  assert (H : stats_consistent (processing_stats (expert_run py self batch))
              /\ expert_kind (expert_run py self batch) = expert_kind self
              /\ total_requests (processing_stats (expert_run py self batch))
                 = (total_requests (processing_stats self)
                    + List.length batch)%nat).
  { revert self Hstats.
    induction batch as [|[[pt utcnow] rq] rest IH]; intros self Hstats.
    - split; [exact Hstats|]. split; [reflexivity|]. simpl. lia.
    - cbn [expert_run].
      destruct (@process_keeps_consistency py self pt utcnow rq Hstats)
        as (Hc & Hk & Ht).
      destruct (IH _ Hc) as (Hc' & Hk' & Ht').
      split; [exact Hc'|]. split; [rewrite Hk'; exact Hk|].
      rewrite Ht', Ht. simpl. lia. }
  destruct H as (Hc & Hk & Ht).
  split; [exact Hc|]. split; [exact Hk|]. split; [exact Ht|].
  destruct Hc as (_ & Hlen & Hscores).
  destruct (average_in_unit _ Hscores) as [H0 H1].
  split; [exact H0|]. split; [exact H1|].
  intros Hnone. unfold BaseExpertAgent.average_quality_score.
  destruct (quality_scores (processing_stats (expert_run py self batch)));
    [reflexivity|].
  rewrite Hnone in Hlen. discriminate Hlen.
Qed.

Lemma expert_status_after_any_run_witness :
  total_requests
    (processing_stats
       (expert_run py0 (BaseExpertAgent.new Financial)
          [(1, 0, budget_request); (1, 0, general_request)])) = 2%nat.
Proof.
  assert (Hstats : stats_consistent
                     (processing_stats (BaseExpertAgent.new Financial))).
  { split; [reflexivity|]. split; [reflexivity | constructor]. }
  apply (@expert_status_after_any_run py0 (BaseExpertAgent.new Financial)
           [(1, 0, budget_request); (1, 0, general_request)] Hstats).
Defined.

(** * The request types of the ingress model *)

(** The experts a request of each admitted type is routed to. *)
Definition routed_to (t : RequestType) : list string :=
  match t with
  | FINANCIAL_HEALTH => ["financial"]
  | UTILITY_MANAGEMENT => ["utility"]
  | VEHICLE_MANAGEMENT => ["vehicle"]
  | GENERAL => ["financial"; "utility"; "vehicle"]
  end.

Lemma typed_selection (self : PrincipalAgent) (rq : Request) (t : RequestType)
      (f u v : ExpertAgent) :
  expert_agents self = [("financial", f); ("utility", u); ("vehicle", v)] ->
  request_type rq = Some (RequestType_value t) ->
  PrincipalAgent._determine_required_experts self rq
  = match t with
    | FINANCIAL_HEALTH => [("financial", f)]
    | UTILITY_MANAGEMENT => [("utility", u)]
    | VEHICLE_MANAGEMENT => [("vehicle", v)]
    | GENERAL => [("financial", f); ("utility", u); ("vehicle", v)]
    end.
Proof.
  intros Hreg Htype. unfold PrincipalAgent._determine_required_experts.
  rewrite Hreg, Htype. destruct t; reflexivity.
Qed.

(** X28.  For each of the four request types the ingress model admits, an
    initialized orchestrator holding the three experts routes the request to
    the expert named by the type, or to all three for "general", and every
    expert it selects accepts the request: no admitted type produces a
    failed entry, and the synthesis counts one successful expert, or three
    for "general", and none failed. *)
Theorem admitted_request_types_are_served
        (py : Builtins) (clock : Clock) (self : PrincipalAgent)
        (request_data : Request) (t : RequestType) (f u v : ExpertAgent)
        (Hinit : is_initialized self = true)
        (Hregistry :
           expert_agents self
           = [("financial", f); ("utility", u); ("vehicle", v)])
        (Hf : expert_kind f = Financial)
        (Hu : expert_kind u = Utility)
        (Hv : expert_kind v = Vehicle)
        (Htype : request_type request_data = Some (RequestType_value t)) :
  keys (PrincipalAgent._determine_required_experts self request_data)
  = routed_to t
  /\ exists final_response expert_results,
      snd (PrincipalAgent.process py clock self request_data)
      = Ok final_response
      /\ dict_get final_response "expert_results" = Some (VDict expert_results)
      /\ keys expert_results = routed_to t
      /\ Forall (fun entry =>
                   exists d, entry = VDict d /\ dict_has d "error" = false)
                (values expert_results)
      /\ dict_get final_response "synthesis"
         = Some (VDict (uniform_synthesis false (List.length (routed_to t)))).
Proof.
  pose proof (@typed_selection self request_data t f u v Hregistry Htype)
    as Hsel.
  assert (Hkeys : keys (PrincipalAgent._determine_required_experts self
                          request_data) = routed_to t)
    by (rewrite Hsel; destruct t; reflexivity).
  split; [exact Hkeys|].
  assert (Hnd : NoDup (keys (expert_agents self))).
  { rewrite Hregistry. repeat constructor; simpl; intuition discriminate. }
  assert (Hacc : forall expert_name expert_agent,
             In (expert_name, expert_agent)
                (PrincipalAgent._determine_required_experts self request_data) ->
             BaseExpertAgent._can_handle_request expert_agent request_data
             = true).
  { intros expert_name expert_agent Hin. rewrite Hsel in Hin.
    unfold BaseExpertAgent._can_handle_request, BaseExpertAgent.expertise.
    rewrite Htype.
    destruct t; simpl in Hin;
      repeat match goal with
             | H : _ \/ _ |- _ => destruct H
             | H : False |- _ => destruct H
             | H : (_, _) = (_, _) |- _ => injection H as <- <-
             end;
      rewrite ?Hf, ?Hu, ?Hv; reflexivity. }
  destruct (@all_accept_outcome py clock self request_data Hinit Hnd Hacc)
    as (final_response & expert_results & Hp & Hr & Hk & Hentries & Hs).
  exists final_response, expert_results.
  split; [exact Hp|]. split; [exact Hr|].
  split; [rewrite Hk; exact Hkeys|]. split.
  - apply Forall_forall. intros entry Hentry.
    unfold values in Hentry. apply in_map_iff in Hentry.
    destruct Hentry as ([name entry'] & <- & Hin). cbn [snd].
    assert (Hname : In name
                       (keys (PrincipalAgent._determine_required_experts self
                                request_data))).
    { rewrite <- Hk. unfold keys. change name with (fst (name, entry')).
      apply in_map, Hin. }
    unfold keys in Hname. apply in_map_iff in Hname.
    destruct Hname as ([name' agent] & Hfst & Hsel'). cbn [fst] in Hfst.
    subst name'.
    destruct (Hentries name agent Hsel') as (entry & Hget & d & -> & He & _).
    assert (Hnd' : NoDup (keys expert_results)).
    { rewrite Hk. apply required_experts_NoDup, Hnd. }
    rewrite (@dict_get_In _ expert_results name entry' Hnd' Hin) in Hget.
    injection Hget as ->. exists d. split; [reflexivity | exact He].
  - rewrite Hs. do 3 f_equal. rewrite <- Hkeys. unfold keys.
    rewrite length_map. reflexivity.
Qed.

Lemma admitted_request_types_are_served_witness :
  keys (PrincipalAgent._determine_required_experts standard_principal
          utility_request) = ["utility"].
Proof.
  apply (@admitted_request_types_are_served py0 clock0 standard_principal
           utility_request UTILITY_MANAGEMENT (BaseExpertAgent.new Financial)
           (BaseExpertAgent.new Utility) (BaseExpertAgent.new Vehicle)
           eq_refl eq_refl eq_refl eq_refl eq_refl eq_refl).
Defined.

(** * The verdict on a synthesis *)

(** The report [process] obtains for its synthesis. *)
Definition synthesis_report (utcnow : Q) (request_data : Request)
  : QualityReport :=
  mkQualityReport PrincipalAgent.name
    (get_str (request_id request_data) "unknown")
    (_calculate_overall_score bare_metrics)
    (VStr "POOR")
    bare_metrics
    "Poor quality synthesis requiring review before publication"
    utcnow false false 0 0.

Lemma principal_report_bare (py : Builtins) (utcnow : Q) (d : dict)
      (rq : Request) :
  dict_get d "expert_results" = None ->
  dict_get d "synthesis" = None ->
  BaseAgent.evaluate_quality (PrincipalAgent.class py) utcnow d rq
  = Ok (synthesis_report utcnow rq).
Proof.
  intros H1 H2. unfold BaseAgent.evaluate_quality.
  change (v_get_quality_metrics (PrincipalAgent.class py))
    with PrincipalAgent.get_quality_metrics.
  rewrite (principal_assess_each_bare py d rq H1 H2). cbn [bind].
  change (v_generate_summary (PrincipalAgent.class py))
    with PrincipalAgent.generate_summary.
  change (v_determine_quality_level (PrincipalAgent.class py))
    with PrincipalAgent.determine_quality_level.
  change (v_get_quality_threshold (PrincipalAgent.class py))
    with PrincipalAgent.get_quality_threshold.
  change (v_name (PrincipalAgent.class py)) with PrincipalAgent.name.
  unfold PrincipalAgent.generate_summary,
    PrincipalAgent.determine_quality_level.
  replace (Qle_bool 0.9 (_calculate_overall_score bare_metrics)) with false
    by (vm_compute; reflexivity).
  replace (Qle_bool 0.8 (_calculate_overall_score bare_metrics)) with false
    by (vm_compute; reflexivity).
  replace (Qle_bool 0.7 (_calculate_overall_score bare_metrics)) with false
    by (vm_compute; reflexivity).
  replace (Qle_bool 0.6 (_calculate_overall_score bare_metrics)) with false
    by (vm_compute; reflexivity).
  replace (Qle_bool PrincipalAgent.get_quality_threshold
             (_calculate_overall_score bare_metrics)) with false
    by (vm_compute; reflexivity).
  cbn [bind andb]. reflexivity.
Qed.

(** X29.  The verdict of the orchestrator on its synthesis does not depend
    on the request or on what the experts returned: the evaluation is handed
    the synthesis itself, where its rules look for an envelope with
    "expert_results" and "synthesis" entries, so every cycle of an
    initialized orchestrator reports the same six scores (0.5, 0.3, 0.85,
    0.8, 0.65, 0.5), the overall score 0.58, the level POOR and the same
    summary, and marks the response as not approved. *)
Theorem orchestrator_verdict_is_constant
        (py : Builtins) (clock : Clock) (self : PrincipalAgent)
        (request_data : Request)
        (Hinit : is_initialized self = true) :
  exists final_response,
    snd (PrincipalAgent.process py clock self request_data) = Ok final_response
    /\ dict_get final_response "quality_report"
       = Some (VDict (BaseAgent.serialize_quality_report
                        (synthesis_report (principal_utcnow clock)
                           request_data)))
    /\ dict_get final_response "approved_for_publication" = Some (VBool false)
    /\ Forall2 Qeq (map score bare_metrics) [0.5; 0.3; 0.85; 0.8; 0.65; 0.5]
    /\ overall_score (synthesis_report (principal_utcnow clock) request_data)
       == 0.58.
Proof.
  unfold PrincipalAgent.process, PrincipalAgent.conclude. rewrite Hinit.
  cbn [negb]. cbv iota.
  destruct (PrincipalAgent.delegate py clock
              (PrincipalAgent._determine_required_experts self request_data)
              request_data (expert_agents self) [])
    as [agents expert_results].
  destruct (synthesis_is_bare request_data expert_results) as [H1 H2].
  cbv zeta.
  rewrite (@principal_report_bare py (principal_utcnow clock) _ request_data
             H1 H2).
  cbn [approved_for_publication synthesis_report snd].
  eexists. split; [reflexivity|]. split; [reflexivity|].
  split; [reflexivity|]. split; [|apply bare_overall_score].
  unfold bare_metrics. cbn [map score].
  repeat (constructor; [vm_compute; reflexivity|]). constructor.
Qed.

Lemma orchestrator_verdict_is_constant_witness :
  exists final_response,
    snd (PrincipalAgent.process py0 clock0 standard_principal general_request)
    = Ok final_response
    /\ dict_get final_response "approved_for_publication" = Some (VBool false).
Proof.
  destruct (@orchestrator_verdict_is_constant py0 clock0 standard_principal
              general_request eq_refl)
    as (final_response & Hp & _ & Ha & _).
  exists final_response. split; [exact Hp | exact Ha].
Defined.

(** * The response model of the process route *)

Lemma dict_has_existsb {V : Type} (d : list (string * V)) (k : string) :
  dict_has d k = existsb (String.eqb k) (keys d).
Proof.
  unfold dict_has. induction d as [|[k0 v0] d IH]; simpl; [reflexivity|].
  rewrite (String.eqb_sym k k0).
  destruct (String.eqb k0 k); [reflexivity | exact IH].
Qed.

(** X30.  Every final response of an initialized orchestrator lacks three
    of the nine fields that the response model of the route returning it
    declares, none of which has a default: "quality_assessments",
    "final_quality_report" and "publication_status" are keys of no final
    response.  The keys it has beyond the model's are "request_type",
    "status", "quality_report" and "timestamp". *)
Theorem final_response_lacks_model_fields
        (py : Builtins) (clock : Clock) (self : PrincipalAgent)
        (request_data : Request)
        (Hinit : is_initialized self = true) :
  exists final_response,
    snd (PrincipalAgent.process py clock self request_data) = Ok final_response
    /\ filter (fun field => negb (dict_has final_response field))
         PrincipalAgentResponseModel_fields
       = ["quality_assessments"; "final_quality_report"; "publication_status"]
    /\ filter (fun key =>
                 negb (existsb (String.eqb key)
                         PrincipalAgentResponseModel_fields))
         (keys final_response)
       = ["request_type"; "status"; "quality_report"; "timestamp"].
Proof.
  destruct (process_outcome py clock self request_data Hinit)
    as (final_response & Hp & Hkeys & _).
  exists final_response. split; [exact Hp|]. split.
  - unfold PrincipalAgentResponseModel_fields. cbn [filter].
    rewrite !dict_has_existsb, Hkeys. reflexivity.
  - rewrite Hkeys. reflexivity.
Qed.

Lemma final_response_lacks_model_fields_witness :
  exists final_response,
    snd (PrincipalAgent.process py0 clock0 standard_principal general_request)
    = Ok final_response
    /\ dict_has final_response "publication_status" = false.
Proof.
  destruct (@final_response_lacks_model_fields py0 clock0 standard_principal
              general_request eq_refl)
    as (final_response & Hp & Hmissing & _).
  exists final_response. split; [exact Hp|].
  destruct (dict_has final_response "publication_status") eqn:E;
    [|reflexivity].
  assert (Hin : In "publication_status"
                   (filter (fun field => negb (dict_has final_response field))
                      PrincipalAgentResponseModel_fields))
    by (rewrite Hmissing; simpl; tauto).
  apply filter_In in Hin. destruct Hin as [_ Hin].
  rewrite E in Hin. discriminate Hin.
Defined.
